(** * User-management service: accounts, lockout, roles, reset tokens

    A shallow embedding of [apps/users/models.py] and of the views of
    [apps/users/views.py] that sequence the model methods.

    Conventions.
    - A datetime is an integer number of microseconds (the resolution of
      Python's [datetime]); [timedelta] values are microsecond counts.
    - Every call of [timezone.now()] is an input of the function that makes
      it, so no relation between two clock readings is assumed.
    - A UUID primary key is a natural number in binary ([N]).
    - A database table is the list of its rows in insertion order; the
      uniqueness constraints of the schema are not built into the type, the
      query [Model.objects.get] reports what Django reports on each table.
    - Code that touches the database runs in the monad [M St]: it threads
      the state [St] (one table for a model method, all tables for a view)
      and either returns a value or raises a Python exception.  The
      collaborators that the views only notify (task queue, mail, audit
      log) keep no state here. *)

From stdpp Require Import gmap strings list pretty.

Local Open Scope Z_scope.

(** ** Time *)

Definition datetime := Z.

Module timedelta.
Definition microsecond : Z := 1.
Definition second : Z := 1000000 * microsecond.
Definition minutes (n : Z) : Z := n * 60 * second.
Definition hours (n : Z) : Z := n * 60 * minutes 1.
Definition days (n : Z) : Z := n * 24 * hours 1.
End timedelta.

(** ** Python exceptions that the modelled code can meet

    [ValidationError] is the one of the REST framework, which a serializer
    raises; [CoreValidationError] is [django.core.exceptions.ValidationError],
    which a lookup raises for a value that its column type cannot hold;
    [DataError] is what the database raises for a value that does not fit
    its column. *)

Inductive Model : Type :=
| UserModel
| RoleModel
| PasswordResetTokenModel.

#[global] Instance Model_eq_dec : EqDecision Model.
Proof. solve_decision. Defined.

Inductive Exn : Type :=
| DoesNotExist (model : Model)
| MultipleObjectsReturned
| IntegrityError
| DatabaseError
| DataError
| ValidationError
| CoreValidationError
| RecursionError.

#[global] Instance Exn_eq_dec : EqDecision Exn.
Proof. solve_decision. Defined.

Inductive Result (A : Type) : Type :=
| Ok (a : A)
| Raise (e : Exn).
Arguments Ok {A} a.
Arguments Raise {A} e.

(** ** State and exceptions *)

Definition M (St A : Type) : Type := St -> Result A * St.

Definition ret {St A : Type} (a : A) : M St A := fun s => (Ok a, s).

Definition raise {St A : Type} (e : Exn) : M St A := fun s => (Raise e, s).

Definition bind {St A B : Type} (m : M St A) (k : A -> M St B) : M St B :=
  fun s =>
    match m s with
    | (Ok a, s') => k a s'
    | (Raise e, s') => (Raise e, s')
    end.

(** [try: body except exn: handler] *)
Definition try_except {St A : Type} (body : M St A) (exn : Exn)
    (handler : M St A) : M St A :=
  fun s =>
    match body s with
    | (Ok a, s') => (Ok a, s')
    | (Raise e, s') =>
        if bool_decide (e = exn) then handler s' else (Raise e, s')
    end.

(** Reading the state, as a query does. *)
Definition query {St A : Type} (q : St -> Result A) : M St A :=
  fun s => (q s, s).

Notation "'let!' x ':=' c 'in' k" := (bind c (fun x => k))
  (at level 10, x name, c at level 100, k at level 200,
   format "'[v' 'let!'  x  ':='  c  'in' '/' k ']'").

(** ** Querysets over a table *)

Module QuerySet.
Section Table.
Context {Row : Type}.

(** [Model.objects.filter(...)]: the rows that satisfy the lookup. *)
Definition filter (p : Row -> bool) (rows : list Row) : list Row :=
  List.filter p rows.

(** [.count()] *)
Definition count (rows : list Row) : Z := Z.of_nat (length rows).

(** [.exists()] *)
Definition exists_ (rows : list Row) : bool :=
  match rows with [] => false | _ :: _ => true end.

(** [Model.objects.get(...)]: the single matching row, [Model.DoesNotExist]
    when there is none, [MultipleObjectsReturned] when there are several. *)
Definition get (model : Model) (p : Row -> bool) (rows : list Row)
    : Result Row :=
  match filter p rows with
  | [] => Raise (DoesNotExist model)
  | [r] => Ok r
  | _ :: _ :: _ => Raise MultipleObjectsReturned
  end.

(** [.update(...)] on a queryset: every matching row is rewritten and the
    number of rows matched is returned. *)
Definition update (p : Row -> bool) (f : Row -> Row) : M (list Row) Z :=
  fun rows =>
    (Ok (count (filter p rows)), map (fun r => if p r then f r else r) rows).

(** [Model.objects.create(...)]: the row is appended unless it collides
    with a stored row on a unique column ([clash]). *)
Definition create (clash : Row -> Row -> bool) (row : Row) : M (list Row) Row :=
  fun rows =>
    if exists_ (filter (clash row) rows)
    then (Raise IntegrityError, rows)
    else (Ok row, rows ++ [row]).

(** [instance.save(update_fields=[...])]: the listed columns of the row
    with the instance's primary key are overwritten ([copy instance row]);
    Django raises [DatabaseError] when no row was affected. *)
Definition save_update_fields (same_pk : Row -> Row -> bool)
    (copy : Row -> Row -> Row) (self : Row) : M (list Row) () :=
  fun rows =>
    if exists_ (filter (same_pk self) rows)
    then (Ok (), map (fun r => if same_pk self r then copy self r else r) rows)
    else (Raise DatabaseError, rows).

(** [instance.save()]: every column of the row with the instance's primary
    key is overwritten; the instance is inserted when there is no such
    row. *)
Definition save (same_pk : Row -> Row -> bool) (self : Row) : M (list Row) () :=
  fun rows =>
    if exists_ (filter (same_pk self) rows)
    then (Ok (), map (fun r => if same_pk self r then self else r) rows)
    else (Ok (), rows ++ [self]).

(** [Model.objects.get(...)] directly inside [try: ... except
    Model.DoesNotExist: ...]: the handler's case is [None]; several
    matching rows still raise [MultipleObjectsReturned]. *)
Definition get_or_none (p : Row -> bool) (rows : list Row)
    : Result (option Row) :=
  match filter p rows with
  | [] => Ok None
  | [r] => Ok (Some r)
  | _ :: _ :: _ => Raise MultipleObjectsReturned
  end.

(** [instance.delete()]: the rows with the instance's primary key go. *)
Definition delete (same_pk : Row -> Row -> bool) (self : Row)
    : M (list Row) () :=
  fun rows => (Ok (), filter (fun r => negb (same_pk self r)) rows).
End Table.
End QuerySet.

(** ** models.py: User *)

(** One entry of [User.active_sessions], the dict built by [add_session];
    [created_at] holds the instant whose ISO-8601 text the code stores. *)
Record SessionSummary : Type := {
  summary_id : string;
  summary_ip_address : string;
  summary_user_agent : string;
  summary_created_at : datetime
}.

Module User.
(** The columns that [class User] declares and the modelled code reads
    or writes. *)
Record t : Type := {
  id : N;
  email : string;
  password : string;
  is_active : bool;
  failed_login_attempts : Z;
  locked_until : option datetime;
  last_login : option datetime;
  last_login_ip : option string;
  last_login_user_agent : string;
  password_changed_at : option datetime;
  must_change_password : bool;
  active_sessions : list SessionSummary
}.

(** The columns that some [update_fields] list names. *)
Inductive Column : Type :=
| col_failed_login_attempts
| col_locked_until
| col_last_login
| col_last_login_ip
| col_last_login_user_agent
| col_active_sessions.

(** [row] with column [c] taken from [src]. *)
Definition copy_column (c : Column) (src row : t) : t :=
  {| id := id row;
     email := email row;
     password := password row;
     is_active := is_active row;
     failed_login_attempts :=
       match c with
       | col_failed_login_attempts => failed_login_attempts src
       | _ => failed_login_attempts row
       end;
     locked_until :=
       match c with
       | col_locked_until => locked_until src
       | _ => locked_until row
       end;
     last_login :=
       match c with col_last_login => last_login src | _ => last_login row end;
     last_login_ip :=
       match c with
       | col_last_login_ip => last_login_ip src
       | _ => last_login_ip row
       end;
     last_login_user_agent :=
       match c with
       | col_last_login_user_agent => last_login_user_agent src
       | _ => last_login_user_agent row
       end;
     password_changed_at := password_changed_at row;
     must_change_password := must_change_password row;
     active_sessions :=
       match c with
       | col_active_sessions => active_sessions src
       | _ => active_sessions row
       end |}.

Definition copy_columns (cs : list Column) (src row : t) : t :=
  foldr (fun c acc => copy_column c src acc) row cs.

(** Attribute assignments [self.<column> = v]. *)
Definition set_password_hash (v : string) (self : t) : t :=
  {| id := id self; email := email self;
     password := v; is_active := is_active self;
     failed_login_attempts := failed_login_attempts self;
     locked_until := locked_until self; last_login := last_login self;
     last_login_ip := last_login_ip self;
     last_login_user_agent := last_login_user_agent self;
     password_changed_at := password_changed_at self;
     must_change_password := must_change_password self;
     active_sessions := active_sessions self |}.

Definition set_failed_login_attempts (v : Z) (self : t) : t :=
  {| id := id self; email := email self;
     password := password self; is_active := is_active self;
     failed_login_attempts := v;
     locked_until := locked_until self; last_login := last_login self;
     last_login_ip := last_login_ip self;
     last_login_user_agent := last_login_user_agent self;
     password_changed_at := password_changed_at self;
     must_change_password := must_change_password self;
     active_sessions := active_sessions self |}.

Definition set_locked_until (v : option datetime) (self : t) : t :=
  {| id := id self; email := email self;
     password := password self; is_active := is_active self;
     failed_login_attempts := failed_login_attempts self;
     locked_until := v; last_login := last_login self;
     last_login_ip := last_login_ip self;
     last_login_user_agent := last_login_user_agent self;
     password_changed_at := password_changed_at self;
     must_change_password := must_change_password self;
     active_sessions := active_sessions self |}.

Definition set_last_login (v : option datetime) (self : t) : t :=
  {| id := id self; email := email self;
     password := password self; is_active := is_active self;
     failed_login_attempts := failed_login_attempts self;
     locked_until := locked_until self; last_login := v;
     last_login_ip := last_login_ip self;
     last_login_user_agent := last_login_user_agent self;
     password_changed_at := password_changed_at self;
     must_change_password := must_change_password self;
     active_sessions := active_sessions self |}.

Definition set_last_login_ip (v : option string) (self : t) : t :=
  {| id := id self; email := email self;
     password := password self; is_active := is_active self;
     failed_login_attempts := failed_login_attempts self;
     locked_until := locked_until self; last_login := last_login self;
     last_login_ip := v;
     last_login_user_agent := last_login_user_agent self;
     password_changed_at := password_changed_at self;
     must_change_password := must_change_password self;
     active_sessions := active_sessions self |}.

Definition set_last_login_user_agent (v : string) (self : t) : t :=
  {| id := id self; email := email self;
     password := password self; is_active := is_active self;
     failed_login_attempts := failed_login_attempts self;
     locked_until := locked_until self; last_login := last_login self;
     last_login_ip := last_login_ip self;
     last_login_user_agent := v;
     password_changed_at := password_changed_at self;
     must_change_password := must_change_password self;
     active_sessions := active_sessions self |}.

Definition set_password_changed_at (v : option datetime) (self : t) : t :=
  {| id := id self; email := email self;
     password := password self; is_active := is_active self;
     failed_login_attempts := failed_login_attempts self;
     locked_until := locked_until self; last_login := last_login self;
     last_login_ip := last_login_ip self;
     last_login_user_agent := last_login_user_agent self;
     password_changed_at := v;
     must_change_password := must_change_password self;
     active_sessions := active_sessions self |}.

Definition set_must_change_password (v : bool) (self : t) : t :=
  {| id := id self; email := email self;
     password := password self; is_active := is_active self;
     failed_login_attempts := failed_login_attempts self;
     locked_until := locked_until self; last_login := last_login self;
     last_login_ip := last_login_ip self;
     last_login_user_agent := last_login_user_agent self;
     password_changed_at := password_changed_at self;
     must_change_password := v;
     active_sessions := active_sessions self |}.

Definition set_active_sessions (v : list SessionSummary) (self : t) : t :=
  {| id := id self; email := email self;
     password := password self; is_active := is_active self;
     failed_login_attempts := failed_login_attempts self;
     locked_until := locked_until self; last_login := last_login self;
     last_login_ip := last_login_ip self;
     last_login_user_agent := last_login_user_agent self;
     password_changed_at := password_changed_at self;
     must_change_password := must_change_password self;
     active_sessions := v |}.

Definition same_pk (a b : t) : bool := bool_decide (id a = id b).

(** [is_account_locked]: [locked_until] is set and lies strictly after the
    clock reading. *)
Definition is_account_locked (now : datetime) (self : t) : bool :=
  match locked_until self with
  | Some until => bool_decide (until > now)
  | None => false
  end.

(** [increment_failed_login]: the counter is incremented, the lock is set
    once the counter has reached 5, and the two columns are saved.  The
    mutated instance is returned. *)
Definition increment_failed_login (now : datetime) (self : t) : M (list t) t :=
  let self := set_failed_login_attempts (failed_login_attempts self + 1) self in
  let self :=
    if bool_decide (failed_login_attempts self >= 5)
    then set_locked_until (Some (now + timedelta.minutes 30)) self
    else self in
  let! _ := QuerySet.save_update_fields same_pk
              (copy_columns [col_failed_login_attempts; col_locked_until])
              self in
  ret self.

(** [reset_failed_login] *)
Definition reset_failed_login (self : t) : M (list t) t :=
  let self := set_failed_login_attempts 0 self in
  let self := set_locked_until None self in
  let! _ := QuerySet.save_update_fields same_pk
              (copy_columns [col_failed_login_attempts; col_locked_until])
              self in
  ret self.

(** Python's [l[-n:]] for a positive [n]: the last [n] elements, the whole
    list when it is shorter. *)
Definition last_n {A : Type} (n : nat) (l : list A) : list A :=
  drop (length l - n)%nat l.

(** [add_session] *)
Definition add_session (now : datetime)
    (session_id ip_address user_agent : string) (self : t) : M (list t) t :=
  let session := {| summary_id := session_id;
                    summary_ip_address := ip_address;
                    summary_user_agent := user_agent;
                    summary_created_at := now |} in
  let self := set_active_sessions (active_sessions self ++ [session]) self in
  let self := set_active_sessions (last_n 10 (active_sessions self)) self in
  let! _ := QuerySet.save_update_fields same_pk
              (copy_columns [col_active_sessions]) self in
  ret self.

(** [remove_session]: the list comprehension keeps the entries whose
    ['id'] differs from [session_id]. *)
Definition remove_session (session_id : string) (self : t) : M (list t) t :=
  let self :=
    set_active_sessions
      (List.filter (fun s => negb (bool_decide (summary_id s = session_id)))
         (active_sessions self))
      self in
  let! _ := QuerySet.save_update_fields same_pk
              (copy_columns [col_active_sessions]) self in
  ret self.

Definition set_is_active (v : bool) (self : t) : t :=
  {| id := id self; email := email self;
     password := password self; is_active := v;
     failed_login_attempts := failed_login_attempts self;
     locked_until := locked_until self; last_login := last_login self;
     last_login_ip := last_login_ip self;
     last_login_user_agent := last_login_user_agent self;
     password_changed_at := password_changed_at self;
     must_change_password := must_change_password self;
     active_sessions := active_sessions self |}.

(** The column named by [update_fields=['is_active']]. *)
Definition copy_is_active (src row : t) : t :=
  set_is_active (is_active src) row.
End User.

(** ** models.py: Role *)

Module Role.
(** [permissions] is the set of primary keys of the permissions attached
    to the role; [parent_role] is the foreign-key column. *)
Record t : Type := {
  id : N;
  name : string;
  permissions : gset N;
  parent_role : option N
}.

(** [get_all_permissions].  [self.parent_role] follows the foreign key
    into the role table ([DoesNotExist] if the row is gone).  The method
    calls itself on the parent with no record of the roles already seen;
    [depth] is the number of frames the interpreter still allows, and
    Python raises [RecursionError] when they are used up. *)
Fixpoint get_all_permissions (depth : nat) (roles : gmap N t) (self : t)
    : Result (gset N) :=
  match depth with
  | O => Raise RecursionError
  | S depth =>
      let permissions := permissions self in
      match parent_role self with
      | Some parent_id =>
          match roles !! parent_id with
          | Some parent =>
              match get_all_permissions depth roles parent with
              | Ok inherited => Ok (permissions ∪ inherited)
              | Raise e => Raise e
              end
          | None => Raise (DoesNotExist RoleModel)
          end
      | None => Ok permissions
      end
  end.
End Role.

(** ** models.py: Tenant *)

Module Tenant.
Record t : Type := {
  id : N;
  max_users : Z
}.
End Tenant.

(** ** models.py: UserSession *)

Module UserSession.
Record t : Type := {
  id : N;
  user : N;
  session_key : string;
  jwt_token_id : string;
  ip_address : string;
  user_agent : string;
  expires_at : datetime;
  revoked_at : option datetime;
  is_active : bool
}.

(** The two columns written by [.update(is_active=False, revoked_at=...)]. *)
Definition revoked (now : datetime) (row : t) : t :=
  {| id := id row; user := user row; session_key := session_key row;
     jwt_token_id := jwt_token_id row; ip_address := ip_address row;
     user_agent := user_agent row; expires_at := expires_at row;
     revoked_at := Some now; is_active := false |}.

(** The primary key and [session_key] are unique columns. *)
Definition clash (a b : t) : bool :=
  bool_decide (id a = id b) || bool_decide (session_key a = session_key b).

Definition same_pk (a b : t) : bool := bool_decide (id a = id b).

(** The columns named by [update_fields=['is_active', 'revoked_at']]. *)
Definition copy_revoked (src row : t) : t :=
  {| id := id row; user := user row; session_key := session_key row;
     jwt_token_id := jwt_token_id row; ip_address := ip_address row;
     user_agent := user_agent row; expires_at := expires_at row;
     revoked_at := revoked_at src; is_active := is_active src |}.

(** [revoke] *)
Definition revoke (now : datetime) (self : t) : M (list t) t :=
  let self := revoked now self in
  let! _ := QuerySet.save_update_fields same_pk copy_revoked self in
  ret self.

(** The lookup [user=user, is_active=True]. *)
Definition active_of (user_id : N) (s : t) : bool :=
  bool_decide (user s = user_id) && is_active s.

(** [max_length=255] on [session_key] and [jwt_token_id]: the values fit
    their [varchar(255)] columns. *)
Definition fits (s : t) : bool :=
  bool_decide (String.length (session_key s) <= 255)%nat
  && bool_decide (String.length (jwt_token_id s) <= 255)%nat.

(** [UserSession.objects.create(...)]: the database refuses a value that
    is too long for its column with [DataError], and a row that collides
    with a stored one on a unique column with [IntegrityError]. *)
Definition create (row : t) : M (list t) t :=
  fun rows =>
    if fits row then QuerySet.create clash row rows
    else (Raise DataError, rows).
End UserSession.

(** ** models.py: LoginHistory *)

Module LoginHistory.
Record t : Type := {
  user : option N;
  email : string;
  success : bool;
  failure_reason : string;
  auth_method : string;
  ip_address : string;
  user_agent : string;
  risk_score : Z
}.

(** [LoginHistory.objects.create(...)] with the keywords the views pass;
    the other columns take their defaults.  [email] is a NOT NULL column:
    storing [None] raises [IntegrityError]. *)
Definition create (user : option N) (email : option string) (success : bool)
    (failure_reason : string) (ip_address user_agent : string)
    : M (list t) () :=
  match email with
  | Some email =>
      let! _ := QuerySet.create (fun _ _ => false)
                  {| user := user; email := email; success := success;
                     failure_reason := failure_reason;
                     auth_method := "password";
                     ip_address := ip_address; user_agent := user_agent;
                     risk_score := 0 |} in
      ret ()
  | None => raise IntegrityError
  end.
End LoginHistory.

(** ** models.py: PasswordResetToken *)

Module PasswordResetToken.
Record t : Type := {
  id : N;
  user : N;
  token : string;
  expires_at : datetime;
  used_at : option datetime;
  ip_address : string;
  user_agent : string;
  is_used : bool;
  is_revoked : bool
}.

Definition same_pk (a b : t) : bool := bool_decide (id a = id b).

(** The primary key and [token] are unique columns. *)
Definition clash (a b : t) : bool :=
  bool_decide (id a = id b) || bool_decide (token a = token b).

(** [is_valid] *)
Definition is_valid (now : datetime) (self : t) : bool :=
  if is_used self || is_revoked self then false
  else if bool_decide (expires_at self < now) then false
  else true.

(** The columns named by [update_fields=['is_used', 'used_at']]. *)
Definition copy_used (src row : t) : t :=
  {| id := id row; user := user row; token := token row;
     expires_at := expires_at row; used_at := used_at src;
     ip_address := ip_address row; user_agent := user_agent row;
     is_used := is_used src; is_revoked := is_revoked row |}.

(** [mark_as_used] *)
Definition mark_as_used (now : datetime) (self : t) : M (list t) t :=
  let self :=
    {| id := id self; user := user self; token := token self;
       expires_at := expires_at self; used_at := Some now;
       ip_address := ip_address self; user_agent := user_agent self;
       is_used := true; is_revoked := is_revoked self |} in
  let! _ := QuerySet.save_update_fields same_pk copy_used self in
  ret self.
End PasswordResetToken.

(** ** models.py: Tenant, subscription columns *)

Module TenantSubscription.
(** The two columns of [Tenant] that [is_subscription_active] reads. *)
Record t : Type := {
  subscription_status : string;
  subscription_expires_at : option datetime
}.

(** [Tenant.is_subscription_active] *)
Definition is_subscription_active (now : datetime) (self : t) : bool :=
  if negb (bool_decide (subscription_status self = "active")) then false
  else
    match subscription_expires_at self with
    | Some expires =>
        if bool_decide (expires < now) then false else true
    | None => true
    end.
End TenantSubscription.

(** ** models.py: Permission *)

Module Permission.
Record t : Type := {
  id : N;
  name : string;
  resource : string;
  action : string;
  scope : string
}.
End Permission.

(** ** models.py: UserRole *)

Module UserRole.
Record t : Type := {
  id : N;
  user : N;
  role : N;
  valid_from : datetime;
  valid_until : option datetime;
  assigned_by : option N;
  assignment_reason : string;
  organization : option N;
  team : option N
}.

(** [is_valid] *)
Definition is_valid (now : datetime) (self : t) : bool :=
  if bool_decide (valid_from self > now) then false
  else
    match valid_until self with
    | Some until => if bool_decide (until < now) then false else true
    | None => true
    end.

Definition same_pk (a b : t) : bool := bool_decide (id a = id b).

(** The primary key is unique, and so is the tuple named by
    [unique_together].  A tuple with an empty [organization] or [team] does
    not collide: SQL treats NULLs as distinct. *)
Definition clash (a b : t) : bool :=
  bool_decide (id a = id b)
  || (bool_decide (user a = user b) && bool_decide (role a = role b)
      && match organization a, organization b with
         | Some x, Some y => bool_decide (x = y)
         | _, _ => false
         end
      && match team a, team b with
         | Some x, Some y => bool_decide (x = y)
         | _, _ => false
         end).

(** The lookup [user=user, role=role]. *)
Definition assigned (user_id role_id : N) (r : t) : bool :=
  bool_decide (user r = user_id) && bool_decide (role r = role_id).

(** [UserRole.objects.get_or_create(user=..., role=..., defaults={...})]:
    the row found by the lookup, or a new row built from the lookup, the
    defaults and the column defaults, with a flag that tells which. *)
Definition get_or_create (now : datetime) (new_id : N) (user_id role_id : N)
    (assigned_by : option N) (assignment_reason : string)
    : M (list t) (t * bool) :=
  fun rows =>
    match QuerySet.filter (assigned user_id role_id) rows with
    | [] =>
        match QuerySet.create clash
                {| id := new_id; user := user_id; role := role_id;
                   valid_from := now; valid_until := None;
                   assigned_by := assigned_by;
                   assignment_reason := assignment_reason;
                   organization := None; team := None |} rows with
        | (Ok row, rows') => (Ok (row, true), rows')
        | (Raise e, rows') => (Raise e, rows')
        end
    | [row] => (Ok (row, false), rows)
    | _ :: _ :: _ => (Raise MultipleObjectsReturned, rows)
    end.
End UserRole.

(** ** The database and the HTTP boundary *)

Record World : Type := {
  users : list User.t;
  login_history : list LoginHistory.t;
  sessions : list UserSession.t;
  reset_tokens : list PasswordResetToken.t
}.

(** Running code of one table's manager inside a view. *)
Definition on_users {A : Type} (m : M (list User.t) A) : M World A :=
  fun w =>
    let (r, rows) := m (users w) in
    (r, {| users := rows; login_history := login_history w;
           sessions := sessions w; reset_tokens := reset_tokens w |}).

Definition on_login_history {A : Type} (m : M (list LoginHistory.t) A)
    : M World A :=
  fun w =>
    let (r, rows) := m (login_history w) in
    (r, {| users := users w; login_history := rows;
           sessions := sessions w; reset_tokens := reset_tokens w |}).

Definition on_sessions {A : Type} (m : M (list UserSession.t) A)
    : M World A :=
  fun w =>
    let (r, rows) := m (sessions w) in
    (r, {| users := users w; login_history := login_history w;
           sessions := rows; reset_tokens := reset_tokens w |}).

Definition on_reset_tokens {A : Type} (m : M (list PasswordResetToken.t) A)
    : M World A :=
  fun w =>
    let (r, rows) := m (reset_tokens w) in
    (r, {| users := users w; login_history := login_history w;
           sessions := sessions w; reset_tokens := rows |}).

(** The payloads that the modelled views put into a [Response]. *)
Inductive Body : Type :=
| ErrorBody (error : string)
| MessageBody (message : string)
| UserBody (data : User.t)
| LoginBody (access refresh : string) (user : User.t) (session_id : N)
    (expires_at : datetime).

Record Response : Type := {
  data : Body;
  status : Z
}.

Definition HTTP_200_OK : Z := 200.
Definition HTTP_201_CREATED : Z := 201.
Definition HTTP_400_BAD_REQUEST : Z := 400.
Definition HTTP_401_UNAUTHORIZED : Z := 401.
Definition HTTP_403_FORBIDDEN : Z := 403.
Definition HTTP_423_LOCKED : Z := 423.

(** The lookup [email=email] of [User.objects]; a missing request field is
    [None] and matches no row. *)
Definition email_is (email : option string) (u : User.t) : bool :=
  bool_decide (Some (User.email u) = email).

(** Python's [a or b] on strings that may be [None]. *)
Definition str_or (a : option string) (b : string) : string :=
  match a with
  | Some s => if bool_decide (s = "") then b else s
  | None => b
  end.

(** Python's [a or b] on two strings that may be [None], and the truth
    value of the result. *)
Definition opt_or (a b : option string) : option string :=
  match a with
  | Some s => if bool_decide (s = "") then b else a
  | None => b
  end.

Definition truthy (a : option string) : bool :=
  match a with
  | Some s => negb (bool_decide (s = ""))
  | None => false
  end.

(** The role tables, which the views on roles work on. *)
Record Rbac : Type := {
  rbac_roles : gmap N Role.t;
  rbac_permissions : gmap N Permission.t;
  rbac_user_roles : list UserRole.t
}.

Definition on_roles {A : Type} (m : M (gmap N Role.t) A) : M Rbac A :=
  fun s =>
    let (r, table) := m (rbac_roles s) in
    (r, {| rbac_roles := table; rbac_permissions := rbac_permissions s;
           rbac_user_roles := rbac_user_roles s |}).

Definition on_user_roles {A : Type} (m : M (list UserRole.t) A) : M Rbac A :=
  fun s =>
    let (r, rows) := m (rbac_user_roles s) in
    (r, {| rbac_roles := rbac_roles s; rbac_permissions := rbac_permissions s;
           rbac_user_roles := rows |}).

(** The payloads of the other views: [{'error': ...}], [{'status': ...}],
    an empty body, a serialized role assignment and a set of
    permissions. *)
Inductive Payload : Type :=
| Error (error : string)
| Status (status : string)
| Empty
| AssignedRole (data : UserRole.t)
| Permissions (data : gset N).

Record Reply : Type := {
  payload : Payload;
  code : Z
}.

Definition HTTP_204_NO_CONTENT : Z := 204.
Definition HTTP_404_NOT_FOUND : Z := 404.

(** A value of [request.data.get(...)] that a view passes to a lookup on
    a [UUIDField]: the field is missing or null ([None]); or the value is
    one that [UUIDField.to_python] converts; or it is any other value,
    such as a text that does not spell a UUID. *)
Module UUIDField.
Inductive RequestValue : Type :=
| absent
| uuid (k : N)
| malformed (raw : string).

(** [to_python], which the lookup applies to its value: [None] stays
    [None], and a value that is not a UUID raises
    [django.core.exceptions.ValidationError]. *)
Definition to_python (value : RequestValue) : Result (option N) :=
  match value with
  | absent => Ok None
  | uuid k => Ok (Some k)
  | malformed _ => Raise CoreValidationError
  end.
End UUIDField.

(** ** views.py: AuthenticationView *)

Module AuthenticationView.
(** What [post] reads from the request. *)
Record Request : Type := {
  data_email : option string;
  data_password : option string;
  client_ip : string;
  http_user_agent : option string;
  session_key : option string
}.

(** The readings of [timezone.now()] that [post] can make, in source
    order. *)
Record Clock : Type := {
  at_lock_check : datetime;
  at_failed_login : datetime;
  at_session_created : datetime;
  at_last_login : datetime
}.

(** What [RefreshToken.for_user] and the UUID default supply.  Each read of
    the property [refresh.access_token] mints a token of its own. *)
Record Minted : Type := {
  refresh : string;
  access_for_session_key : string;
  access_for_jwt_token_id : string;
  access_for_response : string;
  session_uuid : N
}.

(** [django.contrib.auth.authenticate] with the configured backends: it
    reads the user table and yields the authenticated user or [None]. *)
Definition Backend : Type :=
  list User.t -> option string -> option string -> option User.t.

Definition post (authenticate : Backend) (clock : Clock) (minted : Minted)
    (request : Request) : M World Response :=
  let email := data_email request in
  let password := data_password request in
  let ip_address := client_ip request in
  let user_agent := default "" (http_user_agent request) in
  let! user :=
    try_except
      (let! found :=
         on_users (query (QuerySet.get UserModel (email_is email))) in
       ret (Some found))
      (DoesNotExist UserModel)
      (ret None) in
  if match user with
     | Some user => User.is_account_locked (at_lock_check clock) user
     | None => false
     end
  then
    let! _ := on_login_history
                (LoginHistory.create (User.id <$> user) email false
                   "account_locked" ip_address user_agent) in
    ret {| data := ErrorBody "Account is locked. Please try again later.";
           status := HTTP_423_LOCKED |}
  else
    let! user :=
      on_users (query (fun rows => Ok (authenticate rows email password))) in
    match user with
    | None =>
        let! known :=
          on_users (query (fun rows =>
            Ok (QuerySet.exists_ (QuerySet.filter (email_is email) rows)))) in
        let! _ :=
          if known : bool then
            let! target_user :=
              on_users (query (QuerySet.get UserModel (email_is email))) in
            let! target_user :=
              on_users (User.increment_failed_login (at_failed_login clock)
                          target_user) in
            on_login_history
              (LoginHistory.create (Some (User.id target_user)) email false
                 "invalid_credentials" ip_address user_agent)
          else ret () in
        ret {| data := ErrorBody "Invalid credentials";
               status := HTTP_401_UNAUTHORIZED |}
    | Some user =>
        if negb (User.is_active user) then
          let! _ := on_login_history
                      (LoginHistory.create (Some (User.id user)) email false
                         "inactive_account" ip_address user_agent) in
          ret {| data := ErrorBody "Account is inactive";
                 status := HTTP_403_FORBIDDEN |}
        else
          let! user := on_users (User.reset_failed_login user) in
          let! session :=
            on_sessions
              (UserSession.create
                 {| UserSession.id := session_uuid minted;
                    UserSession.user := User.id user;
                    UserSession.session_key :=
                      str_or (session_key request)
                        (access_for_session_key minted);
                    UserSession.jwt_token_id := access_for_jwt_token_id minted;
                    UserSession.ip_address := ip_address;
                    UserSession.user_agent := user_agent;
                    UserSession.expires_at :=
                      at_session_created clock + timedelta.days 7;
                    UserSession.revoked_at := None;
                    UserSession.is_active := true |}) in
          let! _ := on_login_history
                      (LoginHistory.create (Some (User.id user)) email true
                         "" ip_address user_agent) in
          let user := User.set_last_login (Some (at_last_login clock)) user in
          let user := User.set_last_login_ip (Some ip_address) user in
          let user := User.set_last_login_user_agent user_agent user in
          let! _ := on_users
                      (QuerySet.save_update_fields User.same_pk
                         (User.copy_columns
                            [User.col_last_login; User.col_last_login_ip;
                             User.col_last_login_user_agent])
                         user) in
          ret {| data := LoginBody (access_for_response minted)
                           (refresh minted) user (UserSession.id session)
                           (UserSession.expires_at session);
                 status := HTTP_200_OK |}
    end.
End AuthenticationView.

(** ** views.py: UserViewSet *)

Module UserViewSet.
(** [UserCreateSerializer] bound to the request data.  The class is not
    part of the sources: whether the data validates against the stored
    users, and what [save(tenant=tenant)] does to the user table (the row
    it inserts, or the exception of the database when a unique column
    collides), are taken as given. *)
Record Serializer : Type := {
  is_valid : list User.t -> bool;
  save : Tenant.t -> M (list User.t) User.t
}.

(** Modelled from the spec: [class User] declares no [tenant] field in
    models.py; the column that [User.objects.filter(tenant=tenant)] reads
    comes with code that is not part of the sources.  The spec has every
    User belong to exactly one Tenant: a [TenantColumn] gives the id of
    that tenant for each row. *)
Definition TenantColumn : Type := User.t -> N.

(** The lookup [tenant=tenant]. *)
Definition of_tenant (column : TenantColumn) (tenant : Tenant.t) (u : User.t)
    : bool :=
  bool_decide (column u = Tenant.id tenant).

(** [create]; [tenant] is [request.tenant]. *)
Definition create (column : TenantColumn) (serializer : Serializer)
    (tenant : Tenant.t) : M World Response :=
  let! valid := on_users (query (fun rows => Ok (is_valid serializer rows))) in
  if negb valid then raise ValidationError
  else
    let! count :=
      on_users (query (fun rows =>
        Ok (QuerySet.count (QuerySet.filter (of_tenant column tenant) rows)))) in
    if bool_decide (Tenant.max_users tenant <= count) then
      ret {| data := ErrorBody "Tenant user limit reached";
             status := HTTP_403_FORBIDDEN |}
    else
      let! user := on_users (save serializer tenant) in
      ret {| data := UserBody user; status := HTTP_201_CREATED |}.

(** [deactivate]; [user] is what [get_object] found.  Two model instances
    are equal when their primary keys are. *)
Definition deactivate (now : datetime) (request_user user : User.t)
    : M World Reply :=
  if bool_decide (User.id user = User.id request_user) then
    ret {| payload := Error "Cannot deactivate your own account";
           code := HTTP_400_BAD_REQUEST |}
  else
    let user := User.set_is_active false user in
    let! _ := on_users
                (QuerySet.save_update_fields User.same_pk User.copy_is_active
                   user) in
    let! _ := on_sessions
                (QuerySet.update (UserSession.active_of (User.id user))
                   (UserSession.revoked now)) in
    ret {| payload := Status "User deactivated"; code := HTTP_200_OK |}.

(** [unlock] *)
Definition unlock (user : User.t) : M World Reply :=
  let! _ := on_users (User.reset_failed_login user) in
  ret {| payload := Status "User unlocked"; code := HTTP_200_OK |}.

(** [revoke_sessions] *)
Definition revoke_sessions (now : datetime) (user : User.t) : M World Reply :=
  let! count := on_sessions
                  (QuerySet.update (UserSession.active_of (User.id user))
                     (UserSession.revoked now)) in
  ret {| payload := Status (pretty count +:+ " sessions revoked");
         code := HTTP_200_OK |}.

(** [assign_role]; [role_id] and [reason] are the request fields; the
    lookup [Role.objects.get(id=role_id)] converts [role_id] first, and
    only [Role.DoesNotExist] is caught.  [new_id]
    and [now] the UUID and [valid_from] defaults of a new row. *)
Definition assign_role (now : datetime) (new_id : N)
    (request_user user : User.t) (role_id : UUIDField.RequestValue)
    (reason : option string) : M Rbac Reply :=
  let! key := query (fun _ => UUIDField.to_python role_id) in
  let! found :=
    query (fun s =>
      Ok (match key with
          | Some k => rbac_roles s !! k
          | None => None
          end)) in
  match found with
  | None =>
      ret {| payload := Error "Role not found"; code := HTTP_404_NOT_FOUND |}
  | Some role =>
      let! result :=
        on_user_roles
          (UserRole.get_or_create now new_id (User.id user) (Role.id role)
             (Some (User.id request_user)) (default "" reason)) in
      if snd result then
        ret {| payload := AssignedRole (fst result);
               code := HTTP_201_CREATED |}
      else
        ret {| payload := Error "Role already assigned";
               code := HTTP_400_BAD_REQUEST |}
  end.

(** The lookup [user=user, role_id=role_id] for a converted value; a
    missing request field is [None] and matches no row. *)
Definition assignment_of (user : User.t) (role_id : option N)
    (r : UserRole.t) : bool :=
  bool_decide (UserRole.user r = User.id user)
  && bool_decide (Some (UserRole.role r) = role_id).

(** [remove_role]; the lookup converts [role_id] first, and only
    [UserRole.DoesNotExist] is caught. *)
Definition remove_role (user : User.t) (role_id : UUIDField.RequestValue)
    : M Rbac Reply :=
  let! key := query (fun _ => UUIDField.to_python role_id) in
  let! found :=
    on_user_roles (query (QuerySet.get_or_none (assignment_of user key))) in
  match found with
  | Some user_role =>
      let! _ := on_user_roles (QuerySet.delete UserRole.same_pk user_role) in
      ret {| payload := Empty; code := HTTP_204_NO_CONTENT |}
  | None =>
      ret {| payload := Error "Role assignment not found";
             code := HTTP_404_NOT_FOUND |}
  end.



End UserViewSet.

(** ** views.py: PasswordResetView *)

Module PasswordResetView.
(** What [request_reset] reads from the request, and what
    [secrets.token_urlsafe] and the UUID default supply. *)
Record ResetRequest : Type := {
  data_email : option string;
  client_ip : string;
  http_user_agent : option string;
  token_urlsafe : string;
  token_uuid : N
}.

Definition request_reset (now : datetime) (request : ResetRequest)
    : M World Response :=
  let email := data_email request in
  let! _ :=
    try_except
      (let! user :=
         on_users (query (QuerySet.get UserModel (email_is email))) in
       let! token :=
         on_reset_tokens
           (QuerySet.create PasswordResetToken.clash
              {| PasswordResetToken.id := token_uuid request;
                 PasswordResetToken.user := User.id user;
                 PasswordResetToken.token := token_urlsafe request;
                 PasswordResetToken.expires_at := now + timedelta.hours 1;
                 PasswordResetToken.used_at := None;
                 PasswordResetToken.ip_address := client_ip request;
                 PasswordResetToken.user_agent :=
                   default "" (http_user_agent request);
                 PasswordResetToken.is_used := false;
                 PasswordResetToken.is_revoked := false |}) in
       ret ())
      (DoesNotExist UserModel)
      (ret ()) in
  ret {| data := MessageBody
                   "If the email exists, a password reset link has been sent.";
         status := HTTP_200_OK |}.

(** [PasswordResetSerializer] bound to the request data. *)
Record Serializer : Type := {
  is_valid : bool;
  validated_token : string;
  validated_new_password : string
}.

(** The readings of [timezone.now()] in [reset_password], in source
    order. *)
Record Clock : Type := {
  at_validity_check : datetime;
  at_password_changed : datetime;
  at_used : datetime;
  at_revoked : datetime
}.

(** The lookup [token=token, is_used=False, is_revoked=False]. *)
Definition live_token (token : string) (t : PasswordResetToken.t) : bool :=
  bool_decide (PasswordResetToken.token t = token)
  && negb (PasswordResetToken.is_used t)
  && negb (PasswordResetToken.is_revoked t).

Definition session_of (user : User.t) (s : UserSession.t) : bool :=
  bool_decide (UserSession.user s = User.id user) && UserSession.is_active s.

(** The foreign-key lookup behind [reset_token.user]. *)
Definition owner_of (t : PasswordResetToken.t) (u : User.t) : bool :=
  bool_decide (User.id u = PasswordResetToken.user t).

(** [reset_password]; [make_password] is Django's password hasher. *)
Definition reset_password (make_password : string -> string) (clock : Clock)
    (serializer : Serializer) : M World Response :=
  if negb (is_valid serializer) then raise ValidationError
  else
    let token := validated_token serializer in
    let new_password := validated_new_password serializer in
    try_except
      (let! reset_token :=
         on_reset_tokens
           (query (QuerySet.get PasswordResetTokenModel (live_token token))) in
       if negb (PasswordResetToken.is_valid (at_validity_check clock) reset_token)
       then
         ret {| data := ErrorBody "Invalid or expired token";
                status := HTTP_400_BAD_REQUEST |}
       else
         let! user :=
           on_users (query (QuerySet.get UserModel (owner_of reset_token))) in
         let user := User.set_password_hash (make_password new_password) user in
         let user :=
           User.set_password_changed_at (Some (at_password_changed clock)) user in
         let user := User.set_must_change_password false user in
         let! _ := on_users (QuerySet.save User.same_pk user) in
         let! reset_token :=
           on_reset_tokens
             (PasswordResetToken.mark_as_used (at_used clock) reset_token) in
         let! _ :=
           on_sessions
             (QuerySet.update (session_of user)
                (UserSession.revoked (at_revoked clock))) in
         ret {| data := MessageBody "Password reset successful";
                status := HTTP_200_OK |})
      (DoesNotExist PasswordResetTokenModel)
      (ret {| data := ErrorBody "Invalid token";
              status := HTTP_400_BAD_REQUEST |}).
End PasswordResetView.

(** ** views.py: LogoutView *)

Module LogoutView.
(** [logout]; [user] is [request.user], [data_session_id] the request
    field and [session_key] the key of the request's session. *)
Definition logout (now : datetime) (user : User.t)
    (data_session_id session_key : option string) : M World Reply :=
  let session_key := opt_or data_session_id session_key in
  let! _ :=
    if truthy session_key then
      let! found :=
        on_sessions
          (query (QuerySet.get_or_none (fun s =>
             bool_decide (Some (UserSession.session_key s) = session_key)
             && UserSession.active_of (User.id user) s))) in
      match found with
      | Some session =>
          let! _ := on_sessions (UserSession.revoke now session) in ret ()
      | None => ret ()
      end
    else ret () in
  ret {| payload := Status "Logged out successfully"; code := HTTP_200_OK |}.

(** [logout_all] *)
Definition logout_all (now : datetime) (user : User.t) : M World Reply :=
  let! count := on_sessions
                  (QuerySet.update (UserSession.active_of (User.id user))
                     (UserSession.revoked now)) in
  ret {| payload := Status ("Logged out from " +:+ pretty count +:+ " devices");
         code := HTTP_200_OK |}.
End LogoutView.

(** ** views.py: RoleViewSet *)

Module RoleViewSet.
(** [permissions]; [role] is what [get_object] found, [depth] the frames
    the interpreter still allows. *)
Definition permissions (depth : nat) (role : Role.t) : M Rbac Reply :=
  let! permissions :=
    query (fun s => Role.get_all_permissions depth (rbac_roles s) role) in
  ret {| payload := Permissions permissions; code := HTTP_200_OK |}.

(** [role.permissions.add(permission)]: the pair joins the relation if it
    is not in it; the row of the role must exist (foreign key). *)
Definition permissions_add (role : Role.t) (permission : Permission.t)
    : M (gmap N Role.t) () :=
  fun roles =>
    match roles !! Role.id role with
    | Some _ =>
        (Ok (),
         alter (fun r =>
                  {| Role.id := Role.id r; Role.name := Role.name r;
                     Role.permissions :=
                       Role.permissions r ∪ {[Permission.id permission]};
                     Role.parent_role := Role.parent_role r |})
           (Role.id role) roles)
    | None => (Raise IntegrityError, roles)
    end.

(** [assign_permission]; the lookup converts [permission_id] first, and
    only [Permission.DoesNotExist] is caught. *)
Definition assign_permission (role : Role.t)
    (permission_id : UUIDField.RequestValue) : M Rbac Reply :=
  let! key := query (fun _ => UUIDField.to_python permission_id) in
  let! found :=
    query (fun s =>
      Ok (match key with
          | Some k => rbac_permissions s !! k
          | None => None
          end)) in
  match found with
  | Some permission =>
      let! _ := on_roles (permissions_add role permission) in
      ret {| payload := Status "Permission assigned"; code := HTTP_200_OK |}
  | None =>
      ret {| payload := Error "Permission not found";
             code := HTTP_404_NOT_FOUND |}
  end.
End RoleViewSet.

(** ** views.py: PermissionViewSet *)

Module PermissionViewSet.
Section Serialized.
(** [PermissionSerializer(perm).data] *)
Context {Data : Type} (serialize : Permission.t -> Data).

(** The body of the loop of [by_resource]. *)
Definition group_one (grouped : gmap string (list Data))
    (perm : Permission.t) : gmap string (list Data) :=
  let resource := Permission.resource perm in
  let grouped :=
    match grouped !! resource with
    | Some _ => grouped
    | None => <[resource := []]> grouped
    end in
  <[resource := default [] (grouped !! resource) ++ [serialize perm]]> grouped.

(** [by_resource]; [permissions] is the evaluated queryset. *)
Definition by_resource (permissions : list Permission.t)
    : gmap string (list Data) :=
  foldl group_one ∅ permissions.
End Serialized.
End PermissionViewSet.

(** ** Drivers used to state properties of sequences of calls *)

(** One failed login after the other on the same account: each call of
    [increment_failed_login] works on the instance the previous one left. *)
Fixpoint failed_logins (times : list datetime) (self : User.t)
    : M (list User.t) User.t :=
  match times with
  | [] => ret self
  | now :: later =>
      let! self := User.increment_failed_login now self in
      failed_logins later self
  end.

(** The row of [rows] that an instance was loaded from and saves to. *)
Definition stored (self : User.t) (rows : list User.t) : bool :=
  QuerySet.exists_ (QuerySet.filter (User.same_pk self) rows).

(** The rows after saving the two lockout columns of [self]. *)
Definition lockout_saved (self : User.t) (rows : list User.t) : list User.t :=
  map (fun r =>
         if User.same_pk self r
         then User.copy_columns
                [User.col_failed_login_attempts; User.col_locked_until] self r
         else r) rows.

(** The chain of roles from [self] up to a role without parent, when the
    [parent_role] links lead to one. *)
Inductive Lineage (roles : gmap N Role.t) : Role.t -> list Role.t -> Prop :=
| lineage_root self :
    Role.parent_role self = None ->
    Lineage roles self [self]
| lineage_parent self parent_id parent chain :
    Role.parent_role self = Some parent_id ->
    roles !! parent_id = Some parent ->
    Lineage roles parent chain ->
    Lineage roles self (self :: chain).

(** The world after one row is appended to the login history. *)
Definition history_appended (row : LoginHistory.t) (w : World) : World :=
  {| users := users w; login_history := login_history w ++ [row];
     sessions := sessions w; reset_tokens := reset_tokens w |}.

(** The instance that [reset_failed_login] leaves. *)
Definition lockout_cleared (user : User.t) : User.t :=
  User.set_locked_until None (User.set_failed_login_attempts 0 user).

(** The world with other user rows. *)
Definition users_replaced (rows : list User.t) (w : World) : World :=
  {| users := rows; login_history := login_history w;
     sessions := sessions w; reset_tokens := reset_tokens w |}.

(** The session row that [post] inserts for an accepted login. *)
Definition login_session (clock : AuthenticationView.Clock)
    (minted : AuthenticationView.Minted)
    (request : AuthenticationView.Request) (user : User.t) : UserSession.t :=
  {| UserSession.id := AuthenticationView.session_uuid minted;
     UserSession.user := User.id user;
     UserSession.session_key :=
       str_or (AuthenticationView.session_key request)
         (AuthenticationView.access_for_session_key minted);
     UserSession.jwt_token_id :=
       AuthenticationView.access_for_jwt_token_id minted;
     UserSession.ip_address := AuthenticationView.client_ip request;
     UserSession.user_agent :=
       default "" (AuthenticationView.http_user_agent request);
     UserSession.expires_at :=
       AuthenticationView.at_session_created clock + timedelta.days 7;
     UserSession.revoked_at := None;
     UserSession.is_active := true |}.

(** The instance that [post] returns for an accepted login. *)
Definition login_stamped (clock : AuthenticationView.Clock)
    (request : AuthenticationView.Request) (user : User.t) : User.t :=
  User.set_last_login_user_agent
    (default "" (AuthenticationView.http_user_agent request))
    (User.set_last_login_ip (Some (AuthenticationView.client_ip request))
       (User.set_last_login (Some (AuthenticationView.at_last_login clock))
          (lockout_cleared user))).

(** The world with another session table. *)
Definition sessions_replaced (rows : list UserSession.t) (w : World) : World :=
  {| users := users w; login_history := login_history w;
     sessions := rows; reset_tokens := reset_tokens w |}.

(** The role tables with another assignment table. *)
Definition user_roles_replaced (rows : list UserRole.t) (s : Rbac) : Rbac :=
  {| rbac_roles := rbac_roles s; rbac_permissions := rbac_permissions s;
     rbac_user_roles := rows |}.

(** The assignment row that [assign_role] creates. *)
Definition new_assignment (now : datetime) (new_id : N)
    (request_user user : User.t) (role : Role.t) (reason : option string)
    : UserRole.t :=
  {| UserRole.id := new_id; UserRole.user := User.id user;
     UserRole.role := Role.id role;
     UserRole.valid_from := now; UserRole.valid_until := None;
     UserRole.assigned_by := Some (User.id request_user);
     UserRole.assignment_reason := default "" reason;
     UserRole.organization := None; UserRole.team := None |}.

(** The role row after a permission has joined it. *)
Definition granted (permission_id : N) (r : Role.t) : Role.t :=
  {| Role.id := Role.id r; Role.name := Role.name r;
     Role.permissions := Role.permissions r ∪ {[permission_id]};
     Role.parent_role := Role.parent_role r |}.

(** The session that [logout] looks for. *)
Definition logout_target (user : User.t) (key : option string)
    (s : UserSession.t) : bool :=
  truthy key
  && bool_decide (Some (UserSession.session_key s) = key)
  && UserSession.active_of (User.id user) s.

(** The row that [post] records for a rejected attempt on a known account. *)
Definition failure_row (user : User.t) (reason ip_address user_agent : string)
    : LoginHistory.t :=
  {| LoginHistory.user := Some (User.id user);
     LoginHistory.email := User.email user;
     LoginHistory.success := false;
     LoginHistory.failure_reason := reason;
     LoginHistory.auth_method := "password";
     LoginHistory.ip_address := ip_address;
     LoginHistory.user_agent := user_agent;
     LoginHistory.risk_score := 0 |}.

(** The lookup [token=token] alone: the stored tokens that carry the
    presented text, whatever their flags. *)
Definition token_is (token : string) (t : PasswordResetToken.t) : bool :=
  bool_decide (PasswordResetToken.token t = token).

(** A token as [mark_as_used] leaves it. *)
Definition marked_used (now : datetime) (t : PasswordResetToken.t)
    : PasswordResetToken.t :=
  {| PasswordResetToken.id := PasswordResetToken.id t;
     PasswordResetToken.user := PasswordResetToken.user t;
     PasswordResetToken.token := PasswordResetToken.token t;
     PasswordResetToken.expires_at := PasswordResetToken.expires_at t;
     PasswordResetToken.used_at := Some now;
     PasswordResetToken.ip_address := PasswordResetToken.ip_address t;
     PasswordResetToken.user_agent := PasswordResetToken.user_agent t;
     PasswordResetToken.is_used := true;
     PasswordResetToken.is_revoked := PasswordResetToken.is_revoked t |}.

(** A user as the password change of [reset_password] leaves it. *)
Definition password_changed (hash : string) (now : datetime) (u : User.t)
    : User.t :=
  User.set_must_change_password false
    (User.set_password_changed_at (Some now) (User.set_password_hash hash u)).

(** The reset tokens of [user] that satisfy [is_valid] at instant [now]. *)
Definition valid_tokens_of (now : datetime) (user : User.t)
    (rows : list PasswordResetToken.t) : list PasswordResetToken.t :=
  QuerySet.filter
    (fun t => bool_decide (PasswordResetToken.user t = User.id user)
              && PasswordResetToken.is_valid now t)
    rows.

(** The token row that [request_reset] creates. *)
Definition issued_token (now : datetime) (user : User.t)
    (request : PasswordResetView.ResetRequest) : PasswordResetToken.t :=
  {| PasswordResetToken.id := PasswordResetView.token_uuid request;
     PasswordResetToken.user := User.id user;
     PasswordResetToken.token := PasswordResetView.token_urlsafe request;
     PasswordResetToken.expires_at := now + timedelta.hours 1;
     PasswordResetToken.used_at := None;
     PasswordResetToken.ip_address := PasswordResetView.client_ip request;
     PasswordResetToken.user_agent :=
       default "" (PasswordResetView.http_user_agent request);
     PasswordResetToken.is_used := false;
     PasswordResetToken.is_revoked := false |}.

(** [reset_password] as far as [user.save()] (views.py 814-843): the
    answer, when the method returns before that, or else the token and
    the user instance that the method holds once the password is saved.
    The method opens no transaction, so what [save] has written is in the
    database from then on. *)
Definition reset_password_until_save (make_password : string -> string)
    (clock : PasswordResetView.Clock)
    (serializer : PasswordResetView.Serializer)
    : M World (Response + PasswordResetToken.t * User.t) :=
  if negb (PasswordResetView.is_valid serializer) then raise ValidationError
  else
    let token := PasswordResetView.validated_token serializer in
    let new_password := PasswordResetView.validated_new_password serializer in
    try_except
      (let! reset_token :=
         on_reset_tokens
           (query (QuerySet.get PasswordResetTokenModel
                     (PasswordResetView.live_token token))) in
       if negb (PasswordResetToken.is_valid
                  (PasswordResetView.at_validity_check clock) reset_token)
       then
         ret (inl {| data := ErrorBody "Invalid or expired token";
                     status := HTTP_400_BAD_REQUEST |})
       else
         let! user :=
           on_users (query (QuerySet.get UserModel
                              (PasswordResetView.owner_of reset_token))) in
         let user := User.set_password_hash (make_password new_password) user in
         let user :=
           User.set_password_changed_at
             (Some (PasswordResetView.at_password_changed clock)) user in
         let user := User.set_must_change_password false user in
         let! _ := on_users (QuerySet.save User.same_pk user) in
         ret (inr (reset_token, user)))
      (DoesNotExist PasswordResetTokenModel)
      (ret (inl {| data := ErrorBody "Invalid token";
                   status := HTTP_400_BAD_REQUEST |})).

(** The rest of [reset_password], from [reset_token.mark_as_used()] on
    (views.py 845-864), with the token and the user instance that the
    method holds. *)
Definition reset_password_after_save (clock : PasswordResetView.Clock)
    (held : PasswordResetToken.t * User.t) : M World Response :=
  let! reset_token :=
    on_reset_tokens
      (PasswordResetToken.mark_as_used (PasswordResetView.at_used clock)
         (fst held)) in
  let! _ :=
    on_sessions
      (QuerySet.update (PasswordResetView.session_of (snd held))
         (UserSession.revoked (PasswordResetView.at_revoked clock))) in
  ret {| data := MessageBody "Password reset successful";
         status := HTTP_200_OK |}.

(** Two requests, each with its own clock and data, served in this order:
    the first as far as its [user.save()], then the whole of the second,
    then the rest of the first.  The answers are those to the first and
    to the second request. *)
Definition reset_password_interleaved (make_password : string -> string)
    (clock_a : PasswordResetView.Clock)
    (serializer_a : PasswordResetView.Serializer)
    (clock_b : PasswordResetView.Clock)
    (serializer_b : PasswordResetView.Serializer)
    : M World (Response * Response) :=
  let! a := reset_password_until_save make_password clock_a serializer_a in
  let! response_b :=
    PasswordResetView.reset_password make_password clock_b serializer_b in
  let! response_a :=
    match a with
    | inl response => ret response
    | inr held => reset_password_after_save clock_a held
    end in
  ret (response_a, response_b).

(** The users of [tenant] that are flagged active. *)
Definition active_users_of (column : UserViewSet.TenantColumn)
    (tenant : Tenant.t) (rows : list User.t) : list User.t :=
  QuerySet.filter
    (fun u => UserViewSet.of_tenant column tenant u && User.is_active u) rows.

(** ** Sample data *)

(** Two roles that name each other as parent. *)
Definition role_a : Role.t :=
  {| Role.id := 1%N; Role.name := "A";
     Role.permissions := {[10%N; 11%N]}; Role.parent_role := Some 2%N |}.

Definition role_b : Role.t :=
  {| Role.id := 2%N; Role.name := "B";
     Role.permissions := {[11%N; 12%N]}; Role.parent_role := Some 1%N |}.

Definition cyclic_roles : gmap N Role.t :=
  <[1%N := role_a]> (<[2%N := role_b]> ∅).

(** A role with a parent that has none. *)
Definition role_editor : Role.t :=
  {| Role.id := 4%N; Role.name := "editor";
     Role.permissions := {[11%N; 12%N]}; Role.parent_role := Some 3%N |}.

Definition role_viewer : Role.t :=
  {| Role.id := 3%N; Role.name := "viewer";
     Role.permissions := {[10%N; 11%N]}; Role.parent_role := None |}.

Definition tree_roles : gmap N Role.t :=
  <[3%N := role_viewer]> (<[4%N := role_editor]> ∅).

(** An account, a database that holds only that account, and requests. *)
Definition alice : User.t :=
  {| User.id := 7%N; User.email := "alice@example.com";
     User.password := "pbkdf2$old"; User.is_active := true;
     User.failed_login_attempts := 0; User.locked_until := None;
     User.last_login := None; User.last_login_ip := None;
     User.last_login_user_agent := "";
     User.password_changed_at := None; User.must_change_password := false;
     User.active_sessions := [] |}.

Definition world0 : World :=
  {| users := [alice]; login_history := []; sessions := [];
     reset_tokens := [] |}.

Definition first_request : PasswordResetView.ResetRequest :=
  {| PasswordResetView.data_email := Some "alice@example.com";
     PasswordResetView.client_ip := "10.0.0.1";
     PasswordResetView.http_user_agent := Some "curl";
     PasswordResetView.token_urlsafe := "first-token";
     PasswordResetView.token_uuid := 100%N |}.

Definition second_request : PasswordResetView.ResetRequest :=
  {| PasswordResetView.data_email := Some "alice@example.com";
     PasswordResetView.client_ip := "10.0.0.1";
     PasswordResetView.http_user_agent := Some "curl";
     PasswordResetView.token_urlsafe := "second-token";
     PasswordResetView.token_uuid := 101%N |}.

(** The database after a reset is requested at instant 0 and again one
    minute later. *)
Definition world_two_requests : World :=
  snd (PasswordResetView.request_reset (timedelta.minutes 1) second_request
         (snd (PasswordResetView.request_reset 0 first_request world0))).

Definition first_token_presented : PasswordResetView.Serializer :=
  {| PasswordResetView.is_valid := true;
     PasswordResetView.validated_token := "first-token";
     PasswordResetView.validated_new_password := "correct horse" |}.

(** The same token presented by someone else, with another password. *)
Definition first_token_presented_again : PasswordResetView.Serializer :=
  {| PasswordResetView.is_valid := true;
     PasswordResetView.validated_token := "first-token";
     PasswordResetView.validated_new_password := "battery staple" |}.

Definition reset_clock (now : datetime) : PasswordResetView.Clock :=
  {| PasswordResetView.at_validity_check := now;
     PasswordResetView.at_password_changed := now;
     PasswordResetView.at_used := now;
     PasswordResetView.at_revoked := now |}.

(** A hasher stand-in for the examples. *)
Definition sample_hasher (raw : string) : string := "pbkdf2$" +:+ raw.

(** A tenant with room for one user, whose only user is deactivated. *)
Definition small_tenant : Tenant.t :=
  {| Tenant.id := 1%N; Tenant.max_users := 1 |}.

Definition bob_inactive : User.t :=
  {| User.id := 8%N; User.email := "bob@example.com";
     User.password := "pbkdf2$bob"; User.is_active := false;
     User.failed_login_attempts := 0; User.locked_until := None;
     User.last_login := None; User.last_login_ip := None;
     User.last_login_user_agent := "";
     User.password_changed_at := None; User.must_change_password := false;
     User.active_sessions := [] |}.

Definition world_bob : World :=
  {| users := [bob_inactive]; login_history := []; sessions := [];
     reset_tokens := [] |}.

(** Every sample account belongs to the tenant with id 1. *)
Definition sample_tenant_column : UserViewSet.TenantColumn := fun _ => 1%N.

Definition carol : User.t :=
  {| User.id := 9%N; User.email := "carol@example.com";
     User.password := "pbkdf2$carol"; User.is_active := true;
     User.failed_login_attempts := 0; User.locked_until := None;
     User.last_login := None; User.last_login_ip := None;
     User.last_login_user_agent := "";
     User.password_changed_at := None;
     User.must_change_password := false;
     User.active_sessions := [] |}.

(** Request data that validates, and a [save] that inserts the row. *)
Definition carol_serializer : UserViewSet.Serializer :=
  {| UserViewSet.is_valid := fun _ => true;
     UserViewSet.save := fun _ rows => (Ok carol, rows ++ [carol]) |}.

(** The same account after five failures, the last one at instant 50. *)
Definition alice_locked : User.t :=
  User.set_locked_until (Some (50 + timedelta.minutes 30))
    (User.set_failed_login_attempts 5 alice).

Definition world_locked : World :=
  {| users := [alice_locked]; login_history := []; sessions := [];
     reset_tokens := [] |}.

(** A backend in the manner of Django's [ModelBackend], over the sample
    hasher: the account with the address, if its password hash matches. *)
Definition sample_backend : AuthenticationView.Backend :=
  fun rows email password =>
    match QuerySet.filter (email_is email) rows, password with
    | [u], Some raw =>
        if bool_decide (User.password u = sample_hasher raw)
        then Some u else None
    | _, _ => None
    end.

Definition login_request (email password : string)
    : AuthenticationView.Request :=
  {| AuthenticationView.data_email := Some email;
     AuthenticationView.data_password := Some password;
     AuthenticationView.client_ip := "10.0.0.1";
     AuthenticationView.http_user_agent := Some "curl";
     AuthenticationView.session_key := None |}.

Definition login_clock (now : datetime) : AuthenticationView.Clock :=
  {| AuthenticationView.at_lock_check := now;
     AuthenticationView.at_failed_login := now;
     AuthenticationView.at_session_created := now;
     AuthenticationView.at_last_login := now |}.

Definition sample_minted : AuthenticationView.Minted :=
  {| AuthenticationView.refresh := "refresh.jwt";
     AuthenticationView.access_for_session_key := "access.jwt.1";
     AuthenticationView.access_for_jwt_token_id := "access.jwt.2";
     AuthenticationView.access_for_response := "access.jwt.3";
     AuthenticationView.session_uuid := 500%N |}.

(** A token of the size that the configured RS256 signing gives: after the
    header and the claims comes a signature of 342 characters. *)
Fixpoint signature (n : nat) : string :=
  match n with
  | O => ""
  | S n => String (Ascii.ascii_of_nat 65) (signature n)
  end.

Definition rs256_token (claims : string) : string :=
  "eyJhbGciOiJSUzI1NiIsInR5cCI6IkpXVCJ9." +:+ claims +:+ "."
  +:+ signature 342.

Definition rs256_minted : AuthenticationView.Minted :=
  {| AuthenticationView.refresh := rs256_token "refresh";
     AuthenticationView.access_for_session_key := rs256_token "access1";
     AuthenticationView.access_for_jwt_token_id := rs256_token "access2";
     AuthenticationView.access_for_response := rs256_token "access3";
     AuthenticationView.session_uuid := 500%N |}.

(** Login attempts one after the other, each at its own instant; the
    responses are collected, an exception ends the run. *)
Fixpoint posts (authenticate : AuthenticationView.Backend)
    (attempts : list (datetime * AuthenticationView.Request))
    : M World (list Response) :=
  match attempts with
  | [] => ret []
  | (now, request) :: later =>
      let! response :=
        AuthenticationView.post authenticate (login_clock now) sample_minted
          request in
      let! responses := posts authenticate later in
      ret (response :: responses)
  end.

(** An account with a full session history. *)
Definition summary_named (session_id : string) : SessionSummary :=
  {| summary_id := session_id; summary_ip_address := "10.0.0.1";
     summary_user_agent := "curl"; summary_created_at := 0 |}.

Definition alice_ten_sessions : User.t :=
  User.set_active_sessions
    (summary_named
       <$> ["s0"; "s1"; "s2"; "s3"; "s4"; "s5"; "s6"; "s7"; "s8"; "s9"])
    alice.

(** Three sessions, two of one account and one of another. *)
Definition sample_session (id user : N) (key : string) : UserSession.t :=
  {| UserSession.id := id; UserSession.user := user;
     UserSession.session_key := key; UserSession.jwt_token_id := "jwt";
     UserSession.ip_address := "10.0.0.1"; UserSession.user_agent := "curl";
     UserSession.expires_at := timedelta.days 7;
     UserSession.revoked_at := None; UserSession.is_active := true |}.

Definition world_sessions : World :=
  {| users := [alice; bob_inactive]; login_history := [];
     sessions := [sample_session 201 7 "key-1"; sample_session 202 7 "key-2";
                  sample_session 203 8 "key-3"];
     reset_tokens := [] |}.

(** The account of the examples, deactivated. *)
Definition alice_inactive : User.t := User.set_is_active false alice.

Definition world_inactive : World :=
  {| users := [alice_inactive]; login_history := []; sessions := [];
     reset_tokens := [] |}.


(** Role tables over the sample roles. *)
Definition permission_admin : Permission.t :=
  {| Permission.id := 13%N; Permission.name := "admin.all";
     Permission.resource := "admin"; Permission.action := "all";
     Permission.scope := "tenant" |}.

Definition rbac_tree : Rbac :=
  {| rbac_roles := tree_roles;
     rbac_permissions := <[13%N := permission_admin]> ∅;
     rbac_user_roles := [] |}.

Definition rbac_cycle : Rbac :=
  {| rbac_roles := cyclic_roles; rbac_permissions := ∅;
     rbac_user_roles := [] |}.

(** An assignment valid from instant 10 to instant 20, and a subscription
    that expires at instant 100. *)
Definition temporary_assignment : UserRole.t :=
  {| UserRole.id := 1%N; UserRole.user := 7%N; UserRole.role := 3%N;
     UserRole.valid_from := 10; UserRole.valid_until := Some 20;
     UserRole.assigned_by := None; UserRole.assignment_reason := "";
     UserRole.organization := None; UserRole.team := None |}.

Definition trial_subscription : TenantSubscription.t :=
  {| TenantSubscription.subscription_status := "active";
     TenantSubscription.subscription_expires_at := Some 100 |}.

(** * Properties *)

(** ** Querysets *)

Section QuerySetFacts.
Context {Row : Type}.
Implicit Types (p : Row -> bool) (rows : list Row).

Lemma exists_filter_true p rows :
  QuerySet.exists_ (QuerySet.filter p rows) = true <-> ∃ r, r ∈ rows ∧ p r = true.
Proof.
  unfold QuerySet.filter. induction rows as [|x xs IH]; simpl.
  - split; [discriminate|]. intros (r & Hr & _). by apply elem_of_nil in Hr.
  - destruct (p x) eqn:Hx; simpl.
    + split; [|done]. intros _. exists x. split; [left|done].
    + rewrite IH. split.
      * intros (r & Hr & Hp). exists r. split; [by right|done].
      * intros (r & Hr & Hp). apply elem_of_cons in Hr as [->|Hr]; [congruence|].
        by exists r.
Qed.

Lemma get_Ok_inv model p rows r :
  QuerySet.get model p rows = Ok r -> QuerySet.filter p rows = [r].
Proof.
  unfold QuerySet.get. destruct (QuerySet.filter p rows) as [|a [|b l]]; congruence.
Qed.

Lemma get_Ok_holds model p rows r :
  QuerySet.get model p rows = Ok r -> r ∈ rows ∧ p r = true.
Proof.
  intros H%get_Ok_inv. unfold QuerySet.filter in H.
  assert (Hin : In r (List.filter p rows)) by (rewrite H; by left).
  apply filter_In in Hin as [Hin Hp]. split; [by apply list_elem_of_In|done].
Qed.

Lemma get_Ok_exists model p rows r :
  QuerySet.get model p rows = Ok r ->
  QuerySet.exists_ (QuerySet.filter p rows) = true.
Proof. intros H%get_Ok_inv. by rewrite H. Qed.

(** A rewrite of rows that does not change what the lookup sees commutes
    with the lookup. *)
Lemma filter_map_stable p (f : Row -> Row) rows :
  (∀ r, p (f r) = p r) ->
  QuerySet.filter p (map f rows) = map f (QuerySet.filter p rows).
Proof.
  intros Hf. unfold QuerySet.filter. induction rows as [|x xs IH]; simpl; [done|].
  rewrite Hf. destruct (p x); simpl; by rewrite IH.
Qed.

Lemma exists_map (f : Row -> Row) rows :
  QuerySet.exists_ (map f rows) = QuerySet.exists_ rows.
Proof. by destruct rows. Qed.

Lemma save_update_fields_stored same_pk copy (self : Row) rows :
  QuerySet.exists_ (QuerySet.filter (same_pk self) rows) = true ->
  QuerySet.save_update_fields same_pk copy self rows
  = (Ok (), map (fun r => if same_pk self r then copy self r else r) rows).
Proof. intros H. unfold QuerySet.save_update_fields. by rewrite H. Qed.
End QuerySetFacts.

(** ** Lockout counter *)

Lemma same_pk_set_failed_login_attempts v u r :
  User.same_pk (User.set_failed_login_attempts v u) r = User.same_pk u r.
Proof. done. Qed.

Lemma same_pk_set_locked_until v u r :
  User.same_pk (User.set_locked_until v u) r = User.same_pk u r.
Proof. done. Qed.

Lemma same_pk_copy_columns cs src u r :
  User.same_pk u (User.copy_columns cs src r) = User.same_pk u r.
Proof. induction cs as [|c cs IH]; [done|]. simpl. by rewrite <- IH. Qed.

Lemma stored_lockout_saved self other rows :
  stored self (lockout_saved other rows) = stored self rows.
Proof.
  unfold stored, lockout_saved.
  rewrite filter_map_stable, exists_map; [done|].
  intros r. destruct (User.same_pk other r); [|done].
  apply same_pk_copy_columns.
Qed.

(** What one call of [increment_failed_login] does, for an instance whose
    row is stored. *)
Lemma increment_failed_login_step now self rows :
  stored self rows = true ->
  let attempts := User.failed_login_attempts self + 1 in
  let self' :=
    User.set_locked_until
      (if bool_decide (attempts >= 5)
       then Some (now + timedelta.minutes 30)
       else User.locked_until self)
      (User.set_failed_login_attempts attempts self) in
  User.increment_failed_login now self rows
  = (Ok self', lockout_saved self' rows).
Proof.
  intros Hst. simpl. unfold User.increment_failed_login, bind, ret. simpl.
  case_bool_decide.
  - rewrite save_update_fields_stored by done. done.
  - rewrite save_update_fields_stored by done. by destruct self.
Qed.

(** After the two lockout columns are saved, every row with the primary
    key of the instance carries the instance's counter and lock. *)
Lemma lockout_saved_row self rows r :
  r ∈ lockout_saved self rows ->
  User.id r = User.id self ->
  User.failed_login_attempts r = User.failed_login_attempts self
  ∧ User.locked_until r = User.locked_until self.
Proof.
  unfold lockout_saved. intros Hin Hid.
  apply list_elem_of_fmap in Hin as (r0 & -> & _).
  unfold User.same_pk in *. case_bool_decide as Hpk; [done|].
  simpl in Hid. congruence.
Qed.

Lemma failed_logins_snoc times now self rows :
  failed_logins (times ++ [now]) self rows
  = match failed_logins times self rows with
    | (Ok self', rows') => User.increment_failed_login now self' rows'
    | (Raise e, rows') => (Raise e, rows')
    end.
Proof.
  revert self rows. induction times as [|t ts IH]; intros self rows; simpl.
  - unfold bind, ret.
    by destruct (User.increment_failed_login now self rows) as [[?|?] ?].
  - unfold bind.
    destruct (User.increment_failed_login t self rows) as [[s1|e] rows1]; [|done].
    apply IH.
Qed.

(** The state of an account after any number of failed logins in a row. *)
Lemma failed_logins_run times self rows :
  stored self rows = true ->
  ∃ self' rows',
    failed_logins times self rows = (Ok self', rows')
    ∧ User.id self' = User.id self
    ∧ stored self' rows' = true
    ∧ User.failed_login_attempts self'
      = User.failed_login_attempts self + Z.of_nat (length times)
    ∧ (User.failed_login_attempts self + Z.of_nat (length times) < 5 ->
       User.locked_until self' = User.locked_until self)
    ∧ (∀ before now, times = before ++ [now] ->
       User.failed_login_attempts self + Z.of_nat (length times) >= 5 ->
       User.locked_until self' = Some (now + timedelta.minutes 30))
    ∧ (times ≠ [] -> ∀ r, r ∈ rows' -> User.id r = User.id self ->
       User.failed_login_attempts r = User.failed_login_attempts self'
       ∧ User.locked_until r = User.locked_until self').
Proof.
  intros Hst. induction times as [|now times IH] using rev_ind.
  - exists self, rows. simpl. unfold ret. repeat split; try done; try lia.
    intros before now Hnil. by destruct before.
  - destruct IH as (s1 & rows1 & Hrun & Hid & Hst1 & Hcnt & Hlow & _ & _).
    rewrite failed_logins_snoc, Hrun.
    pose proof (increment_failed_login_step now s1 rows1 Hst1) as Hstep.
    simpl in Hstep. rewrite Hstep. clear Hstep.
    rewrite length_app, Nat2Z.inj_add. simpl length.
    eexists _, _. split; [reflexivity|].
    split; [done|]. split.
    { rewrite stored_lockout_saved. exact Hst1. }
    split; [simpl; lia|]. split.
    { intros Hlt. simpl. rewrite bool_decide_eq_false_2 by lia. apply Hlow. lia. }
    split.
    { intros before now' Heq Hge. apply app_inj_tail in Heq as [_ <-].
      simpl. rewrite bool_decide_eq_true_2 by lia. done. }
    intros _ r Hin Hr. eapply lockout_saved_row; [exact Hin|]. simpl. congruence.
Qed.

(** C4.  Starting from a stored account with no failure and no lock, the
    counter after any run of failed logins is the number of failures (each
    call adds exactly one); with fewer than five failures [locked_until]
    stays unset; the fifth failure, recorded at instant [now], sets
    [locked_until] to exactly [now] + 30 minutes; and the saved row carries
    the same counter and lock. *)
Theorem five_failures_lock_for_30_minutes (self : User.t)
    (rows : list User.t) (times : list datetime) :
  User.failed_login_attempts self = 0 ->
  User.locked_until self = None ->
  stored self rows = true ->
  ∃ self' rows',
    failed_logins times self rows = (Ok self', rows')
    ∧ User.failed_login_attempts self' = Z.of_nat (length times)
    ∧ ((length times < 5)%nat -> User.locked_until self' = None)
    ∧ (∀ before now, times = before ++ [now] -> length times = 5%nat ->
       User.locked_until self' = Some (now + timedelta.minutes 30))
    ∧ (times ≠ [] -> ∀ r, r ∈ rows' -> User.id r = User.id self ->
       User.failed_login_attempts r = User.failed_login_attempts self'
       ∧ User.locked_until r = User.locked_until self').
Proof.
  intros Hzero Hnone Hst.
  destruct (failed_logins_run times self rows Hst)
    as (self' & rows' & Hrun & _ & _ & Hcnt & Hlow & Hfifth & Hrow).
  exists self', rows'. rewrite Hzero in *.
  split; [done|]. split; [lia|]. split.
  { intros Hlt. rewrite Hlow by lia. done. }
  split; [|done].
  intros before now Heq Hlen. apply (Hfifth before now Heq). lia.
Qed.

(** [reset_failed_login] leaves the counter at zero and the lock unset
    whatever they were before, on the instance and on the saved row;
    [is_account_locked] is then false at any instant. *)
Lemma reset_failed_login_clears (self : User.t) (rows : list User.t) :
  stored self rows = true ->
  ∃ self' rows',
    User.reset_failed_login self rows = (Ok self', rows')
    ∧ User.failed_login_attempts self' = 0
    ∧ User.locked_until self' = None
    ∧ (∀ now, User.is_account_locked now self' = false)
    ∧ (∀ r, r ∈ rows' -> User.id r = User.id self ->
       User.failed_login_attempts r = 0
       ∧ User.locked_until r = None
       ∧ ∀ now, User.is_account_locked now r = false).
Proof.
  intros Hst. unfold User.reset_failed_login, bind, ret.
  rewrite save_update_fields_stored by done.
  eexists _, _. split; [reflexivity|]. repeat split; try done.
  all: intros; eapply lockout_saved_row in H as [Ha Hl]; try done.
  unfold User.is_account_locked. by rewrite Hl.
Qed.

(** C10.  An account whose counter is already at 5 or more and whose lock
    has run out is not locked, and one more failed login, recorded at
    instant [now], locks it again until [now] + 30 minutes: the counter was
    not reset by the lock running out, it keeps counting from where it
    stood. *)
Theorem elapsed_lock_relocks_on_next_failure (self : User.t)
    (rows : list User.t) (until checked now : datetime) :
  stored self rows = true ->
  User.failed_login_attempts self >= 5 ->
  User.locked_until self = Some until ->
  until <= checked ->
  User.is_account_locked checked self = false
  ∧ ∃ self' rows',
      User.increment_failed_login now self rows = (Ok self', rows')
      ∧ User.failed_login_attempts self' = User.failed_login_attempts self + 1
      ∧ User.locked_until self' = Some (now + timedelta.minutes 30)
      ∧ (∀ r, r ∈ rows' -> User.id r = User.id self ->
         User.failed_login_attempts r = User.failed_login_attempts self + 1
         ∧ User.locked_until r = Some (now + timedelta.minutes 30)).
Proof.
  intros Hst Hge Hlock Hpast. split.
  { unfold User.is_account_locked. rewrite Hlock.
    apply bool_decide_eq_false_2. lia. }
  pose proof (increment_failed_login_step now self rows Hst) as Hstep.
  simpl in Hstep. rewrite bool_decide_eq_true_2 in Hstep by lia.
  eexists _, _. split; [exact Hstep|]. repeat split; try done.
  all: intros; eapply lockout_saved_row in H as [Ha Hl]; try done.
Qed.

(** ** Session history *)

Lemma last_n_snoc {A : Type} (n : nat) (l : list A) (x : A) :
  User.last_n (S n) (l ++ [x]) = drop (length l - n) l ++ [x].
Proof.
  unfold User.last_n. rewrite length_app. simpl length.
  replace (length l + 1 - S n)%nat with (length l - n)%nat by lia.
  apply drop_app_le. lia.
Qed.

(** C6.  [add_session] leaves at most 10 entries, the new summary last;
    the entries before it are the most recent 9 of the old history in
    their order, so a history of exactly 10 loses its oldest entry and
    nothing else, and a shorter one loses nothing.  The saved row carries
    the same history. *)
Theorem add_session_keeps_last_ten (now : datetime)
    (session_id ip_address user_agent : string) (self : User.t)
    (rows : list User.t) :
  stored self rows = true ->
  let old := User.active_sessions self in
  let new := {| summary_id := session_id;
                summary_ip_address := ip_address;
                summary_user_agent := user_agent;
                summary_created_at := now |} in
  ∃ self' rows',
    User.add_session now session_id ip_address user_agent self rows
    = (Ok self', rows')
    ∧ (length (User.active_sessions self') <= 10)%nat
    ∧ last (User.active_sessions self') = Some new
    ∧ User.active_sessions self' = drop (length old - 9) old ++ [new]
    ∧ (∀ oldest others, old = oldest :: others -> length old = 10%nat ->
       User.active_sessions self' = others ++ [new])
    ∧ ((length old < 10)%nat -> User.active_sessions self' = old ++ [new])
    ∧ (∀ r, r ∈ rows' -> User.id r = User.id self ->
       User.active_sessions r = User.active_sessions self').
Proof.
  intros Hst old new. unfold User.add_session, bind, ret.
  rewrite save_update_fields_stored by done.
  eexists _, _. split; [reflexivity|]. simpl User.active_sessions.
  fold old new. rewrite last_n_snoc.
  split. { rewrite length_app, length_drop. simpl. lia. }
  split. { apply last_snoc. }
  split; [done|]. split.
  { intros oldest others Hold Hlen. rewrite Hlen, Hold. done. }
  split.
  { intros Hlt. replace (length old - 9)%nat with 0%nat by lia. done. }
  intros r Hin Hid. apply list_elem_of_fmap in Hin as (r0 & -> & _).
  unfold User.same_pk in *. simpl in *.
  by case_bool_decide; [|congruence].
Qed.

(** ** Role hierarchy *)

Lemma get_all_permissions_more_depth depth depth' roles self ps :
  Role.get_all_permissions depth roles self = Ok ps ->
  (depth <= depth')%nat ->
  Role.get_all_permissions depth' roles self = Ok ps.
Proof.
  revert depth' self ps. induction depth as [|d IH]; intros depth' self ps; [done|].
  intros Hrun Hle. destruct depth' as [|d']; [lia|]. simpl in *.
  destruct (Role.parent_role self) as [pid|]; [|done].
  destruct (roles !! pid) as [parent|]; [|done].
  destruct (Role.get_all_permissions d roles parent) as [inh|e] eqn:Hp; [|done].
  by rewrite (IH d' parent inh Hp) by lia.
Qed.

(** C1, as the code has it.  When the [parent_role] links of a role lead
    to a role without parent, and the chain fits into the interpreter's
    recursion limit, [get_all_permissions] returns, and what it returns is
    the union of the direct permission sets of the roles on the chain: a
    permission is in the result exactly when some role of the chain has
    it. *)
Theorem get_all_permissions_on_tree (depth : nat) (roles : gmap N Role.t)
    (self : Role.t) (chain : list Role.t) :
  Lineage roles self chain ->
  (length chain <= depth)%nat ->
  Role.get_all_permissions depth roles self
  = Ok (⋃ (Role.permissions <$> chain))
  ∧ ∀ p, p ∈ ⋃ (Role.permissions <$> chain)
         ↔ ∃ r, r ∈ chain ∧ p ∈ Role.permissions r.
Proof.
  intros Hchain Hdepth. split.
  - revert depth Hdepth.
    induction Hchain as [self Hroot|self pid parent chain Hpar Hlook _ IH];
      intros depth Hdepth; simpl in Hdepth.
    + destruct depth as [|d]; [lia|]. simpl. rewrite Hroot.
      by rewrite union_empty_r_L.
    + destruct depth as [|d]; [lia|]. simpl. rewrite Hpar, Hlook.
      by rewrite IH by lia.
  - intros p. rewrite elem_of_union_list. split.
    + intros (X & HX & Hp). apply list_elem_of_fmap in HX as (r & -> & Hr).
      by exists r.
    + intros (r & Hr & Hp). exists (Role.permissions r). split; [|done].
      apply list_elem_of_fmap. by exists r.
Qed.

Lemma get_all_permissions_on_tree_witness :
  Role.get_all_permissions 1000 tree_roles role_editor
  = Ok (⋃ (Role.permissions <$> [role_editor; role_viewer]))
  ∧ ∀ p, p ∈ ⋃ (Role.permissions <$> [role_editor; role_viewer])
         ↔ ∃ r, r ∈ [role_editor; role_viewer] ∧ p ∈ Role.permissions r.
Proof.
  apply (get_all_permissions_on_tree 1000 tree_roles role_editor
           [role_editor; role_viewer]).
  - apply lineage_parent with (parent_id := 3%N) (parent := role_viewer);
      [reflexivity|reflexivity|].
    apply lineage_root. reflexivity.
  - simpl. lia.
Defined.

(** On the two roles that name each other as parent the method never
    returns: whatever the recursion limit, the call ends in
    [RecursionError], so no limit yields the union of the two permission
    sets. *)
Lemma get_all_permissions_cycle_never_returns :
  (∀ depth, Role.get_all_permissions depth cyclic_roles role_a
            = Raise RecursionError)
  ∧ ¬ ∃ depth, Role.get_all_permissions depth cyclic_roles role_a
               = Ok (Role.permissions role_a ∪ Role.permissions role_b).
Proof.
  assert (Hboth : ∀ depth,
    Role.get_all_permissions depth cyclic_roles role_a = Raise RecursionError
    ∧ Role.get_all_permissions depth cyclic_roles role_b = Raise RecursionError).
  { induction depth as [|d [IHa IHb]]; [done|]. split.
    - change (Role.get_all_permissions (S d) cyclic_roles role_a)
        with (match Role.get_all_permissions d cyclic_roles role_b with
              | Ok inherited => Ok (Role.permissions role_a ∪ inherited)
              | Raise e => Raise e
              end).
      by rewrite IHb.
    - change (Role.get_all_permissions (S d) cyclic_roles role_b)
        with (match Role.get_all_permissions d cyclic_roles role_a with
              | Ok inherited => Ok (Role.permissions role_b ∪ inherited)
              | Raise e => Raise e
              end).
      by rewrite IHa. }
  split; [apply Hboth|].
  intros [depth Hret]. by rewrite (proj1 (Hboth depth)) in Hret.
Qed.

(** ** Login *)

Lemma email_is_Some email u :
  email_is email u = true -> email = Some (User.email u).
Proof. unfold email_is. by intros ->%bool_decide_eq_true. Qed.

Lemma login_history_create_appends user email success reason ip_address
    user_agent (rows : list LoginHistory.t) :
  LoginHistory.create user (Some email) success reason ip_address user_agent rows
  = (Ok (),
     rows ++ [{| LoginHistory.user := user; LoginHistory.email := email;
                 LoginHistory.success := success;
                 LoginHistory.failure_reason := reason;
                 LoginHistory.auth_method := "password";
                 LoginHistory.ip_address := ip_address;
                 LoginHistory.user_agent := user_agent;
                 LoginHistory.risk_score := 0 |}]).
Proof.
  unfold LoginHistory.create, bind, ret, QuerySet.create, QuerySet.filter.
  assert (Hnone : ∀ (l : list LoginHistory.t),
            List.filter (fun _ => false) l = []) by (induction l; done).
  by rewrite Hnone.
Qed.

(** C3.  When the e-mail address resolves to an account whose
    [locked_until] lies strictly after the clock reading, [post] appends an
    [account_locked] failure to the login history, changes nothing else and
    answers 423.  The outcome is the same for every password and every
    authentication backend: the password is never looked at. *)
Theorem locked_account_is_rejected
    (authenticate : AuthenticationView.Backend)
    (clock : AuthenticationView.Clock) (minted : AuthenticationView.Minted)
    (request : AuthenticationView.Request) (w : World) (user : User.t)
    (until : datetime) :
  QuerySet.get UserModel (email_is (AuthenticationView.data_email request))
    (users w) = Ok user ->
  User.locked_until user = Some until ->
  until > AuthenticationView.at_lock_check clock ->
  AuthenticationView.post authenticate clock minted request w
  = (Ok {| data := ErrorBody "Account is locked. Please try again later.";
           status := HTTP_423_LOCKED |},
     history_appended
       (failure_row user "account_locked"
          (AuthenticationView.client_ip request)
          (default "" (AuthenticationView.http_user_agent request)))
       w)
  ∧ ∀ (authenticate' : AuthenticationView.Backend) (password' : option string),
      AuthenticationView.post authenticate' clock minted
        {| AuthenticationView.data_email := AuthenticationView.data_email request;
           AuthenticationView.data_password := password';
           AuthenticationView.client_ip := AuthenticationView.client_ip request;
           AuthenticationView.http_user_agent :=
             AuthenticationView.http_user_agent request;
           AuthenticationView.session_key :=
             AuthenticationView.session_key request |} w
      = AuthenticationView.post authenticate clock minted request w.
Proof.
  intros Hget Hlock Hfuture.
  assert (Hlocked :
    User.is_account_locked (AuthenticationView.at_lock_check clock) user = true).
  { unfold User.is_account_locked. rewrite Hlock. by apply bool_decide_eq_true_2. }
  pose proof (get_Ok_holds _ _ _ _ Hget) as [_ Hemail%email_is_Some].
  assert (Hrun : ∀ auth pw,
    AuthenticationView.post auth clock minted
      {| AuthenticationView.data_email := AuthenticationView.data_email request;
         AuthenticationView.data_password := pw;
         AuthenticationView.client_ip := AuthenticationView.client_ip request;
         AuthenticationView.http_user_agent :=
           AuthenticationView.http_user_agent request;
         AuthenticationView.session_key :=
           AuthenticationView.session_key request |} w
    = (Ok {| data := ErrorBody "Account is locked. Please try again later.";
             status := HTTP_423_LOCKED |},
       history_appended
         (failure_row user "account_locked"
            (AuthenticationView.client_ip request)
            (default "" (AuthenticationView.http_user_agent request)))
         w)).
  { intros auth pw.
    unfold AuthenticationView.post, bind, try_except, on_users, query, ret.
    simpl. rewrite Hget. simpl. rewrite Hlocked.
    unfold on_login_history. rewrite Hemail.
    by rewrite login_history_create_appends. }
  split.
  - destruct request as [e pw ip ua sk]. apply (Hrun authenticate pw).
  - intros auth' pw'. rewrite (Hrun auth' pw').
    destruct request as [e pw ip ua sk]. symmetry. apply (Hrun authenticate pw).
Qed.

Lemma get_DoesNotExist_inv {Row : Type} model model' (p : Row -> bool) rows :
  QuerySet.get model p rows = Raise (DoesNotExist model') ->
  QuerySet.filter p rows = [].
Proof.
  unfold QuerySet.get.
  destruct (QuerySet.filter p rows) as [|a [|b l]]; congruence.
Qed.

Lemma elem_of_stored (self : User.t) rows : self ∈ rows -> stored self rows = true.
Proof.
  intros Hin. apply exists_filter_true. exists self. split; [done|].
  unfold User.same_pk. by apply bool_decide_eq_true_2.
Qed.

(** What [post] does when no account has the address and the backend
    finds nobody. *)
Lemma post_rejects_unknown_email
    (authenticate : AuthenticationView.Backend)
    (clock : AuthenticationView.Clock) (minted : AuthenticationView.Minted)
    (request : AuthenticationView.Request) (w : World) :
  QuerySet.get UserModel (email_is (AuthenticationView.data_email request))
    (users w) = Raise (DoesNotExist UserModel) ->
  authenticate (users w) (AuthenticationView.data_email request)
    (AuthenticationView.data_password request) = None ->
  AuthenticationView.post authenticate clock minted request w
  = (Ok {| data := ErrorBody "Invalid credentials";
           status := HTTP_401_UNAUTHORIZED |}, w).
Proof.
  intros Hget Hauth.
  unfold AuthenticationView.post, bind, try_except, on_users, query, ret.
  pose proof (get_DoesNotExist_inv _ _ _ _ Hget) as Hnil.
  unfold QuerySet.filter in Hnil.
  simpl. rewrite Hget. simpl. rewrite Hauth. simpl.
  unfold QuerySet.filter. rewrite Hnil. simpl. by destruct w.
Qed.

(** What [post] does when the account is known and not locked and the
    backend rejects the credentials. *)
Lemma post_rejects_wrong_password
    (authenticate : AuthenticationView.Backend)
    (clock : AuthenticationView.Clock) (minted : AuthenticationView.Minted)
    (request : AuthenticationView.Request) (w : World) (user : User.t) :
  QuerySet.get UserModel (email_is (AuthenticationView.data_email request))
    (users w) = Ok user ->
  User.is_account_locked (AuthenticationView.at_lock_check clock) user = false ->
  authenticate (users w) (AuthenticationView.data_email request)
    (AuthenticationView.data_password request) = None ->
  let attempts := User.failed_login_attempts user + 1 in
  let user' :=
    User.set_locked_until
      (if bool_decide (attempts >= 5)
       then Some (AuthenticationView.at_failed_login clock + timedelta.minutes 30)
       else User.locked_until user)
      (User.set_failed_login_attempts attempts user) in
  AuthenticationView.post authenticate clock minted request w
  = (Ok {| data := ErrorBody "Invalid credentials";
           status := HTTP_401_UNAUTHORIZED |},
     {| users := lockout_saved user' (users w);
        login_history :=
          login_history w
          ++ [failure_row user "invalid_credentials"
                (AuthenticationView.client_ip request)
                (default "" (AuthenticationView.http_user_agent request))];
        sessions := sessions w;
        reset_tokens := reset_tokens w |}).
Proof.
  intros Hget Hfree Hauth attempts user'.
  pose proof (get_Ok_holds _ _ _ _ Hget) as [Hin Hemail%email_is_Some].
  pose proof (increment_failed_login_step
                (AuthenticationView.at_failed_login clock) user (users w)
                (elem_of_stored _ _ Hin)) as Hstep.
  simpl in Hstep. fold attempts in Hstep. fold user' in Hstep.
  unfold AuthenticationView.post, bind, try_except, on_users, query, ret.
  pose proof (get_Ok_exists _ _ _ _ Hget) as Hknown.
  unfold QuerySet.filter in Hknown.
  simpl. rewrite Hget. simpl. rewrite Hfree. simpl. rewrite Hauth. simpl.
  unfold QuerySet.filter. rewrite Hknown. simpl. rewrite Hget. simpl.
  rewrite Hstep. unfold on_login_history. simpl.
  rewrite Hemail, login_history_create_appends. done.
Qed.

(** C9.  An attempt with an address that belongs to no account and an
    attempt on a known, active, unlocked account with a password that the
    backend rejects are answered alike: both get status 401 with the
    message "Invalid credentials". *)
Theorem rejected_logins_look_alike
    (authenticate : AuthenticationView.Backend)
    (clock clock' : AuthenticationView.Clock)
    (minted minted' : AuthenticationView.Minted)
    (unknown known : AuthenticationView.Request) (w : World) (user : User.t) :
  QuerySet.get UserModel (email_is (AuthenticationView.data_email unknown))
    (users w) = Raise (DoesNotExist UserModel) ->
  authenticate (users w) (AuthenticationView.data_email unknown)
    (AuthenticationView.data_password unknown) = None ->
  QuerySet.get UserModel (email_is (AuthenticationView.data_email known))
    (users w) = Ok user ->
  User.is_active user = true ->
  User.is_account_locked (AuthenticationView.at_lock_check clock') user = false ->
  authenticate (users w) (AuthenticationView.data_email known)
    (AuthenticationView.data_password known) = None ->
  ∃ response w1 w2,
    AuthenticationView.post authenticate clock minted unknown w
    = (Ok response, w1)
    ∧ AuthenticationView.post authenticate clock' minted' known w
      = (Ok response, w2)
    ∧ response = {| data := ErrorBody "Invalid credentials";
                    status := HTTP_401_UNAUTHORIZED |}.
Proof.
  intros Hnone Hauth1 Hget _ Hfree Hauth2.
  eexists _, _, _. split.
  - by apply post_rejects_unknown_email.
  - split; [|reflexivity].
    by apply (post_rejects_wrong_password _ _ _ _ _ user).
Qed.

(** ** Password reset *)

Lemma filter_and {Row : Type} (p q : Row -> bool) rows :
  QuerySet.filter (fun r => p r && q r) rows
  = QuerySet.filter q (QuerySet.filter p rows).
Proof.
  unfold QuerySet.filter. induction rows as [|x xs IH]; simpl; [done|].
  destruct (p x); simpl; [|done]. destruct (q x); by rewrite IH.
Qed.

(** The rows that [get] of [reset_password] sees, given the rows that
    carry the presented text. *)
Lemma live_token_filter token rows tok :
  QuerySet.filter (token_is token) rows = [tok] ->
  QuerySet.filter (PasswordResetView.live_token token) rows
  = if PasswordResetToken.is_used tok || PasswordResetToken.is_revoked tok
    then [] else [tok].
Proof.
  intros Hone.
  transitivity (QuerySet.filter
                  (fun r => negb (PasswordResetToken.is_used r)
                            && negb (PasswordResetToken.is_revoked r))
                  (QuerySet.filter (token_is token) rows)).
  - rewrite <- filter_and. unfold QuerySet.filter. apply filter_ext.
    intros r. unfold PasswordResetView.live_token, token_is.
    by rewrite andb_assoc.
  - rewrite Hone. unfold QuerySet.filter. simpl.
    by destruct (PasswordResetToken.is_used tok),
                (PasswordResetToken.is_revoked tok).
Qed.

Lemma filter_singleton_elem {Row : Type} (p : Row -> bool) rows r :
  QuerySet.filter p rows = [r] -> r ∈ rows ∧ p r = true.
Proof.
  unfold QuerySet.filter. intros H.
  assert (Hin : In r (List.filter p rows)) by (rewrite H; by left).
  apply filter_In in Hin as [Hin Hp]. split; [by apply list_elem_of_In|done].
Qed.

(** A presented token that is used, revoked or expired is refused and
    nothing is written. *)
Lemma reset_password_refuses (make_password : string -> string)
    (clock : PasswordResetView.Clock)
    (serializer : PasswordResetView.Serializer) (w : World)
    (tok : PasswordResetToken.t) :
  PasswordResetView.is_valid serializer = true ->
  QuerySet.filter (token_is (PasswordResetView.validated_token serializer))
    (reset_tokens w) = [tok] ->
  PasswordResetToken.is_valid (PasswordResetView.at_validity_check clock) tok
  = false ->
  ∃ message,
    PasswordResetView.reset_password make_password clock serializer w
    = (Ok {| data := ErrorBody message; status := HTTP_400_BAD_REQUEST |}, w).
Proof.
  intros Hvalid Hone Hbad.
  pose proof (live_token_filter _ _ _ Hone) as Hlive.
  unfold PasswordResetView.reset_password. rewrite Hvalid. simpl.
  unfold try_except, bind, on_reset_tokens, query, QuerySet.get.
  rewrite Hlive.
  destruct (PasswordResetToken.is_used tok || PasswordResetToken.is_revoked tok)
    eqn:Hflags; simpl.
  - exists "Invalid token". by destruct w.
  - rewrite Hbad. simpl. exists "Invalid or expired token". by destruct w.
Qed.

(** A presented token that is valid is consumed: the password columns of
    its user are saved, the token is marked used, the user's active
    sessions are revoked. *)
Lemma reset_password_consumes (make_password : string -> string)
    (clock : PasswordResetView.Clock)
    (serializer : PasswordResetView.Serializer) (w : World)
    (tok : PasswordResetToken.t) (user : User.t) :
  PasswordResetView.is_valid serializer = true ->
  QuerySet.filter (token_is (PasswordResetView.validated_token serializer))
    (reset_tokens w) = [tok] ->
  QuerySet.get UserModel (PasswordResetView.owner_of tok) (users w) = Ok user ->
  PasswordResetToken.is_valid (PasswordResetView.at_validity_check clock) tok
  = true ->
  let user' :=
    User.set_must_change_password false
      (User.set_password_changed_at
         (Some (PasswordResetView.at_password_changed clock))
         (User.set_password_hash
            (make_password (PasswordResetView.validated_new_password serializer))
            user)) in
  PasswordResetView.reset_password make_password clock serializer w
  = (Ok {| data := MessageBody "Password reset successful";
           status := HTTP_200_OK |},
     {| users :=
          map (fun r => if User.same_pk user' r then user' else r) (users w);
        login_history := login_history w;
        sessions :=
          map (fun s => if PasswordResetView.session_of user' s
                        then UserSession.revoked
                               (PasswordResetView.at_revoked clock) s
                        else s) (sessions w);
        reset_tokens :=
          map (fun r =>
                 if PasswordResetToken.same_pk tok r
                 then {| PasswordResetToken.id := PasswordResetToken.id r;
                         PasswordResetToken.user := PasswordResetToken.user r;
                         PasswordResetToken.token := PasswordResetToken.token r;
                         PasswordResetToken.expires_at :=
                           PasswordResetToken.expires_at r;
                         PasswordResetToken.used_at :=
                           Some (PasswordResetView.at_used clock);
                         PasswordResetToken.ip_address :=
                           PasswordResetToken.ip_address r;
                         PasswordResetToken.user_agent :=
                           PasswordResetToken.user_agent r;
                         PasswordResetToken.is_used := true;
                         PasswordResetToken.is_revoked :=
                           PasswordResetToken.is_revoked r |}
                 else r) (reset_tokens w) |}).
Proof.
  intros Hvalid Hone Huser Hgood user'.
  pose proof (live_token_filter _ _ _ Hone) as Hlive.
  pose proof (filter_singleton_elem _ _ _ Hone) as [Htok _].
  pose proof (get_Ok_holds _ _ _ _ Huser) as [Hin _].
  assert (Hflags : PasswordResetToken.is_used tok
                   || PasswordResetToken.is_revoked tok = false).
  { unfold PasswordResetToken.is_valid in Hgood.
    by destruct (PasswordResetToken.is_used tok
                 || PasswordResetToken.is_revoked tok). }
  rewrite Hflags in Hlive.
  assert (Hstored : QuerySet.exists_
            (QuerySet.filter (User.same_pk user') (users w)) = true).
  { apply (elem_of_stored user (users w) Hin). }
  assert (Htokstored : ∀ tok',
            PasswordResetToken.id tok' = PasswordResetToken.id tok ->
            QuerySet.exists_
              (QuerySet.filter (PasswordResetToken.same_pk tok') (reset_tokens w))
            = true).
  { intros tok' Hid. apply exists_filter_true. exists tok. split; [done|].
    unfold PasswordResetToken.same_pk. by apply bool_decide_eq_true_2. }
  unfold PasswordResetView.reset_password. rewrite Hvalid. simpl.
  unfold try_except, bind, on_reset_tokens, on_users, on_sessions, query,
    QuerySet.get, ret.
  rewrite Hlive. simpl. rewrite Hgood. simpl.
  unfold QuerySet.get in Huser. rewrite Huser. simpl.
  unfold QuerySet.save. fold user'. rewrite Hstored. simpl.
  unfold PasswordResetToken.mark_as_used, bind, ret.
  rewrite save_update_fields_stored by (by apply Htokstored).
  simpl. done.
Qed.

(** [reset_password] is its part up to [user.save()] followed by the
    rest. *)
Lemma reset_password_two_parts (make_password : string -> string)
    (clock : PasswordResetView.Clock)
    (serializer : PasswordResetView.Serializer) (w : World) :
  PasswordResetView.reset_password make_password clock serializer w
  = (let! a := reset_password_until_save make_password clock serializer in
     match a with
     | inl response => ret response
     | inr held => reset_password_after_save clock held
     end) w.
Proof.
  unfold PasswordResetView.reset_password, reset_password_until_save,
    reset_password_after_save.
  destruct (PasswordResetView.is_valid serializer); [|done]. simpl.
  unfold try_except, bind, on_reset_tokens, on_users, on_sessions, query, ret,
    PasswordResetToken.mark_as_used, QuerySet.save_update_fields,
    QuerySet.save, QuerySet.update, bind, ret.
  cbn [users login_history sessions reset_tokens fst snd].
  destruct (QuerySet.get PasswordResetTokenModel _ (reset_tokens w))
    as [tok|e]; simpl.
  - destruct (PasswordResetToken.is_valid _ tok); simpl; [|done].
    destruct (QuerySet.get UserModel _ (users w)) as [user|e]; simpl.
    + destruct (QuerySet.exists_ (QuerySet.filter (User.same_pk _) (users w)));
        simpl.
      * destruct (QuerySet.exists_
                    (QuerySet.filter (PasswordResetToken.same_pk _)
                       (reset_tokens w))); simpl; done.
      * destruct (QuerySet.exists_
                    (QuerySet.filter (PasswordResetToken.same_pk _)
                       (reset_tokens w))); simpl; done.
    + by destruct (bool_decide (e = DoesNotExist PasswordResetTokenModel)).
  - by destruct (bool_decide (e = DoesNotExist PasswordResetTokenModel)).
Qed.

(** C8, as the code has it.  For a presented token that is stored (once)
    and whose user row exists, [reset_password] answers 400 exactly when
    [is_valid] is false at the instant of the check, and then no table
    changes.  Otherwise it answers 200; at the end of the call the user's
    row carries the hash of the new password and the stored token is used
    with [used_at] stamped.  These are two writes of the call, the
    password first: after [user.save()] the row carries the new hash
    while the stored token is as it was, and the rest of the method then
    marks it used. *)
Theorem reset_token_consumed_iff_valid (make_password : string -> string)
    (clock : PasswordResetView.Clock)
    (serializer : PasswordResetView.Serializer) (w : World)
    (tok : PasswordResetToken.t) (user : User.t) :
  PasswordResetView.is_valid serializer = true ->
  QuerySet.filter (token_is (PasswordResetView.validated_token serializer))
    (reset_tokens w) = [tok] ->
  QuerySet.get UserModel (PasswordResetView.owner_of tok) (users w) = Ok user ->
  let valid :=
    PasswordResetToken.is_valid (PasswordResetView.at_validity_check clock) tok in
  let new_hash :=
    make_password (PasswordResetView.validated_new_password serializer) in
  ∃ response w',
    PasswordResetView.reset_password make_password clock serializer w
    = (Ok response, w')
    ∧ (status response = HTTP_400_BAD_REQUEST ↔ valid = false)
    ∧ (valid = false -> w' = w)
    ∧ (valid = true ->
       status response = HTTP_200_OK
       ∧ (∃ used,
            QuerySet.filter
              (token_is (PasswordResetView.validated_token serializer))
              (reset_tokens w') = [used]
            ∧ used = marked_used (PasswordResetView.at_used clock) tok
            ∧ PasswordResetToken.is_used used = true
            ∧ PasswordResetToken.used_at used
              = Some (PasswordResetView.at_used clock))
       ∧ (∃ saved,
            QuerySet.get UserModel (PasswordResetView.owner_of tok) (users w')
            = Ok saved
            ∧ User.id saved = User.id user
            ∧ User.password saved = new_hash
            ∧ User.password_changed_at saved
              = Some (PasswordResetView.at_password_changed clock)
            ∧ User.must_change_password saved = false)
       ∧ (∃ held between,
            reset_password_until_save make_password clock serializer w
            = (Ok (inr held), between)
            ∧ users between = users w'
            ∧ reset_tokens between = reset_tokens w
            ∧ PasswordResetToken.is_used tok = false
            ∧ reset_password_after_save clock held between
              = (Ok response, w'))).
Proof.
  intros Hvalid Hone Huser valid new_hash. destruct valid eqn:Hv; subst valid.
  - pose proof (reset_password_consumes make_password clock serializer w tok
                  user Hvalid Hone Huser Hv) as Hrun.
    simpl in Hrun. eexists _, _. split; [exact Hrun|].
    split; [split; intros; discriminate|]. split; [done|].
    intros _. split; [done|].
    simpl users. simpl reset_tokens. split; [|split].
    + eexists. split; [|done].
      rewrite filter_map_stable.
      * rewrite Hone. simpl. unfold PasswordResetToken.same_pk.
        by rewrite bool_decide_eq_true_2.
      * intros r. by destruct (PasswordResetToken.same_pk tok r).
    + exists (password_changed new_hash
                (PasswordResetView.at_password_changed clock) user).
      split; [|done].
      unfold QuerySet.get in *. rewrite filter_map_stable.
      * destruct (QuerySet.filter (PasswordResetView.owner_of tok) (users w))
          as [|a [|b l]]; try done.
        injection Huser as ->. simpl. unfold User.same_pk. simpl.
        by rewrite bool_decide_eq_true_2.
      * intros r. destruct (User.same_pk _ r) eqn:Hpk; [|done].
        apply bool_decide_eq_true_1 in Hpk. simpl in Hpk.
        unfold PasswordResetView.owner_of. simpl.
        apply bool_decide_ext. by rewrite Hpk.
    + pose proof (reset_password_two_parts make_password clock serializer w)
        as Hparts.
      rewrite Hrun in Hparts. unfold bind in Hparts.
      pose proof (live_token_filter _ _ _ Hone) as Hlive.
      pose proof (get_Ok_holds _ _ _ _ Huser) as [Hin _].
      assert (Hunused : PasswordResetToken.is_used tok = false).
      { unfold PasswordResetToken.is_valid in Hv.
        by destruct (PasswordResetToken.is_used tok). }
      assert (Hflags : PasswordResetToken.is_used tok
                       || PasswordResetToken.is_revoked tok = false).
      { unfold PasswordResetToken.is_valid in Hv.
        by destruct (PasswordResetToken.is_used tok
                     || PasswordResetToken.is_revoked tok). }
      rewrite Hflags in Hlive.
      assert (Hfirst :
        reset_password_until_save make_password clock serializer w
        = (Ok (inr (tok,
                    password_changed new_hash
                      (PasswordResetView.at_password_changed clock) user)),
           users_replaced
             (map (fun r =>
                     if User.same_pk
                          (password_changed new_hash
                             (PasswordResetView.at_password_changed clock)
                             user) r
                     then password_changed new_hash
                            (PasswordResetView.at_password_changed clock) user
                     else r) (users w)) w)).
      { unfold reset_password_until_save. rewrite Hvalid. simpl.
        unfold try_except, bind, on_reset_tokens, on_users, query,
          QuerySet.get, ret.
        rewrite Hlive. simpl. rewrite Hv. simpl.
        unfold QuerySet.get in Huser. rewrite Huser. simpl.
        unfold QuerySet.save.
        change (QuerySet.exists_ (QuerySet.filter (User.same_pk _) (users w)))
          with (stored user (users w)).
        by rewrite (elem_of_stored user (users w) Hin). }
      rewrite Hfirst in Hparts.
      eexists _, _. split; [exact Hfirst|].
      split; [done|]. split; [done|]. split; [exact Hunused|].
      symmetry. exact Hparts.
  - destruct (reset_password_refuses make_password clock serializer w tok
                Hvalid Hone Hv) as [message Hrun].
    eexists _, _. split; [exact Hrun|]. done.
Qed.

(** The token of the first request is accepted from two presenters when
    the second is served between the two writes of the first: after the
    password of the first is saved the token is still unused, both
    requests are answered 200, and the password that stays is the one of
    the second presenter. *)
Lemma reset_token_spent_twice :
  (∃ held between,
     reset_password_until_save sample_hasher
       (reset_clock (timedelta.minutes 2)) first_token_presented
       world_two_requests = (Ok (inr held), between)
     ∧ User.password <$> users between = ["pbkdf2$correct horse"]
     ∧ PasswordResetToken.is_valid (timedelta.minutes 3)
         <$> QuerySet.filter (token_is "first-token") (reset_tokens between)
       = [true])
  ∧ ∃ w',
      reset_password_interleaved sample_hasher
        (reset_clock (timedelta.minutes 2)) first_token_presented
        (reset_clock (timedelta.minutes 3)) first_token_presented_again
        world_two_requests
      = (Ok ({| data := MessageBody "Password reset successful";
                status := HTTP_200_OK |},
             {| data := MessageBody "Password reset successful";
                status := HTTP_200_OK |}), w')
      ∧ User.password <$> users w' = ["pbkdf2$battery staple"].
Proof.
  split.
  - eexists _, _. split; [by vm_compute|]. split; by vm_compute.
  - eexists. split; [by vm_compute|]. by vm_compute.
Qed.

Lemma count_app {Row : Type} (l k : list Row) :
  QuerySet.count (l ++ k) = QuerySet.count l + QuerySet.count k.
Proof. unfold QuerySet.count. rewrite length_app. lia. Qed.

Lemma filter_app {Row : Type} (p : Row -> bool) (l k : list Row) :
  QuerySet.filter p (l ++ k) = QuerySet.filter p l ++ QuerySet.filter p k.
Proof. unfold QuerySet.filter. apply List.filter_app. Qed.

(** C2, as the code has it.  For a known address and a token that does
    not collide with a stored one, [request_reset] appends the new token
    and writes nothing else: the stored tokens keep their flags and expiry,
    so each token of the user that was valid stays valid, and the user has
    one more valid token than before. *)
Theorem request_reset_adds_a_token (now : datetime)
    (request : PasswordResetView.ResetRequest) (w : World) (user : User.t) :
  QuerySet.get UserModel (email_is (PasswordResetView.data_email request))
    (users w) = Ok user ->
  QuerySet.exists_
    (QuerySet.filter (PasswordResetToken.clash (issued_token now user request))
       (reset_tokens w)) = false ->
  ∃ w',
    PasswordResetView.request_reset now request w
    = (Ok {| data := MessageBody
               "If the email exists, a password reset link has been sent.";
             status := HTTP_200_OK |}, w')
    ∧ reset_tokens w' = reset_tokens w ++ [issued_token now user request]
    ∧ users w' = users w
    ∧ PasswordResetToken.is_valid now (issued_token now user request) = true
    ∧ (∀ t, t ∈ valid_tokens_of now user (reset_tokens w) ->
            t ∈ valid_tokens_of now user (reset_tokens w'))
    ∧ QuerySet.count (valid_tokens_of now user (reset_tokens w'))
      = QuerySet.count (valid_tokens_of now user (reset_tokens w)) + 1
    ∧ (∀ make_password clock serializer earlier owner,
         PasswordResetView.is_valid serializer = true ->
         QuerySet.filter
           (token_is (PasswordResetView.validated_token serializer))
           (reset_tokens w) = [earlier] ->
         QuerySet.get UserModel (PasswordResetView.owner_of earlier) (users w)
         = Ok owner ->
         PasswordResetToken.is_valid
           (PasswordResetView.at_validity_check clock) earlier = true ->
         fst (PasswordResetView.reset_password make_password clock
                serializer w')
         = Ok {| data := MessageBody "Password reset successful";
                 status := HTTP_200_OK |}).
Proof.
  intros Hget Hfresh.
  assert (Hvalid :
    PasswordResetToken.is_valid now (issued_token now user request) = true).
  { unfold PasswordResetToken.is_valid. simpl.
    rewrite bool_decide_eq_false_2; [done|].
    unfold timedelta.hours, timedelta.minutes, timedelta.second,
      timedelta.microsecond. lia. }
  eexists. split.
  { unfold PasswordResetView.request_reset, bind, try_except, on_users,
      on_reset_tokens, query, ret.
    simpl. rewrite Hget. simpl. unfold QuerySet.create.
    fold (issued_token now user request). rewrite Hfresh. simpl. reflexivity. }
  simpl. split; [done|]. split; [done|]. split; [done|].
  unfold valid_tokens_of. rewrite filter_app. split.
  { intros t Ht. apply elem_of_app. by left. }
  split.
  { rewrite count_app. f_equal. unfold QuerySet.filter. simpl.
    rewrite Hvalid. by rewrite bool_decide_eq_true_2. }
  intros make_password clock serializer earlier owner Hser Hone Howner Hgood.
  pose proof (filter_singleton_elem _ _ _ Hone) as [Hin Htext].
  assert (Hother : token_is (PasswordResetView.validated_token serializer)
                     (issued_token now user request) = false).
  { destruct (token_is _ (issued_token now user request)) eqn:Hsame; [|done].
    assert (Hclash : QuerySet.exists_
              (QuerySet.filter
                 (PasswordResetToken.clash (issued_token now user request))
                 (reset_tokens w)) = true); [|congruence].
    apply exists_filter_true. exists earlier. split; [done|].
    unfold PasswordResetToken.clash. apply orb_true_iff. right.
    apply bool_decide_eq_true_2.
    apply bool_decide_eq_true_1 in Hsame, Htext. congruence. }
  match goal with
  | |- fst (PasswordResetView.reset_password _ _ _ ?w') = _ =>
      pose proof (reset_password_consumes make_password clock serializer w'
                    earlier owner Hser) as Hrun
  end.
  simpl in Hrun. rewrite Hrun; [done| |done|done].
  rewrite filter_app, Hone. unfold QuerySet.filter at 1. simpl.
  fold (issued_token now user request). by rewrite Hother.
Qed.

(** After two reset requests for the same account one minute apart, both
    tokens satisfy [is_valid], and presenting the first one still changes
    the password. *)
Lemma superseded_token_is_still_accepted :
  ¬ (QuerySet.count
       (valid_tokens_of (timedelta.minutes 1) alice
          (reset_tokens world_two_requests)) <= 1)
  ∧ fst (PasswordResetView.reset_password sample_hasher
           (reset_clock (timedelta.minutes 2)) first_token_presented
           world_two_requests)
    = Ok {| data := MessageBody "Password reset successful";
            status := HTTP_200_OK |}.
Proof.
  split.
  - assert (Hcount : QuerySet.count
              (valid_tokens_of (timedelta.minutes 1) alice
                 (reset_tokens world_two_requests)) = 2)
      by (vm_compute; reflexivity).
    rewrite Hcount. lia.
  - vm_compute. reflexivity.
Qed.

(** ** Tenant quota *)

(** C7, as the code has it.  For request data that validates, [create]
    answers 403 "Tenant user limit reached" exactly when the number of
    users of the tenant, active or not, has reached [max_users], and then
    stores nothing; below the limit it goes on to the serializer's
    [save]: the outcome is that of [save], answered 201 with the saved
    user, and is never the quota error. *)
Theorem create_checks_total_user_count (column : UserViewSet.TenantColumn)
    (serializer : UserViewSet.Serializer) (tenant : Tenant.t) (w : World) :
  UserViewSet.is_valid serializer (users w) = true ->
  let total :=
    QuerySet.count
      (QuerySet.filter (UserViewSet.of_tenant column tenant) (users w)) in
  let quota_error :=
    {| data := ErrorBody "Tenant user limit reached";
       status := HTTP_403_FORBIDDEN |} in
  ∃ result w',
    UserViewSet.create column serializer tenant w = (result, w')
    ∧ (result = Ok quota_error ↔ Tenant.max_users tenant <= total)
    ∧ (Tenant.max_users tenant <= total -> w' = w)
    ∧ (total < Tenant.max_users tenant ->
       (∀ response, result = Ok response ->
                    status response ≠ HTTP_403_FORBIDDEN)
       ∧ users w' = snd (UserViewSet.save serializer tenant (users w))
       ∧ match fst (UserViewSet.save serializer tenant (users w)) with
         | Ok user =>
             result = Ok {| data := UserBody user; status := HTTP_201_CREATED |}
         | Raise e => result = Raise e
         end).
Proof.
  intros Hvalid total quota_error.
  unfold UserViewSet.create, bind, on_users, query, ret. simpl.
  rewrite Hvalid. simpl. fold total.
  destruct (bool_decide (Tenant.max_users tenant <= total)) eqn:Hfull.
  - apply bool_decide_eq_true_1 in Hfull.
    eexists _, _. split; [reflexivity|].
    split; [done|]. split; [by destruct w|]. lia.
  - apply bool_decide_eq_false_1 in Hfull.
    cbn [users login_history sessions reset_tokens].
    destruct (UserViewSet.save serializer tenant (users w)) as [[user|e] rows'];
      simpl.
    + eexists _, _. split; [reflexivity|].
      split; [split; [discriminate|done]|]. split; [done|]. intros _.
      split; [|done]. by intros response [= <-].
    + eexists _, _. split; [reflexivity|].
      split; [split; [discriminate|done]|]. split; [done|]. intros _.
      split; [|done]. intros response. discriminate.
Qed.

(** A tenant with [max_users] 1 whose only user is deactivated has no
    active user, yet [create] refuses a further user. *)
Lemma quota_counts_inactive_users :
  QuerySet.count
    (active_users_of sample_tenant_column small_tenant (users world_bob))
  < Tenant.max_users small_tenant
  ∧ UserViewSet.create sample_tenant_column carol_serializer small_tenant
      world_bob
    = (Ok {| data := ErrorBody "Tenant user limit reached";
             status := HTTP_403_FORBIDDEN |}, world_bob).
Proof. split; [by vm_compute|]. vm_compute. reflexivity. Qed.

(** ** The properties at concrete inputs *)

Lemma five_failures_lock_for_30_minutes_witness :
  User.failed_login_attempts alice = 0
  ∧ User.locked_until alice = None
  ∧ stored alice [alice] = true
  ∧ ∃ self' rows',
      failed_logins [10; 20; 30; 40; 50] alice [alice] = (Ok self', rows')
      ∧ User.failed_login_attempts self' = 5
      ∧ User.locked_until self' = Some (50 + timedelta.minutes 30).
Proof.
  split; [reflexivity|]. split; [reflexivity|]. split; [reflexivity|].
  destruct (five_failures_lock_for_30_minutes alice [alice]
              [10; 20; 30; 40; 50] eq_refl eq_refl eq_refl)
    as (self' & rows' & Hrun & Hcount & _ & Hfifth & _).
  exists self', rows'. split; [exact Hrun|]. split; [exact Hcount|].
  apply (Hfifth [10; 20; 30; 40] 50); reflexivity.
Defined.

Lemma elapsed_lock_relocks_on_next_failure_witness :
  stored alice_locked [alice_locked] = true
  ∧ User.failed_login_attempts alice_locked >= 5
  ∧ User.locked_until alice_locked = Some (50 + timedelta.minutes 30)
  ∧ 50 + timedelta.minutes 30 <= timedelta.hours 2
  ∧ User.is_account_locked (timedelta.hours 2) alice_locked = false
  ∧ ∃ self' rows',
      User.increment_failed_login (timedelta.hours 2) alice_locked
        [alice_locked] = (Ok self', rows')
      ∧ User.failed_login_attempts self' = 6
      ∧ User.locked_until self'
        = Some (timedelta.hours 2 + timedelta.minutes 30).
Proof.
  assert (Hge : User.failed_login_attempts alice_locked >= 5)
    by (vm_compute; discriminate).
  assert (Hpast : 50 + timedelta.minutes 30 <= timedelta.hours 2)
    by (vm_compute; discriminate).
  split; [reflexivity|]. split; [exact Hge|]. split; [reflexivity|].
  split; [exact Hpast|].
  destruct (elapsed_lock_relocks_on_next_failure alice_locked [alice_locked]
              (50 + timedelta.minutes 30) (timedelta.hours 2)
              (timedelta.hours 2) eq_refl Hge eq_refl Hpast)
    as (Hfree & self' & rows' & Hrun & Hcount & Hlock & _).
  split; [exact Hfree|].
  exists self', rows'. split; [exact Hrun|]. split; [exact Hcount|exact Hlock].
Defined.

Lemma add_session_keeps_last_ten_witness :
  stored alice_ten_sessions [alice_ten_sessions] = true
  ∧ ∃ self' rows',
      User.add_session 99 "s10" "10.0.0.2" "firefox" alice_ten_sessions
        [alice_ten_sessions] = (Ok self', rows')
      ∧ (length (User.active_sessions self') <= 10)%nat
      ∧ summary_id <$> User.active_sessions self'
        = ["s1"; "s2"; "s3"; "s4"; "s5"; "s6"; "s7"; "s8"; "s9"; "s10"].
Proof.
  split; [reflexivity|].
  destruct (add_session_keeps_last_ten 99 "s10" "10.0.0.2" "firefox"
              alice_ten_sessions [alice_ten_sessions] eq_refl)
    as (self' & rows' & Hrun & Hlen & _ & Hall & _).
  exists self', rows'. split; [exact Hrun|]. split; [exact Hlen|].
  rewrite Hall. reflexivity.
Defined.

Lemma locked_account_is_rejected_witness :
  QuerySet.get UserModel (email_is (Some "alice@example.com"))
    (users world_locked) = Ok alice_locked
  ∧ 50 + timedelta.minutes 30 > timedelta.minutes 10
  ∧ sample_backend (users world_locked) (Some "alice@example.com")
      (Some "old") = Some alice_locked
  ∧ fst (AuthenticationView.post sample_backend
           (login_clock (timedelta.minutes 10)) sample_minted
           (login_request "alice@example.com" "old") world_locked)
    = Ok {| data := ErrorBody "Account is locked. Please try again later.";
            status := HTTP_423_LOCKED |}.
Proof.
  assert (Hfuture : 50 + timedelta.minutes 30 > timedelta.minutes 10)
    by (vm_compute; reflexivity).
  split; [reflexivity|]. split; [exact Hfuture|]. split; [reflexivity|].
  destruct (locked_account_is_rejected sample_backend
              (login_clock (timedelta.minutes 10)) sample_minted
              (login_request "alice@example.com" "old") world_locked
              alice_locked (50 + timedelta.minutes 30)
              eq_refl eq_refl Hfuture) as [Hrun _].
  rewrite Hrun. reflexivity.
Defined.

Lemma rejected_logins_look_alike_witness :
  QuerySet.get UserModel (email_is (Some "mallory@example.com"))
    (users world0) = Raise (DoesNotExist UserModel)
  ∧ QuerySet.get UserModel (email_is (Some "alice@example.com"))
      (users world0) = Ok alice
  ∧ sample_backend (users world0) (Some "alice@example.com") (Some "guess")
    = None
  ∧ ∃ response w1 w2,
      AuthenticationView.post sample_backend (login_clock 5) sample_minted
        (login_request "mallory@example.com" "guess") world0
      = (Ok response, w1)
      ∧ AuthenticationView.post sample_backend (login_clock 9) sample_minted
          (login_request "alice@example.com" "guess") world0
        = (Ok response, w2)
      ∧ response = {| data := ErrorBody "Invalid credentials";
                      status := HTTP_401_UNAUTHORIZED |}.
Proof.
  split; [reflexivity|]. split; [reflexivity|]. split; [reflexivity|].
  apply (rejected_logins_look_alike sample_backend (login_clock 5)
           (login_clock 9) sample_minted sample_minted
           (login_request "mallory@example.com" "guess")
           (login_request "alice@example.com" "guess") world0 alice);
    reflexivity.
Defined.

Lemma request_reset_adds_a_token_witness :
  QuerySet.get UserModel (email_is (PasswordResetView.data_email first_request))
    (users world0) = Ok alice
  ∧ ∃ w',
      PasswordResetView.request_reset 0 first_request world0
      = (Ok {| data := MessageBody
                 "If the email exists, a password reset link has been sent.";
               status := HTTP_200_OK |}, w')
      ∧ reset_tokens w' = [issued_token 0 alice first_request].
Proof.
  split; [reflexivity|].
  destruct (request_reset_adds_a_token 0 first_request world0 alice
              eq_refl eq_refl) as (w' & Hrun & Htokens & _).
  exists w'. split; [exact Hrun|exact Htokens].
Defined.

Lemma create_checks_total_user_count_witness :
  UserViewSet.is_valid carol_serializer (users world_bob) = true
  ∧ (∃ w',
       UserViewSet.create sample_tenant_column carol_serializer small_tenant
         world_bob
       = (Ok {| data := ErrorBody "Tenant user limit reached";
                status := HTTP_403_FORBIDDEN |}, w'))
  ∧ (∃ w',
       UserViewSet.create sample_tenant_column carol_serializer
         {| Tenant.id := 1%N; Tenant.max_users := 2 |} world_bob
       = (Ok {| data := UserBody carol; status := HTTP_201_CREATED |}, w')
       ∧ users w' = [bob_inactive; carol]).
Proof.
  split; [reflexivity|]. split.
  - destruct (create_checks_total_user_count sample_tenant_column
                carol_serializer small_tenant world_bob eq_refl)
      as (result & w' & Hrun & Hiff & _).
    exists w'. rewrite Hrun. f_equal. apply Hiff. by vm_compute.
  - destruct (create_checks_total_user_count sample_tenant_column
                carol_serializer {| Tenant.id := 1%N; Tenant.max_users := 2 |}
                world_bob eq_refl)
      as (result & w' & Hrun & _ & _ & Hbelow).
    destruct Hbelow as (_ & Hrows & Hresult); [by vm_compute|].
    exists w'. rewrite Hrun. split; [by f_equal|exact Hrows].
Defined.

Lemma reset_token_consumed_iff_valid_witness :
  QuerySet.filter (token_is "first-token") (reset_tokens world_two_requests)
  = [issued_token 0 alice first_request]
  ∧ QuerySet.get UserModel
      (PasswordResetView.owner_of (issued_token 0 alice first_request))
      (users world_two_requests) = Ok alice
  ∧ User.password <$> users world_two_requests = ["pbkdf2$old"]
  ∧ ∃ response w',
      PasswordResetView.reset_password sample_hasher
        (reset_clock (timedelta.minutes 2)) first_token_presented
        world_two_requests = (Ok response, w')
      ∧ status response = HTTP_200_OK
      ∧ QuerySet.filter (token_is "first-token") (reset_tokens w')
        = [marked_used (timedelta.minutes 2)
             (issued_token 0 alice first_request)]
      ∧ User.password <$> users w' = ["pbkdf2$correct horse"].
Proof.
  split; [reflexivity|]. split; [reflexivity|]. split; [reflexivity|].
  destruct (reset_token_consumed_iff_valid sample_hasher
              (reset_clock (timedelta.minutes 2)) first_token_presented
              world_two_requests (issued_token 0 alice first_request) alice
              eq_refl eq_refl eq_refl)
    as (response & w' & Hrun & _ & _ & Hgood).
  destruct (Hgood eq_refl)
    as (Hstatus & (used & Htoken & -> & _) & _ & _).
  exists response, w'. split; [exact Hrun|]. split; [exact Hstatus|].
  split; [exact Htoken|].
  revert Hrun. vm_compute. by intros [= _ <-].
Defined.

(** ** The views end to end *)

(** What [post] does when the backend accepts the credentials of the
    account that the address resolves to, and the account is active and
    not locked: the lockout columns are cleared and saved first; then the
    session is inserted, which the database refuses when a value is too
    long or a unique column collides; only then come the history row, the
    [last_login] columns and the answer. *)
Lemma post_accepted_run
    (authenticate : AuthenticationView.Backend)
    (clock : AuthenticationView.Clock) (minted : AuthenticationView.Minted)
    (request : AuthenticationView.Request) (w : World) (user : User.t) :
  QuerySet.get UserModel (email_is (AuthenticationView.data_email request))
    (users w) = Ok user ->
  User.is_account_locked (AuthenticationView.at_lock_check clock) user = false ->
  authenticate (users w) (AuthenticationView.data_email request)
    (AuthenticationView.data_password request) = Some user ->
  User.is_active user = true ->
  let session := login_session clock minted request user in
  let stamped := login_stamped clock request user in
  let cleared_rows := lockout_saved (lockout_cleared user) (users w) in
  AuthenticationView.post authenticate clock minted request w
  = if UserSession.fits session then
      if QuerySet.exists_
           (QuerySet.filter (UserSession.clash session) (sessions w))
      then (Raise IntegrityError, users_replaced cleared_rows w)
      else
        (Ok {| data := LoginBody (AuthenticationView.access_for_response minted)
                         (AuthenticationView.refresh minted) stamped
                         (UserSession.id session)
                         (UserSession.expires_at session);
               status := HTTP_200_OK |},
         {| users :=
              map (fun r =>
                     if User.same_pk stamped r
                     then User.copy_columns
                            [User.col_last_login; User.col_last_login_ip;
                             User.col_last_login_user_agent] stamped r
                     else r) cleared_rows;
            login_history :=
              login_history w
              ++ [{| LoginHistory.user := Some (User.id user);
                     LoginHistory.email := User.email user;
                     LoginHistory.success := true;
                     LoginHistory.failure_reason := "";
                     LoginHistory.auth_method := "password";
                     LoginHistory.ip_address :=
                       AuthenticationView.client_ip request;
                     LoginHistory.user_agent :=
                       default "" (AuthenticationView.http_user_agent request);
                     LoginHistory.risk_score := 0 |}];
            sessions := sessions w ++ [session];
            reset_tokens := reset_tokens w |})
    else (Raise DataError, users_replaced cleared_rows w).
Proof.
  intros Hget Hfree Hauth Hactive session stamped cleared_rows.
  pose proof (get_Ok_holds _ _ _ _ Hget) as [Hin Hemail%email_is_Some].
  pose proof (elem_of_stored _ _ Hin) as Hst.
  unfold AuthenticationView.post, bind, try_except, on_users, query, ret.
  simpl. rewrite Hget. simpl. rewrite Hfree. simpl. rewrite Hauth. simpl.
  rewrite Hactive. simpl.
  unfold User.reset_failed_login, bind, ret.
  rewrite save_update_fields_stored by exact Hst. simpl.
  unfold on_sessions, UserSession.create. simpl.
  fold (login_session clock minted request user). fold session.
  destruct (UserSession.fits session); [|done].
  unfold QuerySet.create.
  destruct (QuerySet.exists_
              (QuerySet.filter (UserSession.clash session) (sessions w)));
    [done|].
  simpl. unfold on_login_history. simpl.
  rewrite Hemail, login_history_create_appends. simpl.
  rewrite save_update_fields_stored.
  2:{ change (stored user (lockout_saved (lockout_cleared user) (users w))
              = true).
      by rewrite stored_lockout_saved. }
  done.
Qed.

(** The rows of an account after an accepted login, whether or not the
    session could be inserted. *)
Lemma accepted_login_rows (clock : AuthenticationView.Clock)
    (request : AuthenticationView.Request) (user : User.t)
    (rows : list User.t) (r : User.t) :
  let stamped := login_stamped clock request user in
  let cleared_rows := lockout_saved (lockout_cleared user) rows in
  r ∈ cleared_rows
  ∨ r ∈ map (fun r =>
               if User.same_pk stamped r
               then User.copy_columns
                      [User.col_last_login; User.col_last_login_ip;
                       User.col_last_login_user_agent] stamped r
               else r) cleared_rows ->
  User.id r = User.id user ->
  User.failed_login_attempts r = 0 ∧ User.locked_until r = None.
Proof.
  intros stamped cleared_rows [Hr|Hr] Hid.
  - by apply lockout_saved_row in Hr.
  - apply list_elem_of_fmap in Hr as (r1 & -> & Hr1).
    assert (Hid1 : User.id r1 = User.id user).
    { destruct (User.same_pk stamped r1); exact Hid. }
    destruct (lockout_saved_row _ _ _ Hr1 Hid1) as [Hcount Hlock].
    by destruct (User.same_pk stamped r1).
Qed.

(** C5.  When the backend accepts the credentials of an account that is
    active and not locked, [post] calls [reset_failed_login] before
    anything else: whatever the failure counter was, and whether or not
    the rest of the request goes through, the account's row ends with a
    zero counter and no lock, so [is_account_locked] is false at any
    instant.  The login is answered 200 when the session row fits its
    columns and collides with no stored session. *)
Theorem successful_login_clears_lockout
    (authenticate : AuthenticationView.Backend)
    (clock : AuthenticationView.Clock) (minted : AuthenticationView.Minted)
    (request : AuthenticationView.Request) (w : World) (user : User.t) :
  QuerySet.get UserModel (email_is (AuthenticationView.data_email request))
    (users w) = Ok user ->
  User.is_account_locked (AuthenticationView.at_lock_check clock) user = false ->
  authenticate (users w) (AuthenticationView.data_email request)
    (AuthenticationView.data_password request) = Some user ->
  User.is_active user = true ->
  ∃ result w',
    AuthenticationView.post authenticate clock minted request w = (result, w')
    ∧ (∃ r, r ∈ users w' ∧ User.id r = User.id user)
    ∧ (∀ r, r ∈ users w' -> User.id r = User.id user ->
            User.failed_login_attempts r = 0
            ∧ User.locked_until r = None
            ∧ ∀ now, User.is_account_locked now r = false)
    ∧ (UserSession.fits (login_session clock minted request user) = true ->
       QuerySet.exists_
         (QuerySet.filter
            (UserSession.clash (login_session clock minted request user))
            (sessions w)) = false ->
       ∃ response, result = Ok response ∧ status response = HTTP_200_OK).
Proof.
  intros Hget Hfree Hauth Hactive.
  pose proof (post_accepted_run authenticate clock minted request w user
                Hget Hfree Hauth Hactive) as Hrun.
  cbv zeta in Hrun.
  pose proof (get_Ok_holds _ _ _ _ Hget) as [Hin _].
  assert (Hcleared : ∀ r w',
            (users w' = lockout_saved (lockout_cleared user) (users w)
             ∨ users w'
               = map (fun r =>
                        if User.same_pk (login_stamped clock request user) r
                        then User.copy_columns
                               [User.col_last_login; User.col_last_login_ip;
                                User.col_last_login_user_agent]
                               (login_stamped clock request user) r
                        else r)
                   (lockout_saved (lockout_cleared user) (users w))) ->
            r ∈ users w' -> User.id r = User.id user ->
            User.failed_login_attempts r = 0
            ∧ User.locked_until r = None
            ∧ ∀ now, User.is_account_locked now r = false).
  { intros r w' Hrows Hr Hid.
    destruct (accepted_login_rows clock request user (users w) r)
      as [Hcount Hlock]; [|done|].
    - destruct Hrows as [<-|<-]; [by left|by right].
    - split; [done|]. split; [done|]. intros now.
      unfold User.is_account_locked. by rewrite Hlock. }
  assert (Hrow : ∀ w',
            (users w' = lockout_saved (lockout_cleared user) (users w)
             ∨ users w'
               = map (fun r =>
                        if User.same_pk (login_stamped clock request user) r
                        then User.copy_columns
                               [User.col_last_login; User.col_last_login_ip;
                                User.col_last_login_user_agent]
                               (login_stamped clock request user) r
                        else r)
                   (lockout_saved (lockout_cleared user) (users w))) ->
            ∃ r, r ∈ users w' ∧ User.id r = User.id user).
  { intros w' [->| ->].
    - eexists. split.
      + unfold lockout_saved. apply list_elem_of_fmap. by exists user.
      + unfold User.same_pk. by destruct (bool_decide _).
    - eexists. split.
      + apply list_elem_of_fmap. eexists. split; [reflexivity|].
        unfold lockout_saved. apply list_elem_of_fmap. by exists user.
      + unfold User.same_pk. simpl. by repeat destruct (bool_decide _). }
  destruct (UserSession.fits (login_session clock minted request user))
    eqn:Hfits.
  - destruct (QuerySet.exists_ _) eqn:Hclash in Hrun.
    + eexists _, _. split; [exact Hrun|].
      split; [apply Hrow; by left|].
      split; [intros r; apply Hcleared; by left|].
      intros _ Hno. congruence.
    + eexists _, _. split; [exact Hrun|].
      split; [apply Hrow; by right|].
      split; [intros r; apply Hcleared; by right|].
      intros _ _. by eexists.
  - eexists _, _. split; [exact Hrun|].
    split; [apply Hrow; by left|].
    split; [intros r; apply Hcleared; by left|].
    intros Hyes. discriminate.
Qed.

Lemma successful_login_clears_lockout_witness :
  User.failed_login_attempts alice_locked = 5
  ∧ sample_backend (users world_locked) (Some "alice@example.com")
      (Some "old") = Some alice_locked
  ∧ ∃ response w',
      AuthenticationView.post sample_backend
        (login_clock (timedelta.hours 2)) sample_minted
        (login_request "alice@example.com" "old") world_locked
      = (Ok response, w')
      ∧ status response = HTTP_200_OK
      ∧ User.failed_login_attempts <$> users w' = [0]
      ∧ User.locked_until <$> users w' = [None].
Proof.
  split; [reflexivity|]. split; [reflexivity|].
  destruct (successful_login_clears_lockout sample_backend
              (login_clock (timedelta.hours 2)) sample_minted
              (login_request "alice@example.com" "old") world_locked
              alice_locked eq_refl eq_refl eq_refl eq_refl)
    as (result & w' & Hrun & _ & _ & Hok).
  destruct (Hok eq_refl eq_refl) as (response & -> & Hstatus).
  exists response, w'. split; [exact Hrun|]. split; [exact Hstatus|].
  revert Hrun. vm_compute. by intros [= _ <-].
Defined.

(** Five wrong passwords lock the account at the fifth; the right
    password, tried ten instants later, is answered 423, and the row keeps
    the lock set by the fifth failure. *)
Example lockout_scenario :
  let attempts :=
    [(10, login_request "alice@example.com" "guess");
     (20, login_request "alice@example.com" "guess");
     (30, login_request "alice@example.com" "guess");
     (40, login_request "alice@example.com" "guess");
     (50, login_request "alice@example.com" "guess");
     (60, login_request "alice@example.com" "old")] in
  let (result, w) := posts sample_backend attempts world0 in
  match result with
  | Ok responses => status <$> responses = [401; 401; 401; 401; 401; 423]
  | Raise _ => False
  end
  ∧ users w = [alice_locked]
  ∧ LoginHistory.failure_reason <$> login_history w
    = ["invalid_credentials"; "invalid_credentials"; "invalid_credentials";
       "invalid_credentials"; "invalid_credentials"; "account_locked"].
Proof. vm_compute. done. Qed.

(** Once the lock has run out, the right password is accepted and the row
    is back at zero failures with no lock. *)
Example unlock_by_login_scenario :
  let (result, w) :=
    posts sample_backend
      [(timedelta.hours 2, login_request "alice@example.com" "old")]
      world_locked in
  match result with
  | Ok responses => status <$> responses = [200]
  | Raise _ => False
  end
  ∧ (User.failed_login_attempts <$> users w) = [0]
  ∧ (User.locked_until <$> users w) = [None].
Proof. vm_compute. done. Qed.

(** Once the lock has run out, one wrong password locks the account
    again. *)
Example relock_scenario :
  let (result, w) :=
    posts sample_backend
      [(timedelta.hours 2, login_request "alice@example.com" "guess")]
      world_locked in
  match result with
  | Ok responses => status <$> responses = [401]
  | Raise _ => False
  end
  ∧ (User.failed_login_attempts <$> users w) = [6]
  ∧ (User.locked_until <$> users w)
    = [Some (timedelta.hours 2 + timedelta.minutes 30)].
Proof. vm_compute. done. Qed.

(** * Further properties of the models and views *)

(** ** Session history: removal *)

Lemma active_sessions_saved_row (self : User.t) (rows : list User.t) r :
  r ∈ map (fun r => if User.same_pk self r
                    then User.copy_columns [User.col_active_sessions] self r
                    else r) rows ->
  User.id r = User.id self ->
  User.active_sessions r = User.active_sessions self.
Proof.
  intros Hin Hid. apply list_elem_of_fmap in Hin as (r0 & -> & _).
  unfold User.same_pk in *. case_bool_decide as Hpk; [done|].
  simpl in Hid. congruence.
Qed.

(** X1.  [remove_session] drops every entry of the history whose id is the
    given one and nothing else: no entry with that id is left, every other
    entry stays, in the old order, and the saved row carries the same
    history. *)
Theorem remove_session_drops_that_id (session_id : string) (self : User.t)
    (rows : list User.t) :
  stored self rows = true ->
  ∃ self' rows',
    User.remove_session session_id self rows = (Ok self', rows')
    ∧ (∀ s, s ∈ User.active_sessions self' ↔
            s ∈ User.active_sessions self ∧ summary_id s ≠ session_id)
    ∧ sublist (User.active_sessions self') (User.active_sessions self)
    ∧ (∀ r, r ∈ rows' -> User.id r = User.id self ->
       User.active_sessions r = User.active_sessions self').
Proof.
  intros Hst. unfold User.remove_session, bind, ret.
  rewrite save_update_fields_stored by done.
  eexists _, _. split; [reflexivity|]. simpl User.active_sessions.
  split; [|split].
  - intros s. rewrite list_elem_of_In, filter_In, <- list_elem_of_In.
    rewrite negb_true_iff, bool_decide_eq_false. done.
  - induction (User.active_sessions self) as [|x l IH]; simpl; [constructor|].
    destruct (negb _); by constructor.
  - intros r Hin Hid. by apply (active_sessions_saved_row _ _ _ Hin).
Qed.

Lemma filter_all {A : Type} (p : A -> bool) (l : list A) :
  (∀ x, x ∈ l -> p x = true) -> List.filter p l = l.
Proof.
  induction l as [|x l IH]; intros Hall; simpl; [done|].
  rewrite (Hall x) by (by left). f_equal. apply IH. intros y Hy.
  apply Hall. by right.
Qed.

(** X2.  Adding a session under an id that the history does not hold yet,
    while the history has fewer than 10 entries, and removing it again
    gives back the old history, on the instance and on the saved row. *)
Theorem add_then_remove_session (now : datetime)
    (session_id ip_address user_agent : string) (self : User.t)
    (rows : list User.t) :
  stored self rows = true ->
  (length (User.active_sessions self) < 10)%nat ->
  (∀ s, s ∈ User.active_sessions self -> summary_id s ≠ session_id) ->
  ∃ self' rows',
    (let! added :=
       User.add_session now session_id ip_address user_agent self in
     User.remove_session session_id added) rows
    = (Ok self', rows')
    ∧ User.active_sessions self' = User.active_sessions self
    ∧ (∀ r, r ∈ rows' -> User.id r = User.id self ->
       User.active_sessions r = User.active_sessions self).
Proof.
  intros Hst Hlen Hfresh.
  unfold bind at 1. unfold User.add_session, bind, ret.
  rewrite save_update_fields_stored by done.
  unfold User.remove_session, bind, ret.
  rewrite save_update_fields_stored.
  2:{ unfold stored in Hst. rewrite filter_map_stable, exists_map; [done|].
      intros r.
      match goal with
      | |- context [if ?b then _ else _] => destruct b
      end; [apply same_pk_copy_columns|done]. }
  simpl User.active_sessions. rewrite last_n_snoc.
  replace (length (User.active_sessions self) - 9)%nat with 0%nat by lia.
  rewrite drop_0, List.filter_app. simpl.
  rewrite bool_decide_eq_true_2 by done. simpl. rewrite app_nil_r.
  rewrite filter_all.
  2:{ intros s Hs. apply negb_true_iff, bool_decide_eq_false. by apply Hfresh. }
  eexists _, _. split; [reflexivity|]. split; [done|].
  intros r Hin Hid. by apply active_sessions_saved_row in Hin.
Qed.

(** ** Validity windows *)

(** X3.  The instants at which a role assignment is valid form an
    interval: an assignment valid at two instants is valid at every
    instant between them. *)
Theorem user_role_validity_is_an_interval (self : UserRole.t)
    (earlier now later : datetime) :
  UserRole.is_valid earlier self = true ->
  UserRole.is_valid later self = true ->
  earlier <= now <= later ->
  UserRole.is_valid now self = true.
Proof.
  unfold UserRole.is_valid. intros Hearly Hlate Hbetween.
  repeat case_bool_decide; try done; try lia.
  all: destruct (UserRole.valid_until self) as [until|]; try done.
  all: repeat case_bool_decide; try done; lia.
Qed.

(** X4.  A subscription that is not active at some instant is not active
    at any later instant either, as long as the tenant's columns stay as
    they are. *)
Theorem subscription_does_not_come_back (self : TenantSubscription.t)
    (now later : datetime) :
  TenantSubscription.is_subscription_active now self = false ->
  now <= later ->
  TenantSubscription.is_subscription_active later self = false.
Proof.
  unfold TenantSubscription.is_subscription_active. intros Hoff Hle.
  destruct (negb _); [done|].
  destruct (TenantSubscription.subscription_expires_at self) as [e|]; [|done].
  repeat case_bool_decide; try done; lia.
Qed.

(** ** Sessions: logout and revocation *)

(** What the queryset update shared by [logout_all], [revoke_sessions],
    [deactivate] and [reset_password] leaves. *)
Lemma revoke_active_sessions (now : datetime) (user_id : N)
    (rows : list UserSession.t) :
  let rows' :=
    map (fun s => if UserSession.active_of user_id s
                  then UserSession.revoked now s else s) rows in
  (∀ s, s ∈ rows' -> UserSession.user s = user_id ->
        UserSession.is_active s = false)
  ∧ (∀ s, s ∈ rows ->
          UserSession.user s ≠ user_id ∨ UserSession.is_active s = false ->
          s ∈ rows')
  ∧ length rows' = length rows.
Proof.
  simpl. split; [|split].
  - intros s Hin Huser. apply list_elem_of_fmap in Hin as (s0 & -> & _).
    unfold UserSession.active_of in *.
    destruct (UserSession.is_active s0) eqn:Hact; simpl in *.
    + case_bool_decide; simpl in *; [done|congruence].
    + rewrite andb_false_r. done.
  - intros s Hin Hother. apply list_elem_of_fmap. exists s. split; [|done].
    unfold UserSession.active_of.
    destruct Hother as [Hne| ->]; [|by rewrite andb_false_r].
    by rewrite bool_decide_eq_false_2.
  - apply length_map.
Qed.

(** X5.  [logout_all] and [revoke_sessions] answer 200 and leave no active
    session of the user; sessions of other users and sessions that were
    already revoked stay as they were (an earlier [revoked_at] is not
    overwritten), and no other table changes. *)
Theorem logout_all_leaves_no_active_session (now : datetime) (user : User.t)
    (w : World) :
  ∃ reply reply' rows',
    LogoutView.logout_all now user w = (Ok reply, sessions_replaced rows' w)
    ∧ UserViewSet.revoke_sessions now user w
      = (Ok reply', sessions_replaced rows' w)
    ∧ code reply = HTTP_200_OK ∧ code reply' = HTTP_200_OK
    ∧ (∀ s, s ∈ rows' -> UserSession.user s = User.id user ->
            UserSession.is_active s = false)
    ∧ (∀ s, s ∈ sessions w ->
            UserSession.user s ≠ User.id user
            ∨ UserSession.is_active s = false ->
            s ∈ rows')
    ∧ length rows' = length (sessions w).
Proof.
  destruct (revoke_active_sessions now (User.id user) (sessions w))
    as (Hnone & Hkept & Hlen).
  eexists _, _, _. split; [reflexivity|]. split; [reflexivity|].
  split; [done|]. split; [done|]. done.
Qed.

Lemma NoDup_fmap_elem_eq {A B : Type} (f : A -> B) (l : list A) (x y : A) :
  NoDup (f <$> l) -> x ∈ l -> y ∈ l -> f x = f y -> x = y.
Proof.
  induction l as [|a l IH]; simpl; intros Hnd Hx Hy Hf.
  - by apply elem_of_nil in Hx.
  - apply NoDup_cons in Hnd as [Hnotin Hnd].
    apply elem_of_cons in Hx as [->|Hx]; apply elem_of_cons in Hy as [->|Hy].
    + done.
    + exfalso. apply Hnotin. rewrite Hf. apply list_elem_of_fmap. by exists y.
    + exfalso. apply Hnotin. rewrite <- Hf. apply list_elem_of_fmap. by exists x.
    + by apply IH.
Qed.

(** With a unique column [f], a lookup that fixes the value of [f] finds
    at most one row. *)
Lemma filter_unique {A B : Type} (f : A -> B) (k : B) (p : A -> bool)
    (l : list A) :
  NoDup (f <$> l) ->
  (∀ x, p x = true -> f x = k) ->
  QuerySet.filter p l = [] ∨ ∃ x, QuerySet.filter p l = [x].
Proof.
  unfold QuerySet.filter. intros Hnd Hkey.
  destruct (List.filter p l) as [|x [|y rest]] eqn:Hfilter; [by left|right; by exists x|].
  exfalso.
  assert (Hsplit : NoDup (List.filter p l)).
  { apply NoDup_ListNoDup, List.NoDup_filter, NoDup_ListNoDup.
    by apply NoDup_fmap_1 in Hnd. }
  assert (Hx : In x (List.filter p l)) by (rewrite Hfilter; by left).
  assert (Hy : In y (List.filter p l)) by (rewrite Hfilter; right; by left).
  apply filter_In in Hx as [Hx Hpx]. apply filter_In in Hy as [Hy Hpy].
  assert (x = y).
  { apply (NoDup_fmap_elem_eq f l); [done|by apply list_elem_of_In..|].
    by rewrite (Hkey x), (Hkey y). }
  subst y. rewrite Hfilter in Hsplit.
  apply NoDup_cons in Hsplit as [Hnotin _]. apply Hnotin. by left.
Qed.

Lemma filter_nil_none {A : Type} (p : A -> bool) (l : list A) x :
  QuerySet.filter p l = [] -> x ∈ l -> p x = false.
Proof.
  unfold QuerySet.filter. intros Hnil Hin.
  destruct (p x) eqn:Hp; [|done].
  assert (Habs : In x (List.filter p l)).
  { apply filter_In. split; [by apply list_elem_of_In|done]. }
  by rewrite Hnil in Habs.
Qed.

Lemma filter_singleton_only {A : Type} (p : A -> bool) (l : list A) x y :
  QuerySet.filter p l = [x] -> y ∈ l -> p y = true -> y = x.
Proof.
  unfold QuerySet.filter. intros Hone Hin Hp.
  assert (Hy : In y (List.filter p l)).
  { apply filter_In. split; [by apply list_elem_of_In|done]. }
  rewrite Hone in Hy. by destruct Hy as [->|[]].
Qed.

(** What [logout] does when the session table respects its two unique
    columns. *)
Lemma logout_run (now : datetime) (user : User.t)
    (data_session_id session_key : option string) (w : World) :
  NoDup (UserSession.id <$> sessions w) ->
  NoDup (UserSession.session_key <$> sessions w) ->
  LogoutView.logout now user data_session_id session_key w
  = (Ok {| payload := Status "Logged out successfully";
           code := HTTP_200_OK |},
     sessions_replaced
       (map (fun s =>
               if logout_target user (opt_or data_session_id session_key) s
               then UserSession.revoked now s else s)
          (sessions w))
       w).
Proof.
  intros Hids Hkeys. unfold LogoutView.logout, logout_target.
  set (key := opt_or data_session_id session_key).
  destruct (truthy key) eqn:Htruthy; simpl.
  2:{ unfold bind, ret. f_equal. unfold sessions_replaced.
      rewrite map_id. by destruct w. }
  unfold bind, ret, on_sessions, query, QuerySet.get_or_none. simpl.
  set (p := fun s : UserSession.t =>
              bool_decide (Some (UserSession.session_key s) = key)
              && UserSession.active_of (User.id user) s).
  destruct key as [k|]; [|done].
  destruct (filter_unique UserSession.session_key k p (sessions w) Hkeys)
    as [Hnil|[x Hone]].
  { intros s Hp. unfold p in Hp. apply andb_true_iff in Hp as [Hk _].
    apply bool_decide_eq_true_1 in Hk. congruence. }
  - rewrite Hnil. simpl. f_equal. unfold sessions_replaced. f_equal.
    rewrite <- (map_id (sessions w)) at 1. apply map_ext_in.
    intros s Hs%list_elem_of_In.
    fold (p s). by rewrite (filter_nil_none p _ _ Hnil Hs).
  - rewrite Hone. simpl.
    pose proof (filter_singleton_elem _ _ _ Hone) as [Hx Hpx].
    unfold UserSession.revoke, bind, ret.
    rewrite save_update_fields_stored.
    2:{ apply exists_filter_true. exists x. split; [done|].
        unfold UserSession.same_pk. by apply bool_decide_eq_true_2. }
    simpl. f_equal. unfold sessions_replaced. f_equal.
    apply map_ext_in. intros s Hs%list_elem_of_In. fold (p s).
    unfold UserSession.same_pk. simpl.
    destruct (p s) eqn:Hps.
    + rewrite (filter_singleton_only p _ _ _ Hone Hs Hps).
      by rewrite bool_decide_eq_true_2.
    + rewrite bool_decide_eq_false_2; [done|].
      intros Hid.
      assert (s = x); [|congruence].
      by apply (NoDup_fmap_elem_eq UserSession.id (sessions w)).
Qed.

(** X6.  On a session table that respects its unique columns, [logout]
    always answers 200 "Logged out successfully".  It revokes the session
    with the given key only if that session belongs to the requesting user
    and is active; every other session, in particular every session of
    another user, stays as it was, and no other table changes. *)
Theorem logout_revokes_only_own_session (now : datetime) (user : User.t)
    (data_session_id session_key : option string) (w : World) :
  NoDup (UserSession.id <$> sessions w) ->
  NoDup (UserSession.session_key <$> sessions w) ->
  let key := opt_or data_session_id session_key in
  ∃ rows',
    LogoutView.logout now user data_session_id session_key w
    = (Ok {| payload := Status "Logged out successfully";
             code := HTTP_200_OK |},
       sessions_replaced rows' w)
    ∧ length rows' = length (sessions w)
    ∧ (∀ s, s ∈ sessions w -> logout_target user key s = true ->
            UserSession.revoked now s ∈ rows')
    ∧ (∀ s, s ∈ sessions w -> logout_target user key s = false -> s ∈ rows')
    ∧ (∀ s, s ∈ sessions w -> UserSession.user s ≠ User.id user -> s ∈ rows').
Proof.
  intros Hids Hkeys key. eexists. split; [by apply logout_run|].
  fold key. split; [apply length_map|].
  assert (Hkept : ∀ s, s ∈ sessions w -> logout_target user key s = false ->
            s ∈ map (fun s => if logout_target user key s
                              then UserSession.revoked now s else s)
                  (sessions w)).
  { intros s Hs Hmiss. apply list_elem_of_fmap. exists s.
    by rewrite Hmiss. }
  split; [|split; [exact Hkept|]].
  - intros s Hs Hhit. apply list_elem_of_fmap. exists s. by rewrite Hhit.
  - intros s Hs Hother. apply Hkept; [done|].
    unfold logout_target, UserSession.active_of.
    rewrite (bool_decide_eq_false_2 (UserSession.user s = User.id user)) by done.
    simpl. by rewrite andb_false_r.
Qed.

(** X7.  Logging out of the same session a second time changes nothing:
    the session is no longer active, so it is not found and its
    [revoked_at] keeps the instant of the first logout. *)
Theorem logout_twice_is_logout_once (now later : datetime) (user : User.t)
    (data_session_id session_key : option string) (w : World) :
  NoDup (UserSession.id <$> sessions w) ->
  NoDup (UserSession.session_key <$> sessions w) ->
  let once := LogoutView.logout now user data_session_id session_key w in
  LogoutView.logout later user data_session_id session_key (snd once)
  = (fst once, snd once).
Proof.
  intros Hids Hkeys once. subst once.
  rewrite (logout_run now) by done. simpl fst. simpl snd.
  set (g := fun s => if logout_target user
                          (opt_or data_session_id session_key) s
                     then UserSession.revoked now s else s).
  assert (Hid : ∀ s, UserSession.id (g s) = UserSession.id s)
    by (intros s; unfold g; by destruct (logout_target _ _ s)).
  assert (Hkey : ∀ s, UserSession.session_key (g s) = UserSession.session_key s)
    by (intros s; unfold g; by destruct (logout_target _ _ s)).
  assert (Hsame : ∀ {B : Type} (f : UserSession.t -> B) (l : list UserSession.t),
            (∀ s, f (g s) = f s) -> f <$> map g l = f <$> l).
  { intros B f l Hf. induction l as [|a l IH]; [done|].
    change (f (g a) :: (f <$> map g l) = f a :: (f <$> l)).
    by rewrite Hf, IH. }
  rewrite logout_run; simpl sessions; [|by rewrite Hsame..].
  f_equal. unfold sessions_replaced. simpl. f_equal.
  rewrite <- (map_id (map g (sessions w))) at 2. apply map_ext_in.
  intros s' Hs'. apply in_map_iff in Hs' as (s & <- & _).
  unfold g. destruct (logout_target user _ s) eqn:Hhit.
  - unfold logout_target, UserSession.active_of. simpl.
    by rewrite !andb_false_r.
  - by rewrite Hhit.
Qed.

(** ** Account state: deactivation, unlock, password change *)

(** X8.  [deactivate] refuses the requesting user's own account with 400
    and writes nothing.  For another stored account it answers 200, clears
    [is_active] on that account's row and leaves it no active session; the
    rows and sessions of other users, the login history and the reset
    tokens stay as they were. *)
Theorem deactivate_effect (now : datetime) (request_user user : User.t)
    (w : World) :
  stored user (users w) = true ->
  ∃ reply w',
    UserViewSet.deactivate now request_user user w = (Ok reply, w')
    ∧ (User.id user = User.id request_user ->
       reply = {| payload := Error "Cannot deactivate your own account";
                  code := HTTP_400_BAD_REQUEST |}
       ∧ w' = w)
    ∧ (User.id user ≠ User.id request_user ->
       reply = {| payload := Status "User deactivated"; code := HTTP_200_OK |}
       ∧ (∀ r, r ∈ users w' -> User.id r = User.id user ->
               User.is_active r = false)
       ∧ (∀ r, r ∈ users w -> User.id r ≠ User.id user -> r ∈ users w')
       ∧ (∀ s, s ∈ sessions w' -> UserSession.user s = User.id user ->
               UserSession.is_active s = false)
       ∧ (∀ s, s ∈ sessions w -> UserSession.user s ≠ User.id user ->
               s ∈ sessions w')
       ∧ login_history w' = login_history w
       ∧ reset_tokens w' = reset_tokens w).
Proof.
  intros Hst. unfold UserViewSet.deactivate.
  case_bool_decide as Hself.
  { eexists _, _. split; [reflexivity|]. split; [done|]. done. }
  unfold bind, ret, on_users, on_sessions, QuerySet.update.
  rewrite save_update_fields_stored by exact Hst. simpl.
  eexists _, _. split; [reflexivity|]. split; [done|]. intros _.
  destruct (revoke_active_sessions now (User.id user) (sessions w))
    as (Hnone & Hkept & _).
  split; [done|]. simpl. split; [|split; [|split; [exact Hnone|split]]].
  - intros r Hin Hid. apply list_elem_of_fmap in Hin as (r0 & -> & _).
    unfold User.same_pk in *. simpl in *.
    case_bool_decide; [done|congruence].
  - intros r Hin Hother. apply list_elem_of_fmap. exists r. split; [|done].
    unfold User.same_pk. simpl. by rewrite bool_decide_eq_false_2.
  - intros s Hin Hother. apply Hkept; [done|by left].
  - done.
Qed.

(** X9.  When the backend accepts the credentials of an account that is
    not flagged active, [post] answers 403 "Account is inactive" and
    records an [inactive_account] failure.  It creates no session and
    leaves the user rows alone: the failure counter is neither incremented
    nor reset. *)
Theorem inactive_account_is_rejected
    (authenticate : AuthenticationView.Backend)
    (clock : AuthenticationView.Clock) (minted : AuthenticationView.Minted)
    (request : AuthenticationView.Request) (w : World) (user : User.t) :
  QuerySet.get UserModel (email_is (AuthenticationView.data_email request))
    (users w) = Ok user ->
  User.is_account_locked (AuthenticationView.at_lock_check clock) user = false ->
  authenticate (users w) (AuthenticationView.data_email request)
    (AuthenticationView.data_password request) = Some user ->
  User.is_active user = false ->
  AuthenticationView.post authenticate clock minted request w
  = (Ok {| data := ErrorBody "Account is inactive";
           status := HTTP_403_FORBIDDEN |},
     history_appended
       (failure_row user "inactive_account"
          (AuthenticationView.client_ip request)
          (default "" (AuthenticationView.http_user_agent request)))
       w).
Proof.
  intros Hget Hfree Hauth Hinactive.
  pose proof (get_Ok_holds _ _ _ _ Hget) as [_ Hemail%email_is_Some].
  unfold AuthenticationView.post, bind, try_except, on_users, query, ret.
  simpl. rewrite Hget. simpl. rewrite Hfree. simpl. rewrite Hauth. simpl.
  rewrite Hinactive. simpl. unfold on_login_history. simpl.
  by rewrite Hemail, login_history_create_appends.
Qed.

Lemma lockout_saved_self (user : User.t) (rows : list User.t) :
  QuerySet.filter (email_is (Some (User.email user))) rows = [user] ->
  let cleared :=
    User.set_locked_until None (User.set_failed_login_attempts 0 user) in
  QuerySet.filter (email_is (Some (User.email user)))
    (lockout_saved cleared rows) = [cleared].
Proof.
  intros Hone cleared. unfold lockout_saved. rewrite filter_map_stable.
  - rewrite Hone. simpl. unfold User.same_pk. simpl.
    rewrite bool_decide_eq_true_2 by done. by destruct user.
  - intros r. by destruct (User.same_pk cleared r).
Qed.

(** X10.  After [unlock], a login with credentials that the backend
    accepts is past the lock check, whatever the counter and the lock
    were: [unlock] answers 200, and the following [post] answers 200 when
    the session key and the token fit their 255-character columns and is
    ended by the database's [DataError] when they do not; it is never
    answered 423. *)
Theorem unlock_then_login_passes_lock_check
    (authenticate : AuthenticationView.Backend)
    (clock : AuthenticationView.Clock) (minted : AuthenticationView.Minted)
    (request : AuthenticationView.Request) (w : World) (user : User.t) :
  QuerySet.get UserModel (email_is (AuthenticationView.data_email request))
    (users w) = Ok user ->
  User.is_active user = true ->
  let cleared :=
    User.set_locked_until None (User.set_failed_login_attempts 0 user) in
  authenticate (lockout_saved cleared (users w))
    (AuthenticationView.data_email request)
    (AuthenticationView.data_password request) = Some cleared ->
  QuerySet.exists_
    (QuerySet.filter
       (fun s => bool_decide (AuthenticationView.session_uuid minted
                              = UserSession.id s)
                 || bool_decide
                      (str_or (AuthenticationView.session_key request)
                         (AuthenticationView.access_for_session_key minted)
                       = UserSession.session_key s))
       (sessions w)) = false ->
  let fits :=
    bool_decide
      (String.length
         (str_or (AuthenticationView.session_key request)
            (AuthenticationView.access_for_session_key minted)) <= 255)%nat
    && bool_decide
         (String.length (AuthenticationView.access_for_jwt_token_id minted)
          <= 255)%nat in
  ∃ w1 result w2,
    UserViewSet.unlock user w
    = (Ok {| payload := Status "User unlocked"; code := HTTP_200_OK |}, w1)
    ∧ AuthenticationView.post authenticate clock minted request w1
      = (result, w2)
    ∧ (fits = true ->
       ∃ response, result = Ok response ∧ status response = HTTP_200_OK)
    ∧ (fits = false -> result = Raise DataError)
    ∧ (∀ response, result = Ok response -> status response = HTTP_200_OK).
Proof.
  intros Hget Hactive cleared Hauth Hsession fits.
  pose proof (get_Ok_holds _ _ _ _ Hget) as [Hin Hemail%email_is_Some].
  pose proof (get_Ok_inv _ _ _ _ Hget) as Hone. rewrite Hemail in Hone.
  set (world1 := {| users := lockout_saved cleared (users w);
                    login_history := login_history w;
                    sessions := sessions w;
                    reset_tokens := reset_tokens w |}).
  assert (Hunlock : UserViewSet.unlock user w
                    = (Ok {| payload := Status "User unlocked";
                             code := HTTP_200_OK |}, world1)).
  { unfold UserViewSet.unlock, bind, ret, on_users, User.reset_failed_login.
    unfold bind, ret.
    by rewrite save_update_fields_stored
      by exact (elem_of_stored user (users w) Hin). }
  assert (Hget1 : QuerySet.get UserModel
                    (email_is (AuthenticationView.data_email request))
                    (users world1) = Ok cleared).
  { pose proof (lockout_saved_self user (users w) Hone) as Hsaved.
    cbv zeta in Hsaved. fold cleared in Hsaved.
    unfold QuerySet.get. simpl users. by rewrite Hemail, Hsaved. }
  pose proof (post_accepted_run authenticate clock minted request world1
                cleared Hget1 eq_refl Hauth Hactive) as Hrun.
  cbv zeta in Hrun.
  change (UserSession.fits (login_session clock minted request cleared))
    with fits in Hrun.
  change (QuerySet.exists_
            (QuerySet.filter
               (UserSession.clash (login_session clock minted request cleared))
               (sessions world1)) = false) in Hsession.
  rewrite Hsession in Hrun.
  exists world1. destruct fits.
  - eexists _, _. split; [exact Hunlock|]. split; [exact Hrun|].
    split; [intros _; by eexists|]. split; [done|].
    by intros response [= <-].
  - eexists _, _. split; [exact Hunlock|]. split; [exact Hrun|].
    split; [done|]. split; [done|]. intros response. discriminate.
Qed.


(** X12.  A login that the backend accepts, on a stored, active, unlocked
    account, first clears the lockout columns of the account's row.  When
    the session key and the token fit their 255-character columns it then
    adds exactly one session (owned by the account, active, expiring 7
    days after the clock reading) and one [success] row to the login
    history, stamps [last_login] and [last_login_ip] on the account's row,
    and returns the session's id and expiry with the tokens.  When one of
    them is longer, the database's [DataError] ends the request: no
    session and no history row is written, and the cleared lockout
    columns stay. *)
Theorem accepted_login_opens_one_session_if_it_fits
    (authenticate : AuthenticationView.Backend)
    (clock : AuthenticationView.Clock) (minted : AuthenticationView.Minted)
    (request : AuthenticationView.Request) (w : World) (user : User.t) :
  QuerySet.get UserModel (email_is (AuthenticationView.data_email request))
    (users w) = Ok user ->
  User.is_account_locked (AuthenticationView.at_lock_check clock) user = false ->
  authenticate (users w) (AuthenticationView.data_email request)
    (AuthenticationView.data_password request) = Some user ->
  User.is_active user = true ->
  QuerySet.exists_
    (QuerySet.filter
       (fun s => bool_decide (AuthenticationView.session_uuid minted
                              = UserSession.id s)
                 || bool_decide
                      (str_or (AuthenticationView.session_key request)
                         (AuthenticationView.access_for_session_key minted)
                       = UserSession.session_key s))
       (sessions w)) = false ->
  let ip_address := AuthenticationView.client_ip request in
  let user_agent := default "" (AuthenticationView.http_user_agent request) in
  let expires :=
    AuthenticationView.at_session_created clock + timedelta.days 7 in
  let session :=
    {| UserSession.id := AuthenticationView.session_uuid minted;
       UserSession.user := User.id user;
       UserSession.session_key :=
         str_or (AuthenticationView.session_key request)
           (AuthenticationView.access_for_session_key minted);
       UserSession.jwt_token_id :=
         AuthenticationView.access_for_jwt_token_id minted;
       UserSession.ip_address := ip_address;
       UserSession.user_agent := user_agent;
       UserSession.expires_at := expires;
       UserSession.revoked_at := None;
       UserSession.is_active := true |} in
  let fits :=
    bool_decide (String.length (UserSession.session_key session) <= 255)%nat
    && bool_decide
         (String.length (UserSession.jwt_token_id session) <= 255)%nat in
  ∃ result w',
    AuthenticationView.post authenticate clock minted request w = (result, w')
    ∧ reset_tokens w' = reset_tokens w
    ∧ (∀ r, r ∈ users w' -> User.id r = User.id user ->
            User.failed_login_attempts r = 0 ∧ User.locked_until r = None)
    ∧ (fits = true ->
       (∃ returned,
          result
          = Ok {| data := LoginBody (AuthenticationView.access_for_response minted)
                            (AuthenticationView.refresh minted) returned
                            (AuthenticationView.session_uuid minted) expires;
                  status := HTTP_200_OK |})
       ∧ sessions w' = sessions w ++ [session]
       ∧ login_history w'
         = login_history w
           ++ [{| LoginHistory.user := Some (User.id user);
                  LoginHistory.email := User.email user;
                  LoginHistory.success := true;
                  LoginHistory.failure_reason := "";
                  LoginHistory.auth_method := "password";
                  LoginHistory.ip_address := ip_address;
                  LoginHistory.user_agent := user_agent;
                  LoginHistory.risk_score := 0 |}]
       ∧ (∀ r, r ∈ users w' -> User.id r = User.id user ->
               User.last_login r = Some (AuthenticationView.at_last_login clock)
               ∧ User.last_login_ip r = Some ip_address))
    ∧ (fits = false ->
       result = Raise DataError
       ∧ sessions w' = sessions w
       ∧ login_history w' = login_history w).
Proof.
  intros Hget Hfree Hauth Hactive Hsession ip_address user_agent expires
    session fits.
  pose proof (post_accepted_run authenticate clock minted request w user
                Hget Hfree Hauth Hactive) as Hrun.
  cbv zeta in Hrun.
  change (login_session clock minted request user) with session in Hrun.
  change (UserSession.fits session) with fits in Hrun.
  change (QuerySet.exists_
            (QuerySet.filter (UserSession.clash session) (sessions w)) = false)
    in Hsession.
  rewrite Hsession in Hrun.
  destruct fits.
  - eexists _, _. split; [exact Hrun|]. split; [done|]. split.
    { intros r Hr Hid.
      apply (accepted_login_rows clock request user (users w) r); [|done].
      by right. }
    split; [|done]. intros _.
    split; [by eexists|]. split; [done|]. split; [done|].
    intros r Hr Hid. simpl in Hr.
    apply list_elem_of_fmap in Hr as (r1 & -> & _).
    unfold User.same_pk in *. simpl in *.
    case_bool_decide; [done|congruence].
  - eexists _, _. split; [exact Hrun|]. split; [done|]. split.
    { intros r Hr Hid.
      apply (accepted_login_rows clock request user (users w) r); [|done].
      by left. }
    split; [done|]. done.
Qed.

(** ** Reset tokens: from issue to use *)

(** What [request_reset] does for a known address and a token that
    collides with no stored one. *)
Lemma request_reset_run (now : datetime)
    (request : PasswordResetView.ResetRequest) (w : World) (user : User.t) :
  QuerySet.get UserModel (email_is (PasswordResetView.data_email request))
    (users w) = Ok user ->
  QuerySet.exists_
    (QuerySet.filter (PasswordResetToken.clash (issued_token now user request))
       (reset_tokens w)) = false ->
  PasswordResetView.request_reset now request w
  = (Ok {| data := MessageBody
             "If the email exists, a password reset link has been sent.";
           status := HTTP_200_OK |},
     {| users := users w; login_history := login_history w;
        sessions := sessions w;
        reset_tokens := reset_tokens w ++ [issued_token now user request] |}).
Proof.
  intros Hget Hfresh.
  unfold PasswordResetView.request_reset, bind, try_except, on_users,
    on_reset_tokens, query, ret.
  simpl. rewrite Hget. simpl. unfold QuerySet.create.
  fold (issued_token now user request). by rewrite Hfresh.
Qed.

(** X13.  [request_reset] answers a request for an address that belongs
    to no account exactly as it answers one for a known address, and for
    the unknown address it stores nothing. *)
Theorem request_reset_does_not_reveal_accounts (now now' : datetime)
    (known unknown : PasswordResetView.ResetRequest) (w : World)
    (user : User.t) :
  QuerySet.get UserModel (email_is (PasswordResetView.data_email known))
    (users w) = Ok user ->
  QuerySet.exists_
    (QuerySet.filter (PasswordResetToken.clash (issued_token now user known))
       (reset_tokens w)) = false ->
  QuerySet.get UserModel (email_is (PasswordResetView.data_email unknown))
    (users w) = Raise (DoesNotExist UserModel) ->
  fst (PasswordResetView.request_reset now' unknown w)
  = fst (PasswordResetView.request_reset now known w)
  ∧ snd (PasswordResetView.request_reset now' unknown w) = w.
Proof.
  intros Hget Hfresh Hnone. rewrite (request_reset_run now known w user) by done.
  unfold PasswordResetView.request_reset, bind, try_except, on_users, query, ret.
  simpl. rewrite Hnone. simpl. split; [done|]. by destruct w.
Qed.

(** The freshly issued token is the only stored token with its text. *)
Lemma issued_token_is_found (now : datetime)
    (request : PasswordResetView.ResetRequest) (user : User.t)
    (rows : list PasswordResetToken.t) :
  QuerySet.exists_
    (QuerySet.filter (PasswordResetToken.clash (issued_token now user request))
       rows) = false ->
  QuerySet.filter (token_is (PasswordResetView.token_urlsafe request))
    (rows ++ [issued_token now user request])
  = [issued_token now user request].
Proof.
  intros Hfresh. rewrite filter_app.
  assert (Hnone : QuerySet.filter
                    (token_is (PasswordResetView.token_urlsafe request)) rows
                  = []).
  { destruct (QuerySet.filter
                (token_is (PasswordResetView.token_urlsafe request)) rows)
      as [|t rest] eqn:Hfilter; [reflexivity|].
    exfalso.
    assert (Hin : In t (List.filter
                          (token_is (PasswordResetView.token_urlsafe request))
                          rows)).
    { unfold QuerySet.filter in Hfilter. rewrite Hfilter. by left. }
    apply filter_In in Hin as [Hin Htext].
    assert (Hclash : QuerySet.exists_
              (QuerySet.filter
                 (PasswordResetToken.clash (issued_token now user request))
                 rows) = true); [|congruence].
    apply exists_filter_true. exists t. split; [by apply list_elem_of_In|].
    unfold PasswordResetToken.clash. apply orb_true_iff. right.
    apply bool_decide_eq_true_2. apply bool_decide_eq_true_1 in Htext.
    by simpl. }
  rewrite Hnone. unfold QuerySet.filter, token_is. simpl.
  by rewrite bool_decide_eq_true_2.
Qed.

(** X14.  A token issued by [request_reset] and presented to
    [reset_password] no later than one hour after it was issued (the
    instant of expiry included) is accepted: the answer is 200 and the
    account's row carries the hash of the new password. *)
Theorem issued_token_resets_the_password (make_password : string -> string)
    (now : datetime) (request : PasswordResetView.ResetRequest)
    (clock : PasswordResetView.Clock)
    (serializer : PasswordResetView.Serializer) (w : World) (user : User.t) :
  QuerySet.get UserModel (email_is (PasswordResetView.data_email request))
    (users w) = Ok user ->
  QuerySet.exists_
    (QuerySet.filter (PasswordResetToken.clash (issued_token now user request))
       (reset_tokens w)) = false ->
  QuerySet.get UserModel
    (PasswordResetView.owner_of (issued_token now user request)) (users w)
  = Ok user ->
  PasswordResetView.is_valid serializer = true ->
  PasswordResetView.validated_token serializer
  = PasswordResetView.token_urlsafe request ->
  PasswordResetView.at_validity_check clock <= now + timedelta.hours 1 ->
  ∃ w2,
    PasswordResetView.reset_password make_password clock serializer
      (snd (PasswordResetView.request_reset now request w))
    = (Ok {| data := MessageBody "Password reset successful";
             status := HTTP_200_OK |}, w2)
    ∧ QuerySet.get UserModel
        (PasswordResetView.owner_of (issued_token now user request))
        (users w2)
      = Ok (password_changed
              (make_password
                 (PasswordResetView.validated_new_password serializer))
              (PasswordResetView.at_password_changed clock) user).
Proof.
  intros Hget Hfresh Howner Hser Htext Hintime.
  rewrite (request_reset_run now request w user) by done. simpl snd.
  pose proof (issued_token_is_found now request user _ Hfresh) as Hone.
  rewrite <- Htext in Hone.
  eexists. split.
  - apply (reset_password_consumes make_password clock serializer _
             (issued_token now user request) user); try done.
    unfold PasswordResetToken.is_valid. simpl.
    by rewrite bool_decide_eq_false_2 by lia.
  - simpl users. unfold QuerySet.get in *. rewrite filter_map_stable.
    + destruct (QuerySet.filter
                  (PasswordResetView.owner_of (issued_token now user request))
                  (users w)) as [|a [|b l]]; try done.
      injection Howner as ->. simpl. unfold User.same_pk. simpl.
      by rewrite bool_decide_eq_true_2.
    + intros r. destruct (User.same_pk _ r) eqn:Hpk; [|done].
      apply bool_decide_eq_true_1 in Hpk. simpl in Hpk.
      unfold PasswordResetView.owner_of. simpl.
      apply bool_decide_ext. by rewrite Hpk.
Qed.

(** X15.  A reset token works once.  After [reset_password] has accepted
    a token, presenting the same token again, at any instant and with any
    new password, is answered 400 and changes nothing. *)
Theorem reset_token_works_once (make_password : string -> string)
    (clock clock' : PasswordResetView.Clock)
    (serializer serializer' : PasswordResetView.Serializer) (w : World)
    (tok : PasswordResetToken.t) (user : User.t) :
  PasswordResetView.is_valid serializer = true ->
  PasswordResetView.is_valid serializer' = true ->
  PasswordResetView.validated_token serializer'
  = PasswordResetView.validated_token serializer ->
  QuerySet.filter (token_is (PasswordResetView.validated_token serializer))
    (reset_tokens w) = [tok] ->
  QuerySet.get UserModel (PasswordResetView.owner_of tok) (users w) = Ok user ->
  PasswordResetToken.is_valid (PasswordResetView.at_validity_check clock) tok
  = true ->
  ∃ w1 message,
    PasswordResetView.reset_password make_password clock serializer w
    = (Ok {| data := MessageBody "Password reset successful";
             status := HTTP_200_OK |}, w1)
    ∧ PasswordResetView.reset_password make_password clock' serializer' w1
      = (Ok {| data := ErrorBody message; status := HTTP_400_BAD_REQUEST |},
         w1).
Proof.
  intros Hser Hser' Hsame Hone Huser Hgood.
  pose proof (reset_password_consumes make_password clock serializer w tok
                user Hser Hone Huser Hgood) as Hrun.
  simpl in Hrun.
  match type of Hrun with _ = (_, ?x) => set (w1 := x) in * end.
  destruct (reset_password_refuses make_password clock' serializer' w1
              (marked_used (PasswordResetView.at_used clock) tok))
    as [message Hagain]; [done| |done|].
  - rewrite Hsame. simpl reset_tokens. rewrite filter_map_stable.
    + rewrite Hone. simpl. unfold PasswordResetToken.same_pk.
      by rewrite bool_decide_eq_true_2.
    + intros r. by destruct (PasswordResetToken.same_pk tok r).
  - by exists w1, message.
Qed.

(** X16.  A token presented later than one hour after [request_reset]
    issued it is answered 400 "Invalid or expired token", and nothing is
    written. *)
Theorem issued_token_expires_after_an_hour (make_password : string -> string)
    (now : datetime) (request : PasswordResetView.ResetRequest)
    (clock : PasswordResetView.Clock)
    (serializer : PasswordResetView.Serializer) (w : World) (user : User.t) :
  QuerySet.get UserModel (email_is (PasswordResetView.data_email request))
    (users w) = Ok user ->
  QuerySet.exists_
    (QuerySet.filter (PasswordResetToken.clash (issued_token now user request))
       (reset_tokens w)) = false ->
  PasswordResetView.is_valid serializer = true ->
  PasswordResetView.validated_token serializer
  = PasswordResetView.token_urlsafe request ->
  PasswordResetView.at_validity_check clock > now + timedelta.hours 1 ->
  let w1 := snd (PasswordResetView.request_reset now request w) in
  PasswordResetView.reset_password make_password clock serializer w1
  = (Ok {| data := ErrorBody "Invalid or expired token";
           status := HTTP_400_BAD_REQUEST |}, w1).
Proof.
  intros Hget Hfresh Hser Htext Hlate.
  rewrite (request_reset_run now request w user) by done. simpl.
  pose proof (issued_token_is_found now request user _ Hfresh) as Hone.
  rewrite <- Htext in Hone.
  pose proof (live_token_filter _ _ _ Hone) as Hlive. simpl in Hlive.
  unfold PasswordResetView.reset_password. rewrite Hser. simpl.
  unfold try_except, bind, on_reset_tokens, query, QuerySet.get, ret.
  simpl reset_tokens. rewrite Hlive. simpl.
  unfold PasswordResetToken.is_valid. simpl.
  by rewrite bool_decide_eq_true_2 by lia.
Qed.

(** ** Role assignments *)

Lemma filter_nil_iff {A : Type} (p : A -> bool) (l : list A) :
  QuerySet.filter p l = [] ↔ ∀ x, x ∈ l -> p x = false.
Proof.
  split.
  - intros Hnil x Hx. by apply (filter_nil_none p l).
  - intros Hall. unfold QuerySet.filter.
    induction l as [|a l IH]; simpl; [done|].
    rewrite (Hall a) by (by left). apply IH. intros x Hx. apply Hall. by right.
Qed.

(** What [assign_role] does when the role exists, the user does not have
    it yet and the new primary key is free. *)
Lemma assign_role_run (now : datetime) (new_id : N)
    (request_user user : User.t) (role_key : N) (role : Role.t)
    (reason : option string) (s : Rbac) :
  rbac_roles s !! role_key = Some role ->
  QuerySet.filter (UserRole.assigned (User.id user) (Role.id role))
    (rbac_user_roles s) = [] ->
  (∀ r, r ∈ rbac_user_roles s -> UserRole.id r ≠ new_id) ->
  let row := new_assignment now new_id request_user user role reason in
  UserViewSet.assign_role now new_id request_user user
    (UUIDField.uuid role_key) reason s
  = (Ok {| payload := AssignedRole row; code := HTTP_201_CREATED |},
     user_roles_replaced (rbac_user_roles s ++ [row]) s).
Proof.
  intros Hrole Hnone Hfree row.
  unfold UserViewSet.assign_role, bind, query, ret, on_user_roles,
    UserRole.get_or_create.
  cbn [UUIDField.to_python]. rewrite Hrole, Hnone. unfold QuerySet.create.
  fold (new_assignment now new_id request_user user role reason). fold row.
  assert (Hclash : QuerySet.filter (UserRole.clash row) (rbac_user_roles s) = []).
  { apply filter_nil_iff. intros r Hr. unfold UserRole.clash. simpl.
    rewrite bool_decide_eq_false_2 by (intros Heq; by apply (Hfree r)).
    simpl. by rewrite andb_false_r. }
  rewrite Hclash. done.
Qed.

(** X17.  Assigning a role that the user already has is refused: after a
    first [assign_role] has created the assignment, a second one for the
    same user and role, whatever its reason, answers 400 "Role already
    assigned" and writes nothing, so exactly one row links the two. *)
Theorem assign_role_twice_is_refused (now now' : datetime) (new_id new_id' : N)
    (request_user request_user' user : User.t) (role_key : N) (role : Role.t)
    (reason reason' : option string) (s : Rbac) :
  rbac_roles s !! role_key = Some role ->
  QuerySet.filter (UserRole.assigned (User.id user) (Role.id role))
    (rbac_user_roles s) = [] ->
  (∀ r, r ∈ rbac_user_roles s -> UserRole.id r ≠ new_id) ->
  ∃ row s1,
    UserViewSet.assign_role now new_id request_user user
      (UUIDField.uuid role_key) reason s
    = (Ok {| payload := AssignedRole row; code := HTTP_201_CREATED |}, s1)
    ∧ UserViewSet.assign_role now' new_id' request_user' user
        (UUIDField.uuid role_key) reason' s1
      = (Ok {| payload := Error "Role already assigned";
               code := HTTP_400_BAD_REQUEST |}, s1)
    ∧ QuerySet.filter (UserRole.assigned (User.id user) (Role.id role))
        (rbac_user_roles s1) = [row].
Proof.
  intros Hrole Hnone Hfree.
  eexists _, _. split; [by apply assign_role_run|].
  assert (Hone : QuerySet.filter
                   (UserRole.assigned (User.id user) (Role.id role))
                   (rbac_user_roles s
                    ++ [new_assignment now new_id request_user user role
                          reason])
                 = [new_assignment now new_id request_user user role reason]).
  { rewrite filter_app, Hnone. unfold QuerySet.filter, UserRole.assigned.
    simpl. by rewrite !bool_decide_eq_true_2. }
  split; [|exact Hone].
  unfold UserViewSet.assign_role, bind, query, ret, on_user_roles,
    UserRole.get_or_create.
  simpl. rewrite Hrole. simpl. rewrite Hone. done.
Qed.

(** X18.  [assign_role] for a role id that is missing from the request,
    or is a UUID that names no stored role, answers 404 "Role not found".
    For a value that is not a UUID the lookup raises django's
    [ValidationError], which the view does not catch: the request ends
    with that exception, not with 404.  Nothing is written in either
    case. *)
Theorem assign_role_without_stored_role (now : datetime) (new_id : N)
    (request_user user : User.t) (role_id : UUIDField.RequestValue)
    (reason : option string) (s : Rbac) :
  (∀ k, role_id = UUIDField.uuid k -> rbac_roles s !! k = None) ->
  UserViewSet.assign_role now new_id request_user user role_id reason s
  = (match role_id with
     | UUIDField.malformed _ => Raise CoreValidationError
     | UUIDField.absent | UUIDField.uuid _ =>
         Ok {| payload := Error "Role not found";
               code := HTTP_404_NOT_FOUND |}
     end, s).
Proof.
  intros Hmissing. unfold UserViewSet.assign_role, bind, query, ret.
  destruct role_id as [|k|raw]; cbn [UUIDField.to_python]; [done| |done].
  by rewrite (Hmissing k).
Qed.

(** X19.  Assigning a role and removing it again gives back the
    assignment table as it was: [remove_role] answers 204 and the row that
    [assign_role] created is gone, with every other row in place. *)
Theorem assign_then_remove_role (now : datetime) (new_id : N)
    (request_user user : User.t) (role_key : N) (role : Role.t)
    (reason : option string) (s : Rbac) :
  rbac_roles s !! role_key = Some role ->
  QuerySet.filter (UserRole.assigned (User.id user) (Role.id role))
    (rbac_user_roles s) = [] ->
  (∀ r, r ∈ rbac_user_roles s -> UserRole.id r ≠ new_id) ->
  (let! _ := UserViewSet.assign_role now new_id request_user user
               (UUIDField.uuid role_key) reason in
   UserViewSet.remove_role user (UUIDField.uuid (Role.id role))) s
  = (Ok {| payload := Empty; code := HTTP_204_NO_CONTENT |}, s).
Proof.
  intros Hrole Hnone Hfree. unfold bind at 1.
  rewrite (assign_role_run now new_id request_user user role_key role reason s)
    by done.
  set (row := new_assignment now new_id request_user user role reason).
  unfold UserViewSet.remove_role, bind, query, ret, on_user_roles,
    QuerySet.get_or_none, QuerySet.delete.
  cbn [UUIDField.to_python]. simpl rbac_user_roles.
  assert (Hfound : QuerySet.filter
                     (UserViewSet.assignment_of user (Some (Role.id role)))
                     (rbac_user_roles s ++ [row]) = [row]).
  { rewrite filter_app.
    assert (Hold : QuerySet.filter
                     (UserViewSet.assignment_of user (Some (Role.id role)))
                     (rbac_user_roles s) = []).
    { apply filter_nil_iff. intros r Hr.
      pose proof (proj1 (filter_nil_iff _ _) Hnone r Hr) as Hnot.
      unfold UserRole.assigned in Hnot. unfold UserViewSet.assignment_of.
      destruct (bool_decide (UserRole.user r = User.id user)); [|done].
      simpl in *. apply bool_decide_eq_false_1 in Hnot.
      apply bool_decide_eq_false_2. congruence. }
    rewrite Hold. unfold QuerySet.filter, UserViewSet.assignment_of. simpl.
    by rewrite !bool_decide_eq_true_2. }
  rewrite Hfound. simpl. rewrite filter_app.
  assert (Hkept : QuerySet.filter
                    (fun r => negb (UserRole.same_pk row r))
                    (rbac_user_roles s) = rbac_user_roles s).
  { unfold QuerySet.filter. apply filter_all. intros r Hr.
    unfold UserRole.same_pk. simpl.
    rewrite bool_decide_eq_false_2; [done|].
    intros Heq. by apply (Hfree r). }
  rewrite Hkept. unfold QuerySet.filter, UserRole.same_pk. simpl.
  rewrite bool_decide_eq_true_2 by done. simpl. rewrite app_nil_r.
  by destruct s.
Qed.

(** X20.  [remove_role] deletes the one assignment of the role to the
    user and no other row, answering 204; when the user does not have the
    role, or the request names none, it answers 404 "Role assignment not
    found" and writes nothing.  For a role id that is not a UUID the
    lookup raises django's [ValidationError], which the view does not
    catch, and nothing is written. *)
Theorem remove_role_effect (user : User.t) (role_id : UUIDField.RequestValue)
    (s : Rbac) :
  NoDup (UserRole.id <$> rbac_user_roles s) ->
  (∀ raw, role_id = UUIDField.malformed raw ->
          UserViewSet.remove_role user role_id s
          = (Raise CoreValidationError, s))
  ∧ (∀ key found,
       UUIDField.to_python role_id = Ok key ->
       QuerySet.filter (UserViewSet.assignment_of user key) (rbac_user_roles s)
       = found ->
       (length found <= 1)%nat ->
       ∃ reply rows',
         UserViewSet.remove_role user role_id s
         = (Ok reply, user_roles_replaced rows' s)
         ∧ (found = [] ->
            reply = {| payload := Error "Role assignment not found";
                       code := HTTP_404_NOT_FOUND |}
            ∧ rows' = rbac_user_roles s)
         ∧ (∀ row, found = [row] ->
            reply = {| payload := Empty; code := HTTP_204_NO_CONTENT |}
            ∧ ∀ r, r ∈ rows' ↔ r ∈ rbac_user_roles s ∧ r ≠ row)).
Proof.
  intros Hids. split.
  { intros raw ->. reflexivity. }
  intros key found Hkey Hfound Hlen.
  unfold UserViewSet.remove_role, bind, query, ret, on_user_roles,
    QuerySet.get_or_none, QuerySet.delete.
  rewrite Hkey, Hfound.
  destruct found as [|row [|row' rest]]; simpl in Hlen; [| |lia].
  - eexists _, _. split; [reflexivity|]. split; [done|]. by intros row.
  - simpl. eexists _, _. split; [reflexivity|]. split; [done|].
    intros ? [= <-]. split; [done|].
    pose proof (filter_singleton_elem _ _ _ Hfound) as [Hrow _].
    intros r. unfold QuerySet.filter.
    rewrite list_elem_of_In, filter_In, <- list_elem_of_In.
    rewrite negb_true_iff. unfold UserRole.same_pk.
    rewrite bool_decide_eq_false. split.
    + intros [Hr Hne]. split; [done|]. intros ->. by apply Hne.
    + intros [Hr Hne]. split; [done|]. intros Hid. apply Hne. symmetry.
      by apply (NoDup_fmap_elem_eq UserRole.id (rbac_user_roles s)).
Qed.

(** ** Roles and permissions *)

Lemma get_all_permissions_lineage (depth : nat) (roles : gmap N Role.t)
    (self : Role.t) (chain : list Role.t) :
  Lineage roles self chain ->
  (length chain <= depth)%nat ->
  Role.get_all_permissions depth roles self
  = Ok (⋃ (Role.permissions <$> chain)).
Proof.
  intros Hchain. revert depth.
  induction Hchain as [self Hroot|self pid parent chain Hpar Hlook _ IH];
    intros depth Hdepth; simpl in Hdepth.
  - destruct depth as [|d]; [lia|]. simpl. rewrite Hroot.
    by rewrite union_empty_r_L.
  - destruct depth as [|d]; [lia|]. simpl. rewrite Hpar, Hlook.
    by rewrite IH by lia.
Qed.

(** Every role of a lineage is its head or a stored row. *)
Lemma lineage_rows (roles : gmap N Role.t) (self : Role.t)
    (chain : list Role.t) (r : Role.t) :
  Lineage roles self chain -> r ∈ chain ->
  r = self ∨ ∃ k, roles !! k = Some r.
Proof.
  intros Hchain. revert r.
  induction Hchain as [self Hroot|self pid parent chain Hpar Hlook _ IH];
    intros r Hr.
  - apply list_elem_of_singleton in Hr. by left.
  - apply elem_of_cons in Hr as [->|Hr]; [by left|].
    destruct (IH r Hr) as [->|Hrow]; right; [by exists pid|done].
Qed.

(** What [assign_permission] does for a stored role and a known
    permission. *)
Lemma assign_permission_run (role : Role.t) (permission_key : N)
    (permission : Permission.t) (s : Rbac) :
  rbac_permissions s !! permission_key = Some permission ->
  is_Some (rbac_roles s !! Role.id role) ->
  RoleViewSet.assign_permission role (UUIDField.uuid permission_key) s
  = (Ok {| payload := Status "Permission assigned"; code := HTTP_200_OK |},
     {| rbac_roles :=
          alter (granted (Permission.id permission)) (Role.id role)
            (rbac_roles s);
        rbac_permissions := rbac_permissions s;
        rbac_user_roles := rbac_user_roles s |}).
Proof.
  intros Hperm [stored_role Hrole].
  unfold RoleViewSet.assign_permission, bind, query, ret, on_roles,
    RoleViewSet.permissions_add.
  cbn [UUIDField.to_python]. by rewrite Hperm, Hrole.
Qed.

(** X21.  A permission assigned to a role is inherited: once
    [assign_permission] has added it, [get_all_permissions] returns it for
    the role itself and for every stored role whose chain of parents
    passes through that role (the role table being keyed by the primary
    key, and the chain fitting the recursion limit). *)
Theorem assigned_permission_is_inherited (role : Role.t) (permission_key : N)
    (permission : Permission.t) (s : Rbac) (depth : nat) (child_key : N)
    (child : Role.t) (chain : list Role.t) :
  (∀ k r, rbac_roles s !! k = Some r -> Role.id r = k) ->
  rbac_permissions s !! permission_key = Some permission ->
  is_Some (rbac_roles s !! Role.id role) ->
  let roles' :=
    rbac_roles
      (snd (RoleViewSet.assign_permission role (UUIDField.uuid permission_key)
              s)) in
  roles' !! child_key = Some child ->
  Lineage roles' child chain ->
  (∃ r, r ∈ chain ∧ Role.id r = Role.id role) ->
  (length chain <= depth)%nat ->
  ∃ permissions,
    Role.get_all_permissions depth roles' child = Ok permissions
    ∧ Permission.id permission ∈ permissions.
Proof.
  intros Hwf Hperm Hrole roles'. subst roles'.
  rewrite (assign_permission_run role permission_key permission s) by done.
  simpl. set (roles' := alter _ _ _).
  intros Hchild Hchain (r & Hr & Hid) Hdepth.
  exists (⋃ (Role.permissions <$> chain)).
  split; [by apply get_all_permissions_lineage|].
  assert (Hrow : ∃ k, roles' !! k = Some r).
  { destruct (lineage_rows roles' child chain r Hchain Hr) as [->|Hrow];
      [by exists child_key|done]. }
  destruct Hrow as [k Hk].
  unfold roles' in Hk. rewrite lookup_alter in Hk.
  apply elem_of_union_list. exists (Role.permissions r).
  split; [apply list_elem_of_fmap; by exists r|].
  case_decide as Hkey.
  - destruct (rbac_roles s !! Role.id role) as [r0|]; simpl in Hk;
      [|discriminate].
    injection Hk as <-. simpl. set_solver.
  - exfalso. apply Hkey. rewrite <- Hid. by apply Hwf.
Qed.

(** X22.  [assign_permission] is idempotent: assigning the same
    permission to the same role a second time answers 200 again and leaves
    the tables exactly as the first assignment left them. *)
Theorem assign_permission_twice (role : Role.t) (permission_key : N)
    (permission : Permission.t) (s : Rbac) :
  rbac_permissions s !! permission_key = Some permission ->
  is_Some (rbac_roles s !! Role.id role) ->
  let once :=
    RoleViewSet.assign_permission role (UUIDField.uuid permission_key) s in
  RoleViewSet.assign_permission role (UUIDField.uuid permission_key) (snd once)
  = once.
Proof.
  intros Hperm Hrole once. subst once.
  rewrite (assign_permission_run role permission_key permission s) by done.
  simpl snd.
  rewrite (assign_permission_run role permission_key permission); simpl;
    [|done|].
  2:{ rewrite lookup_alter. case_decide; [|done].
      destruct Hrole as [r0 ->]. by eexists. }
  do 2 f_equal. apply map_eq. intros k. rewrite !lookup_alter.
  case_decide; [|done]. rewrite decide_True by done.
  destruct (rbac_roles s !! Role.id role) as [r0|]; [|done]. simpl. f_equal.
  unfold granted. simpl. f_equal.
  rewrite <- (assoc_L (∪)). by rewrite (idemp_L (∪)).
Qed.

(** X23.  [assign_permission] for a permission id that is missing from
    the request, or is a UUID that names no stored permission, answers 404
    "Permission not found".  For a value that is not a UUID the lookup
    raises django's [ValidationError], which the view does not catch: the
    request ends with that exception, not with 404.  Nothing is written
    in either case. *)
Theorem assign_permission_without_stored_permission (role : Role.t)
    (permission_id : UUIDField.RequestValue) (s : Rbac) :
  (∀ k, permission_id = UUIDField.uuid k -> rbac_permissions s !! k = None) ->
  RoleViewSet.assign_permission role permission_id s
  = (match permission_id with
     | UUIDField.malformed _ => Raise CoreValidationError
     | UUIDField.absent | UUIDField.uuid _ =>
         Ok {| payload := Error "Permission not found";
               code := HTTP_404_NOT_FOUND |}
     end, s).
Proof.
  intros Hmissing. unfold RoleViewSet.assign_permission, bind, query, ret.
  destruct permission_id as [|k|raw]; cbn [UUIDField.to_python]; [done| |done].
  by rewrite (Hmissing k).
Qed.

(** X24.  The recursion limit never changes what [get_all_permissions]
    returns: a result obtained within some limit is obtained, unchanged,
    within every larger limit, so two calls that both return agree. *)
Theorem recursion_limit_does_not_change_permissions (depth depth' : nat)
    (roles : gmap N Role.t) (self : Role.t) (permissions : gset N) :
  Role.get_all_permissions depth roles self = Ok permissions ->
  ((depth <= depth')%nat ->
   Role.get_all_permissions depth' roles self = Ok permissions)
  ∧ (∀ permissions',
       Role.get_all_permissions depth' roles self = Ok permissions' ->
       permissions' = permissions).
Proof.
  intros Hrun. split.
  - intros Hle. by apply (get_all_permissions_more_depth depth).
  - intros permissions' Hrun'.
    destruct (Nat.le_ge_cases depth depth') as [Hle|Hge].
    + rewrite (get_all_permissions_more_depth depth depth' _ _ _ Hrun Hle)
        in Hrun'. congruence.
    + rewrite (get_all_permissions_more_depth depth' depth _ _ _ Hrun' Hge)
        in Hrun. congruence.
Qed.

(** ** Permissions grouped by resource *)

Lemma group_one_lookup {Data : Type} (serialize : Permission.t -> Data)
    (grouped : gmap string (list Data)) (perm : Permission.t)
    (resource : string) :
  PermissionViewSet.group_one serialize grouped perm !! resource
  = if bool_decide (Permission.resource perm = resource)
    then Some (default [] (grouped !! resource) ++ [serialize perm])
    else grouped !! resource.
Proof.
  unfold PermissionViewSet.group_one. case_bool_decide as Hres.
  - subst resource. rewrite lookup_insert_eq. do 2 f_equal.
    destruct (grouped !! Permission.resource perm) eqn:Hold; [by rewrite Hold|].
    by rewrite lookup_insert_eq.
  - rewrite lookup_insert_ne by done.
    destruct (grouped !! Permission.resource perm); [done|].
    by rewrite lookup_insert_ne.
Qed.

(** X25.  [by_resource] files every permission of the queryset under its
    own resource, once, in queryset order: the entry of a resource is the
    serialized list of exactly the permissions with that resource, and a
    resource that no permission has gets no entry. *)
Theorem by_resource_groups {Data : Type} (serialize : Permission.t -> Data)
    (permissions : list Permission.t) (resource : string) :
  PermissionViewSet.by_resource serialize permissions !! resource
  = match List.filter
            (fun p => bool_decide (Permission.resource p = resource))
            permissions with
    | [] => None
    | p :: ps => Some (serialize <$> p :: ps)
    end.
Proof.
  unfold PermissionViewSet.by_resource.
  induction permissions as [|perm perms IH] using rev_ind; [done|].
  rewrite foldl_app. simpl. rewrite group_one_lookup, IH, List.filter_app.
  simpl. destruct (bool_decide (Permission.resource perm = resource)).
  - destruct (List.filter _ perms) as [|p ps]; simpl; [done|].
    by rewrite fmap_app.
  - rewrite app_nil_r. done.
Qed.

(** X26.  On a hierarchy with a cycle the [permissions] view does not
    answer: when every role of some group has a stored parent that is in
    the group again, [get_all_permissions] uses up any recursion limit, so
    the view raises [RecursionError] for each role of the group. *)
Theorem permissions_view_fails_on_cycles (group : Role.t -> Prop)
    (depth : nat) (role : Role.t) (s : Rbac) :
  (∀ r, group r ->
        ∃ parent_id parent,
          Role.parent_role r = Some parent_id
          ∧ rbac_roles s !! parent_id = Some parent
          ∧ group parent) ->
  group role ->
  RoleViewSet.permissions depth role s = (Raise RecursionError, s).
Proof.
  intros Hclosed Hrole.
  assert (Hloop : ∀ depth r, group r ->
            Role.get_all_permissions depth (rbac_roles s) r
            = Raise RecursionError).
  { clear depth role Hrole. induction depth as [|d IH]; intros r Hr; [done|].
    destruct (Hclosed r Hr) as (pid & parent & Hpar & Hlook & Hgroup).
    simpl. by rewrite Hpar, Hlook, (IH parent Hgroup). }
  unfold RoleViewSet.permissions, bind, query, ret.
  by rewrite (Hloop depth role Hrole).
Qed.

(** ** What failed logins leave behind *)

(** X27.  A login attempt for an address that belongs to no account, which
    the backend rejects, is answered 401 "Invalid credentials" and leaves
    no trace: no row is added to the login history and no table
    changes. *)
Theorem unknown_address_leaves_no_trace
    (authenticate : AuthenticationView.Backend)
    (clock : AuthenticationView.Clock) (minted : AuthenticationView.Minted)
    (request : AuthenticationView.Request) (w : World) :
  QuerySet.get UserModel (email_is (AuthenticationView.data_email request))
    (users w) = Raise (DoesNotExist UserModel) ->
  authenticate (users w) (AuthenticationView.data_email request)
    (AuthenticationView.data_password request) = None ->
  AuthenticationView.post authenticate clock minted request w
  = (Ok {| data := ErrorBody "Invalid credentials";
           status := HTTP_401_UNAUTHORIZED |}, w).
Proof. apply post_rejects_unknown_email. Qed.

(** X28.  A login attempt on a known account that is not locked, with
    credentials that the backend rejects, is answered 401; it adds exactly
    one to the failure counter of the account's row, appends one
    [invalid_credentials] row to the login history, and creates no
    session. *)
Theorem rejected_password_is_counted_once
    (authenticate : AuthenticationView.Backend)
    (clock : AuthenticationView.Clock) (minted : AuthenticationView.Minted)
    (request : AuthenticationView.Request) (w : World) (user : User.t) :
  QuerySet.get UserModel (email_is (AuthenticationView.data_email request))
    (users w) = Ok user ->
  User.is_account_locked (AuthenticationView.at_lock_check clock) user = false ->
  authenticate (users w) (AuthenticationView.data_email request)
    (AuthenticationView.data_password request) = None ->
  ∃ w',
    AuthenticationView.post authenticate clock minted request w
    = (Ok {| data := ErrorBody "Invalid credentials";
             status := HTTP_401_UNAUTHORIZED |}, w')
    ∧ (∀ r, r ∈ users w' -> User.id r = User.id user ->
            User.failed_login_attempts r = User.failed_login_attempts user + 1)
    ∧ login_history w'
      = login_history w
        ++ [failure_row user "invalid_credentials"
              (AuthenticationView.client_ip request)
              (default "" (AuthenticationView.http_user_agent request))]
    ∧ sessions w' = sessions w
    ∧ reset_tokens w' = reset_tokens w.
Proof.
  intros Hget Hfree Hauth.
  pose proof (post_rejects_wrong_password authenticate clock minted request w
                user Hget Hfree Hauth) as Hrun.
  cbv zeta in Hrun. eexists. split; [exact Hrun|]. simpl.
  split; [|done].
  intros r Hin Hid. by apply lockout_saved_row in Hin as [-> _].
Qed.

(** ** The further properties at concrete inputs *)

Lemma remove_session_drops_that_id_witness :
  stored alice_ten_sessions [alice_ten_sessions] = true
  ∧ ∃ self' rows',
      User.remove_session "s3" alice_ten_sessions [alice_ten_sessions]
      = (Ok self', rows')
      ∧ ∀ s, s ∈ User.active_sessions self' ->  summary_id s ≠ "s3".
Proof.
  split; [reflexivity|].
  destruct (remove_session_drops_that_id "s3" alice_ten_sessions
              [alice_ten_sessions] eq_refl)
    as (self' & rows' & Hrun & Hiff & _).
  exists self', rows'. split; [exact Hrun|].
  intros s Hs. by apply Hiff in Hs as [_ Hne].
Defined.

Lemma add_then_remove_session_witness :
  ∃ self' rows',
    (let! added := User.add_session 99 "s1" "10.0.0.2" "firefox" alice in
     User.remove_session "s1" added) [alice]
    = (Ok self', rows')
    ∧ User.active_sessions self' = User.active_sessions alice.
Proof.
  assert (Hlen : (length (User.active_sessions alice) < 10)%nat)
    by (simpl; lia).
  assert (Hfresh : ∀ s, s ∈ User.active_sessions alice -> summary_id s ≠ "s1")
    by (intros s Hs; by apply elem_of_nil in Hs).
  destruct (add_then_remove_session 99 "s1" "10.0.0.2" "firefox" alice [alice]
              eq_refl Hlen Hfresh) as (self' & rows' & Hrun & Hsame & _).
  by exists self', rows'.
Defined.

Lemma user_role_validity_is_an_interval_witness :
  UserRole.is_valid 10 temporary_assignment = true
  ∧ UserRole.is_valid 20 temporary_assignment = true
  ∧ UserRole.is_valid 15 temporary_assignment = true.
Proof.
  split; [reflexivity|]. split; [reflexivity|].
  apply (user_role_validity_is_an_interval temporary_assignment 10 15 20);
    [reflexivity|reflexivity|lia].
Defined.

Lemma subscription_does_not_come_back_witness :
  TenantSubscription.is_subscription_active 101 trial_subscription = false
  ∧ TenantSubscription.is_subscription_active 500 trial_subscription = false.
Proof.
  split; [reflexivity|].
  apply (subscription_does_not_come_back trial_subscription 101 500);
    [reflexivity|lia].
Defined.

Lemma sample_session_ids_unique :
  NoDup (UserSession.id <$> sessions world_sessions).
Proof. apply (bool_decide_unpack _). by vm_compute. Qed.

Lemma sample_session_keys_unique :
  NoDup (UserSession.session_key <$> sessions world_sessions).
Proof. apply (bool_decide_unpack _). by vm_compute. Qed.

Lemma logout_revokes_only_own_session_witness :
  ∃ rows',
    LogoutView.logout 50 alice (Some "key-1") None world_sessions
    = (Ok {| payload := Status "Logged out successfully";
             code := HTTP_200_OK |},
       sessions_replaced rows' world_sessions)
    ∧ UserSession.revoked 50 (sample_session 201 7 "key-1") ∈ rows'
    ∧ sample_session 203 8 "key-3" ∈ rows'.
Proof.
  destruct (logout_revokes_only_own_session 50 alice (Some "key-1") None
              world_sessions sample_session_ids_unique
              sample_session_keys_unique)
    as (rows' & Hrun & _ & Hhit & _ & Hother).
  exists rows'. split; [exact Hrun|]. split.
  - apply Hhit; [|reflexivity]. simpl. by left.
  - apply Hother; [|by vm_compute]. simpl. right. right. by left.
Defined.

Lemma logout_twice_is_logout_once_witness :
  let once := LogoutView.logout 50 alice (Some "key-1") None world_sessions in
  LogoutView.logout 60 alice (Some "key-1") None (snd once)
  = (fst once, snd once).
Proof.
  apply (logout_twice_is_logout_once 50 60 alice (Some "key-1") None
           world_sessions sample_session_ids_unique
           sample_session_keys_unique).
Defined.

Lemma deactivate_effect_witness :
  stored alice (users world_sessions) = true
  ∧ ∃ reply w',
      UserViewSet.deactivate 50 bob_inactive alice world_sessions
      = (Ok reply, w')
      ∧ reply = {| payload := Status "User deactivated";
                   code := HTTP_200_OK |}
      ∧ (∀ s, s ∈ sessions w' -> UserSession.user s = User.id alice ->
              UserSession.is_active s = false).
Proof.
  split; [reflexivity|].
  destruct (deactivate_effect 50 bob_inactive alice world_sessions eq_refl)
    as (reply & w' & Hrun & _ & Hother).
  assert (Hne : User.id alice ≠ User.id bob_inactive) by (by vm_compute).
  destruct (Hother Hne) as (Hreply & _ & _ & Hsessions & _).
  by exists reply, w'.
Defined.

Lemma inactive_account_is_rejected_witness :
  sample_backend (users world_inactive) (Some "alice@example.com")
    (Some "old") = Some alice_inactive
  ∧ fst (AuthenticationView.post sample_backend (login_clock 5) sample_minted
           (login_request "alice@example.com" "old") world_inactive)
    = Ok {| data := ErrorBody "Account is inactive";
            status := HTTP_403_FORBIDDEN |}.
Proof.
  split; [reflexivity|].
  by rewrite (inactive_account_is_rejected sample_backend (login_clock 5)
                sample_minted (login_request "alice@example.com" "old")
                world_inactive alice_inactive eq_refl eq_refl eq_refl eq_refl).
Defined.

Lemma unlock_then_login_passes_lock_check_witness :
  User.is_account_locked (timedelta.minutes 10) alice_locked = true
  ∧ (∃ w1 response w2,
       UserViewSet.unlock alice_locked world_locked
       = (Ok {| payload := Status "User unlocked"; code := HTTP_200_OK |}, w1)
       ∧ AuthenticationView.post sample_backend
           (login_clock (timedelta.minutes 10)) sample_minted
           (login_request "alice@example.com" "old") w1
         = (Ok response, w2)
       ∧ status response = HTTP_200_OK)
  ∧ (∃ w1 w2,
       UserViewSet.unlock alice_locked world_locked
       = (Ok {| payload := Status "User unlocked"; code := HTTP_200_OK |}, w1)
       ∧ AuthenticationView.post sample_backend
           (login_clock (timedelta.minutes 10)) rs256_minted
           (login_request "alice@example.com" "old") w1
         = (Raise DataError, w2)).
Proof.
  split; [reflexivity|]. split.
  - destruct (unlock_then_login_passes_lock_check sample_backend
                (login_clock (timedelta.minutes 10)) sample_minted
                (login_request "alice@example.com" "old") world_locked
                alice_locked eq_refl eq_refl eq_refl eq_refl)
      as (w1 & result & w2 & Hunlock & Hrun & Hfits & _).
    destruct (Hfits eq_refl) as (response & -> & Hstatus).
    by exists w1, response, w2.
  - destruct (unlock_then_login_passes_lock_check sample_backend
                (login_clock (timedelta.minutes 10)) rs256_minted
                (login_request "alice@example.com" "old") world_locked
                alice_locked eq_refl eq_refl eq_refl eq_refl)
      as (w1 & result & w2 & Hunlock & Hrun & _ & Hlong & _).
    rewrite (Hlong eq_refl) in Hrun.
    by exists w1, w2.
Defined.


Lemma accepted_login_opens_one_session_if_it_fits_witness :
  (∃ returned w',
     AuthenticationView.post sample_backend (login_clock 5) sample_minted
       (login_request "alice@example.com" "old") world0
     = (Ok {| data := LoginBody "access.jwt.3" "refresh.jwt" returned 500%N
                        (5 + timedelta.days 7);
              status := HTTP_200_OK |}, w')
     ∧ length (sessions w') = 1%nat)
  ∧ String.length (rs256_token "access1") = 387%nat
  ∧ (∃ w',
       AuthenticationView.post sample_backend
         (login_clock (timedelta.hours 2)) rs256_minted
         (login_request "alice@example.com" "old") world_locked
       = (Raise DataError, w')
       ∧ sessions w' = []
       ∧ login_history w' = []
       ∧ User.failed_login_attempts <$> users world_locked = [5]
       ∧ User.failed_login_attempts <$> users w' = [0]).
Proof.
  split; [|split; [reflexivity|]].
  - destruct (accepted_login_opens_one_session_if_it_fits sample_backend
                (login_clock 5) sample_minted
                (login_request "alice@example.com" "old") world0
                alice eq_refl eq_refl eq_refl eq_refl eq_refl)
      as (result & w' & Hrun & _ & _ & Hfits & _).
    destruct (Hfits eq_refl) as ((returned & ->) & Hsessions & _).
    exists returned, w'. split; [exact Hrun|]. by rewrite Hsessions.
  - destruct (accepted_login_opens_one_session_if_it_fits sample_backend
                (login_clock (timedelta.hours 2)) rs256_minted
                (login_request "alice@example.com" "old") world_locked
                alice_locked eq_refl eq_refl eq_refl eq_refl eq_refl)
      as (result & w' & Hrun & _ & _ & _ & Hlong).
    destruct (Hlong eq_refl) as (-> & Hsessions & Hhistory).
    exists w'. split; [exact Hrun|]. split; [exact Hsessions|].
    split; [exact Hhistory|]. split; [reflexivity|].
    revert Hrun. vm_compute. by intros [= <-].
Defined.

Lemma request_reset_does_not_reveal_accounts_witness :
  let unknown :=
    {| PasswordResetView.data_email := Some "mallory@example.com";
       PasswordResetView.client_ip := "10.0.0.9";
       PasswordResetView.http_user_agent := None;
       PasswordResetView.token_urlsafe := "third-token";
       PasswordResetView.token_uuid := 102%N |} in
  fst (PasswordResetView.request_reset 7 unknown world0)
  = fst (PasswordResetView.request_reset 0 first_request world0)
  ∧ snd (PasswordResetView.request_reset 7 unknown world0) = world0.
Proof.
  intros unknown.
  apply (request_reset_does_not_reveal_accounts 0 7 first_request unknown
           world0 alice); reflexivity.
Defined.

Lemma issued_token_resets_the_password_witness :
  ∃ w2,
    PasswordResetView.reset_password sample_hasher
      (reset_clock (timedelta.hours 1)) first_token_presented
      (snd (PasswordResetView.request_reset 0 first_request world0))
    = (Ok {| data := MessageBody "Password reset successful";
             status := HTTP_200_OK |}, w2)
    ∧ User.password <$> users w2 = ["pbkdf2$correct horse"].
Proof.
  assert (Hintime : PasswordResetView.at_validity_check
                      (reset_clock (timedelta.hours 1))
                    <= 0 + timedelta.hours 1) by (by vm_compute).
  destruct (issued_token_resets_the_password sample_hasher 0 first_request
              (reset_clock (timedelta.hours 1)) first_token_presented world0
              alice eq_refl eq_refl eq_refl eq_refl eq_refl Hintime)
    as (w2 & Hrun & _).
  exists w2. split; [exact Hrun|].
  revert Hrun. vm_compute. by intros [= <-].
Defined.

Lemma reset_token_works_once_witness :
  ∃ w1 message,
    PasswordResetView.reset_password sample_hasher
      (reset_clock (timedelta.minutes 2)) first_token_presented
      world_two_requests
    = (Ok {| data := MessageBody "Password reset successful";
             status := HTTP_200_OK |}, w1)
    ∧ PasswordResetView.reset_password sample_hasher
        (reset_clock (timedelta.minutes 3)) first_token_presented w1
      = (Ok {| data := ErrorBody message; status := HTTP_400_BAD_REQUEST |},
         w1).
Proof.
  apply (reset_token_works_once sample_hasher
           (reset_clock (timedelta.minutes 2))
           (reset_clock (timedelta.minutes 3))
           first_token_presented first_token_presented world_two_requests
           (issued_token 0 alice first_request) alice); reflexivity.
Defined.

Lemma issued_token_expires_after_an_hour_witness :
  let w1 := snd (PasswordResetView.request_reset 0 first_request world0) in
  PasswordResetView.reset_password sample_hasher
    (reset_clock (timedelta.hours 2)) first_token_presented w1
  = (Ok {| data := ErrorBody "Invalid or expired token";
           status := HTTP_400_BAD_REQUEST |}, w1).
Proof.
  apply (issued_token_expires_after_an_hour sample_hasher 0 first_request
           (reset_clock (timedelta.hours 2)) first_token_presented world0
           alice); reflexivity.
Defined.

Lemma rbac_tree_has_no_assignment (new_id : N) :
  ∀ r, r ∈ rbac_user_roles rbac_tree -> UserRole.id r ≠ new_id.
Proof. intros r Hr. by apply elem_of_nil in Hr. Qed.

Lemma assign_role_twice_is_refused_witness :
  ∃ row s1,
    UserViewSet.assign_role 5 900%N bob_inactive alice (UUIDField.uuid 3%N)
      (Some "on call") rbac_tree
    = (Ok {| payload := AssignedRole row; code := HTTP_201_CREATED |}, s1)
    ∧ UserViewSet.assign_role 6 901%N bob_inactive alice (UUIDField.uuid 3%N)
        None s1
      = (Ok {| payload := Error "Role already assigned";
               code := HTTP_400_BAD_REQUEST |}, s1)
    ∧ QuerySet.filter (UserRole.assigned (User.id alice) (Role.id role_viewer))
        (rbac_user_roles s1) = [row].
Proof.
  apply (assign_role_twice_is_refused 5 6 900%N 901%N bob_inactive
           bob_inactive alice 3%N role_viewer (Some "on call") None rbac_tree
           eq_refl eq_refl (rbac_tree_has_no_assignment 900%N)).
Defined.

Lemma assign_role_without_stored_role_witness :
  UserViewSet.assign_role 5 900%N bob_inactive alice (UUIDField.uuid 77%N)
    None rbac_tree
  = (Ok {| payload := Error "Role not found"; code := HTTP_404_NOT_FOUND |},
     rbac_tree)
  ∧ UserViewSet.assign_role 5 900%N bob_inactive alice
      (UUIDField.malformed "viewer") None rbac_tree
    = (Raise CoreValidationError, rbac_tree).
Proof.
  split.
  - apply (assign_role_without_stored_role 5 900%N bob_inactive alice
             (UUIDField.uuid 77%N) None rbac_tree).
    by intros k [= <-].
  - by apply (assign_role_without_stored_role 5 900%N bob_inactive alice
                (UUIDField.malformed "viewer") None rbac_tree).
Defined.

Lemma assign_then_remove_role_witness :
  (let! _ := UserViewSet.assign_role 5 900%N bob_inactive alice
               (UUIDField.uuid 3%N) None in
   UserViewSet.remove_role alice (UUIDField.uuid (Role.id role_viewer)))
    rbac_tree
  = (Ok {| payload := Empty; code := HTTP_204_NO_CONTENT |}, rbac_tree).
Proof.
  apply (assign_then_remove_role 5 900%N bob_inactive alice 3%N role_viewer
           None rbac_tree eq_refl eq_refl (rbac_tree_has_no_assignment 900%N)).
Defined.

Lemma remove_role_effect_witness :
  let s := user_roles_replaced [temporary_assignment] rbac_tree in
  (∃ reply rows',
     UserViewSet.remove_role alice (UUIDField.uuid 3%N) s
     = (Ok reply, user_roles_replaced rows' s)
     ∧ reply = {| payload := Empty; code := HTTP_204_NO_CONTENT |}
     ∧ temporary_assignment ∉ rows')
  ∧ UserViewSet.remove_role alice (UUIDField.malformed "viewer") s
    = (Raise CoreValidationError, s).
Proof.
  intros s.
  assert (Hids : NoDup (UserRole.id <$> rbac_user_roles s))
    by (apply (bool_decide_unpack _); by vm_compute).
  assert (Hlen : (length [temporary_assignment] <= 1)%nat) by (simpl; lia).
  split.
  - destruct (remove_role_effect alice (UUIDField.uuid 3%N) s Hids)
      as [_ Hkey].
    destruct (Hkey (Some 3%N) [temporary_assignment] eq_refl eq_refl Hlen)
      as (reply & rows' & Hrun & _ & Hfound).
    destruct (Hfound temporary_assignment eq_refl) as [Hreply Hrows].
    exists reply, rows'. split; [exact Hrun|]. split; [exact Hreply|].
    intros Hin. by apply Hrows in Hin as [_ Hne].
  - destruct (remove_role_effect alice (UUIDField.malformed "viewer") s Hids)
      as [Hraw _].
    by apply (Hraw "viewer").
Defined.

Lemma tree_roles_keyed_by_id :
  ∀ k r, rbac_roles rbac_tree !! k = Some r -> Role.id r = k.
Proof.
  intros k r Hlook. simpl in Hlook. unfold tree_roles in Hlook.
  apply lookup_insert_Some in Hlook as [[<- <-]|[_ Hlook]]; [done|].
  apply lookup_insert_Some in Hlook as [[<- <-]|[_ Hlook]]; [done|].
  by rewrite lookup_empty in Hlook.
Qed.

Lemma assigned_permission_is_inherited_witness :
  let roles' :=
    rbac_roles
      (snd (RoleViewSet.assign_permission role_viewer (UUIDField.uuid 13%N)
              rbac_tree)) in
  ∃ permissions,
    Role.get_all_permissions 1000 roles' role_editor = Ok permissions
    ∧ 13%N ∈ permissions.
Proof.
  intros roles'.
  apply (assigned_permission_is_inherited role_viewer 13%N permission_admin
           rbac_tree 1000 4%N role_editor
           [role_editor; granted 13%N role_viewer]).
  - exact tree_roles_keyed_by_id.
  - reflexivity.
  - by eexists.
  - by vm_compute.
  - apply lineage_parent with (parent_id := 3%N)
      (parent := granted 13%N role_viewer); [reflexivity|by vm_compute|].
    apply lineage_root. reflexivity.
  - exists (granted 13%N role_viewer). split; [|reflexivity].
    right. by left.
  - simpl. lia.
Defined.

Lemma assign_permission_twice_witness :
  let once :=
    RoleViewSet.assign_permission role_viewer (UUIDField.uuid 13%N) rbac_tree in
  RoleViewSet.assign_permission role_viewer (UUIDField.uuid 13%N) (snd once)
  = once.
Proof.
  apply (assign_permission_twice role_viewer 13%N permission_admin rbac_tree);
    [reflexivity|by eexists].
Defined.

Lemma assign_permission_without_stored_permission_witness :
  RoleViewSet.assign_permission role_viewer (UUIDField.uuid 99%N) rbac_tree
  = (Ok {| payload := Error "Permission not found";
           code := HTTP_404_NOT_FOUND |}, rbac_tree)
  ∧ RoleViewSet.assign_permission role_viewer (UUIDField.malformed "admin")
      rbac_tree
    = (Raise CoreValidationError, rbac_tree).
Proof.
  split.
  - apply (assign_permission_without_stored_permission role_viewer
             (UUIDField.uuid 99%N) rbac_tree).
    by intros k [= <-].
  - by apply (assign_permission_without_stored_permission role_viewer
                (UUIDField.malformed "admin") rbac_tree).
Defined.

Lemma recursion_limit_does_not_change_permissions_witness :
  Role.get_all_permissions 2 tree_roles role_editor
  = Ok (Role.permissions role_editor ∪ Role.permissions role_viewer)
  ∧ Role.get_all_permissions 1000 tree_roles role_editor
    = Ok (Role.permissions role_editor ∪ Role.permissions role_viewer).
Proof.
  assert (Hshallow : Role.get_all_permissions 2 tree_roles role_editor
            = Ok (Role.permissions role_editor ∪ Role.permissions role_viewer))
    by reflexivity.
  split; [exact Hshallow|].
  apply (recursion_limit_does_not_change_permissions 2 1000 tree_roles
           role_editor _ Hshallow). lia.
Defined.

Lemma permissions_view_fails_on_cycles_witness :
  RoleViewSet.permissions 1000 role_a rbac_cycle
  = (Raise RecursionError, rbac_cycle).
Proof.
  apply (permissions_view_fails_on_cycles
           (fun r => r = role_a ∨ r = role_b) 1000 role_a rbac_cycle);
    [|by left].
  intros r [-> | ->].
  - exists 2%N, role_b. split; [reflexivity|]. split; [reflexivity|by right].
  - exists 1%N, role_a. split; [reflexivity|]. split; [reflexivity|by left].
Defined.

Lemma unknown_address_leaves_no_trace_witness :
  AuthenticationView.post sample_backend (login_clock 5) sample_minted
    (login_request "mallory@example.com" "guess") world0
  = (Ok {| data := ErrorBody "Invalid credentials";
           status := HTTP_401_UNAUTHORIZED |}, world0).
Proof.
  apply (unknown_address_leaves_no_trace sample_backend (login_clock 5)
           sample_minted (login_request "mallory@example.com" "guess") world0);
    reflexivity.
Defined.

Lemma rejected_password_is_counted_once_witness :
  ∃ w',
    AuthenticationView.post sample_backend (login_clock 5) sample_minted
      (login_request "alice@example.com" "guess") world0
    = (Ok {| data := ErrorBody "Invalid credentials";
             status := HTTP_401_UNAUTHORIZED |}, w')
    ∧ sessions w' = sessions world0
    ∧ length (login_history w') = 1%nat.
Proof.
  destruct (rejected_password_is_counted_once sample_backend (login_clock 5)
              sample_minted (login_request "alice@example.com" "guess")
              world0 alice eq_refl eq_refl eq_refl)
    as (w' & Hrun & _ & Hhistory & Hsessions & _).
  exists w'. split; [exact Hrun|]. split; [exact Hsessions|].
  by rewrite Hhistory.
Defined.
